(** * Frizzle collaborative travel-planning agent

    A shallow embedding of [src/agent/agent.py]: the checklist and itinerary
    payload builders, the points-of-interest adapter, the four backend tools
    and the two-node dispatch graph, followed by the properties the
    specification states about them.

    Conventions of the embedding.
    - A Python [str] is a [string] holding its UTF-8 encoding.  Iterating a
      [str] and slicing it go through [PyStr.chars], which cuts the bytes at
      code-point boundaries; [lower], [title] and [strip] work on the code
      points, with the character database of module [Unicode].
    - A Python [int] is a [Z]; a Python [float] is a binary64 value of
      [spec_float] with the operations of [SpecFloat] at precision 53.
    - A [dict] read only through [get] is a [gmap]; a [dict] that is iterated
      or serialised keeps its insertion order in a list or a record.
    - A Python exception is [None] in the [option] monad.
    - The hosted model, the places service and the environment are records
      of functions ([Model], [World]); the message history and the tool
      node of the graph follow the graph library ([add_messages],
      [ToolNode]), and the validation of tool arguments is a [Schema]. *)

From Stdlib Require Import ZArith String Ascii List Lia DecimalString.
From Stdlib Require Import Floats.SpecFloat.
From stdpp Require Import gmap strings list fin_maps.

Open Scope Z_scope.

Set Warnings "-register-all,-clear-no-such-hyp,-abstract-large-number".

(** ** The character database of Python's [str]

    The case mappings and character classes behind [str.lower],
    [str.title] and [str.strip], as CPython 3.11 carries them (Unicode
    14.0.0).  Code points are integers.  A run [(first, last, stride,
    delta)] maps every code point [first + k * stride] up to [last] to
    itself plus [delta]; the runs are sorted by their first code point. *)

Module Unicode.

Definition run : Type := Z * Z * Z * Z.

(** Code points whose lowercase is a single other code point. *)
Definition lower_runs : list run :=
  [ (65, 90, 1, 32); (192, 214, 1, 32); (216, 222, 1, 32); (256, 302, 2, 1);
    (306, 310, 2, 1); (313, 327, 2, 1); (330, 374, 2, 1); (376, 376, 1, -121);
    (377, 381, 2, 1); (385, 385, 1, 210); (386, 388, 2, 1); (390, 390, 1, 206);
    (391, 391, 1, 1); (393, 394, 1, 205); (395, 395, 1, 1); (398, 398, 1, 79);
    (399, 399, 1, 202); (400, 400, 1, 203); (401, 401, 1, 1); (403, 403, 1, 205);
    (404, 404, 1, 207); (406, 406, 1, 211); (407, 407, 1, 209); (408, 408, 1, 1);
    (412, 412, 1, 211); (413, 413, 1, 213); (415, 415, 1, 214); (416, 420, 2, 1);
    (422, 422, 1, 218); (423, 423, 1, 1); (425, 425, 1, 218); (428, 428, 1, 1);
    (430, 430, 1, 218); (431, 431, 1, 1); (433, 434, 1, 217); (435, 437, 2, 1);
    (439, 439, 1, 219); (440, 440, 1, 1); (444, 444, 1, 1); (452, 452, 1, 2);
    (453, 453, 1, 1); (455, 455, 1, 2); (456, 456, 1, 1); (458, 458, 1, 2);
    (459, 475, 2, 1); (478, 494, 2, 1); (497, 497, 1, 2); (498, 500, 2, 1);
    (502, 502, 1, -97); (503, 503, 1, -56); (504, 542, 2, 1); (544, 544, 1, -130);
    (546, 562, 2, 1); (570, 570, 1, 10795); (571, 571, 1, 1); (573, 573, 1, -163);
    (574, 574, 1, 10792); (577, 577, 1, 1); (579, 579, 1, -195); (580, 580, 1, 69);
    (581, 581, 1, 71); (582, 590, 2, 1); (880, 882, 2, 1); (886, 886, 1, 1);
    (895, 895, 1, 116); (902, 902, 1, 38); (904, 906, 1, 37); (908, 908, 1, 64);
    (910, 911, 1, 63); (913, 929, 1, 32); (932, 939, 1, 32); (975, 975, 1, 8);
    (984, 1006, 2, 1); (1012, 1012, 1, -60); (1015, 1015, 1, 1); (1017, 1017, 1, -7);
    (1018, 1018, 1, 1); (1021, 1023, 1, -130); (1024, 1039, 1, 80); (1040, 1071, 1, 32);
    (1120, 1152, 2, 1); (1162, 1214, 2, 1); (1216, 1216, 1, 15); (1217, 1229, 2, 1);
    (1232, 1326, 2, 1); (1329, 1366, 1, 48); (4256, 4293, 1, 7264); (4295, 4295, 1, 7264);
    (4301, 4301, 1, 7264); (5024, 5103, 1, 38864); (5104, 5109, 1, 8); (7312, 7354, 1, -3008);
    (7357, 7359, 1, -3008); (7680, 7828, 2, 1); (7838, 7838, 1, -7615); (7840, 7934, 2, 1);
    (7944, 7951, 1, -8); (7960, 7965, 1, -8); (7976, 7983, 1, -8); (7992, 7999, 1, -8);
    (8008, 8013, 1, -8); (8025, 8031, 2, -8); (8040, 8047, 1, -8); (8072, 8079, 1, -8);
    (8088, 8095, 1, -8); (8104, 8111, 1, -8); (8120, 8121, 1, -8); (8122, 8123, 1, -74);
    (8124, 8124, 1, -9); (8136, 8139, 1, -86); (8140, 8140, 1, -9); (8152, 8153, 1, -8);
    (8154, 8155, 1, -100); (8168, 8169, 1, -8); (8170, 8171, 1, -112); (8172, 8172, 1, -7);
    (8184, 8185, 1, -128); (8186, 8187, 1, -126); (8188, 8188, 1, -9); (8486, 8486, 1, -7517);
    (8490, 8490, 1, -8383); (8491, 8491, 1, -8262); (8498, 8498, 1, 28); (8544, 8559, 1, 16);
    (8579, 8579, 1, 1); (9398, 9423, 1, 26); (11264, 11311, 1, 48); (11360, 11360, 1, 1);
    (11362, 11362, 1, -10743); (11363, 11363, 1, -3814); (11364, 11364, 1, -10727); (11367, 11371, 2, 1);
    (11373, 11373, 1, -10780); (11374, 11374, 1, -10749); (11375, 11375, 1, -10783); (11376, 11376, 1, -10782);
    (11378, 11378, 1, 1); (11381, 11381, 1, 1); (11390, 11391, 1, -10815); (11392, 11490, 2, 1);
    (11499, 11501, 2, 1); (11506, 11506, 1, 1); (42560, 42604, 2, 1); (42624, 42650, 2, 1);
    (42786, 42798, 2, 1); (42802, 42862, 2, 1); (42873, 42875, 2, 1); (42877, 42877, 1, -35332);
    (42878, 42886, 2, 1); (42891, 42891, 1, 1); (42893, 42893, 1, -42280); (42896, 42898, 2, 1);
    (42902, 42920, 2, 1); (42922, 42922, 1, -42308); (42923, 42923, 1, -42319); (42924, 42924, 1, -42315);
    (42925, 42925, 1, -42305); (42926, 42926, 1, -42308); (42928, 42928, 1, -42258); (42929, 42929, 1, -42282);
    (42930, 42930, 1, -42261); (42931, 42931, 1, 928); (42932, 42946, 2, 1); (42948, 42948, 1, -48);
    (42949, 42949, 1, -42307); (42950, 42950, 1, -35384); (42951, 42953, 2, 1); (42960, 42960, 1, 1);
    (42966, 42968, 2, 1); (42997, 42997, 1, 1); (65313, 65338, 1, 32); (66560, 66599, 1, 40);
    (66736, 66771, 1, 40); (66928, 66938, 1, 39); (66940, 66954, 1, 39); (66956, 66962, 1, 39);
    (66964, 66965, 1, 39); (68736, 68786, 1, 64); (71840, 71871, 1, 32); (93760, 93791, 1, 32);
    (125184, 125217, 1, 34) ].

(** Code points whose lowercase is several code points. *)
Definition lower_full : list (Z * list Z) :=
  [ (304, [105; 775]) ].

(** Code points whose titlecase is a single other code point. *)
Definition title_runs : list run :=
  [ (97, 122, 1, -32); (181, 181, 1, 743); (224, 246, 1, -32); (248, 254, 1, -32);
    (255, 255, 1, 121); (257, 303, 2, -1); (305, 305, 1, -232); (307, 311, 2, -1);
    (314, 328, 2, -1); (331, 375, 2, -1); (378, 382, 2, -1); (383, 383, 1, -300);
    (384, 384, 1, 195); (387, 389, 2, -1); (392, 392, 1, -1); (396, 396, 1, -1);
    (402, 402, 1, -1); (405, 405, 1, 97); (409, 409, 1, -1); (410, 410, 1, 163);
    (414, 414, 1, 130); (417, 421, 2, -1); (424, 424, 1, -1); (429, 429, 1, -1);
    (432, 432, 1, -1); (436, 438, 2, -1); (441, 441, 1, -1); (445, 445, 1, -1);
    (447, 447, 1, 56); (452, 452, 1, 1); (454, 454, 1, -1); (455, 455, 1, 1);
    (457, 457, 1, -1); (458, 458, 1, 1); (460, 476, 2, -1); (477, 477, 1, -79);
    (479, 495, 2, -1); (497, 497, 1, 1); (499, 501, 2, -1); (505, 543, 2, -1);
    (547, 563, 2, -1); (572, 572, 1, -1); (575, 576, 1, 10815); (578, 578, 1, -1);
    (583, 591, 2, -1); (592, 592, 1, 10783); (593, 593, 1, 10780); (594, 594, 1, 10782);
    (595, 595, 1, -210); (596, 596, 1, -206); (598, 599, 1, -205); (601, 601, 1, -202);
    (603, 603, 1, -203); (604, 604, 1, 42319); (608, 608, 1, -205); (609, 609, 1, 42315);
    (611, 611, 1, -207); (613, 613, 1, 42280); (614, 614, 1, 42308); (616, 616, 1, -209);
    (617, 617, 1, -211); (618, 618, 1, 42308); (619, 619, 1, 10743); (620, 620, 1, 42305);
    (623, 623, 1, -211); (625, 625, 1, 10749); (626, 626, 1, -213); (629, 629, 1, -214);
    (637, 637, 1, 10727); (640, 640, 1, -218); (642, 642, 1, 42307); (643, 643, 1, -218);
    (647, 647, 1, 42282); (648, 648, 1, -218); (649, 649, 1, -69); (650, 651, 1, -217);
    (652, 652, 1, -71); (658, 658, 1, -219); (669, 669, 1, 42261); (670, 670, 1, 42258);
    (837, 837, 1, 84); (881, 883, 2, -1); (887, 887, 1, -1); (891, 893, 1, 130);
    (940, 940, 1, -38); (941, 943, 1, -37); (945, 961, 1, -32); (962, 962, 1, -31);
    (963, 971, 1, -32); (972, 972, 1, -64); (973, 974, 1, -63); (976, 976, 1, -62);
    (977, 977, 1, -57); (981, 981, 1, -47); (982, 982, 1, -54); (983, 983, 1, -8);
    (985, 1007, 2, -1); (1008, 1008, 1, -86); (1009, 1009, 1, -80); (1010, 1010, 1, 7);
    (1011, 1011, 1, -116); (1013, 1013, 1, -96); (1016, 1016, 1, -1); (1019, 1019, 1, -1);
    (1072, 1103, 1, -32); (1104, 1119, 1, -80); (1121, 1153, 2, -1); (1163, 1215, 2, -1);
    (1218, 1230, 2, -1); (1231, 1231, 1, -15); (1233, 1327, 2, -1); (1377, 1414, 1, -48);
    (5112, 5117, 1, -8); (7296, 7296, 1, -6254); (7297, 7297, 1, -6253); (7298, 7298, 1, -6244);
    (7299, 7300, 1, -6242); (7301, 7301, 1, -6243); (7302, 7302, 1, -6236); (7303, 7303, 1, -6181);
    (7304, 7304, 1, 35266); (7545, 7545, 1, 35332); (7549, 7549, 1, 3814); (7566, 7566, 1, 35384);
    (7681, 7829, 2, -1); (7835, 7835, 1, -59); (7841, 7935, 2, -1); (7936, 7943, 1, 8);
    (7952, 7957, 1, 8); (7968, 7975, 1, 8); (7984, 7991, 1, 8); (8000, 8005, 1, 8);
    (8017, 8023, 2, 8); (8032, 8039, 1, 8); (8048, 8049, 1, 74); (8050, 8053, 1, 86);
    (8054, 8055, 1, 100); (8056, 8057, 1, 128); (8058, 8059, 1, 112); (8060, 8061, 1, 126);
    (8064, 8071, 1, 8); (8080, 8087, 1, 8); (8096, 8103, 1, 8); (8112, 8113, 1, 8);
    (8115, 8115, 1, 9); (8126, 8126, 1, -7205); (8131, 8131, 1, 9); (8144, 8145, 1, 8);
    (8160, 8161, 1, 8); (8165, 8165, 1, 7); (8179, 8179, 1, 9); (8526, 8526, 1, -28);
    (8560, 8575, 1, -16); (8580, 8580, 1, -1); (9424, 9449, 1, -26); (11312, 11359, 1, -48);
    (11361, 11361, 1, -1); (11365, 11365, 1, -10795); (11366, 11366, 1, -10792); (11368, 11372, 2, -1);
    (11379, 11379, 1, -1); (11382, 11382, 1, -1); (11393, 11491, 2, -1); (11500, 11502, 2, -1);
    (11507, 11507, 1, -1); (11520, 11557, 1, -7264); (11559, 11559, 1, -7264); (11565, 11565, 1, -7264);
    (42561, 42605, 2, -1); (42625, 42651, 2, -1); (42787, 42799, 2, -1); (42803, 42863, 2, -1);
    (42874, 42876, 2, -1); (42879, 42887, 2, -1); (42892, 42892, 1, -1); (42897, 42899, 2, -1);
    (42900, 42900, 1, 48); (42903, 42921, 2, -1); (42933, 42947, 2, -1); (42952, 42954, 2, -1);
    (42961, 42961, 1, -1); (42967, 42969, 2, -1); (42998, 42998, 1, -1); (43859, 43859, 1, -928);
    (43888, 43967, 1, -38864); (65345, 65370, 1, -32); (66600, 66639, 1, -40); (66776, 66811, 1, -40);
    (66967, 66977, 1, -39); (66979, 66993, 1, -39); (66995, 67001, 1, -39); (67003, 67004, 1, -39);
    (68800, 68850, 1, -64); (71872, 71903, 1, -32); (93792, 93823, 1, -32); (125218, 125251, 1, -34) ].

(** Code points whose titlecase is several code points. *)
Definition title_full : list (Z * list Z) :=
  [ (223, [83; 115]); (329, [700; 78]); (496, [74; 780]);
    (912, [921; 776; 769]); (944, [933; 776; 769]); (1415, [1333; 1410]);
    (7830, [72; 817]); (7831, [84; 776]); (7832, [87; 778]);
    (7833, [89; 778]); (7834, [65; 702]); (8016, [933; 787]);
    (8018, [933; 787; 768]); (8020, [933; 787; 769]); (8022, [933; 787; 834]);
    (8114, [8122; 837]); (8116, [902; 837]); (8118, [913; 834]);
    (8119, [913; 834; 837]); (8130, [8138; 837]); (8132, [905; 837]);
    (8134, [919; 834]); (8135, [919; 834; 837]); (8146, [921; 776; 768]);
    (8147, [921; 776; 769]); (8150, [921; 834]); (8151, [921; 776; 834]);
    (8162, [933; 776; 768]); (8163, [933; 776; 769]); (8164, [929; 787]);
    (8166, [933; 834]); (8167, [933; 776; 834]); (8178, [8186; 837]);
    (8180, [911; 837]); (8182, [937; 834]); (8183, [937; 834; 837]);
    (64256, [70; 102]); (64257, [70; 105]); (64258, [70; 108]);
    (64259, [70; 102; 105]); (64260, [70; 102; 108]); (64261, [83; 116]);
    (64262, [83; 116]); (64275, [1348; 1398]); (64276, [1348; 1381]);
    (64277, [1348; 1387]); (64278, [1358; 1398]); (64279, [1348; 1389]) ].

(** The cased code points, as inclusive ranges. *)
Definition cased : list (Z * Z) :=
  [ (65, 90); (97, 122); (170, 170); (181, 181); (186, 186); (192, 214);
    (216, 246); (248, 442); (444, 447); (452, 659); (661, 696); (704, 705);
    (736, 740); (837, 837); (880, 883); (886, 887); (890, 893); (895, 895);
    (902, 902); (904, 906); (908, 908); (910, 929); (931, 1013); (1015, 1153);
    (1162, 1327); (1329, 1366); (1376, 1416); (4256, 4293); (4295, 4295); (4301, 4301);
    (4304, 4346); (4349, 4351); (5024, 5109); (5112, 5117); (7296, 7304); (7312, 7354);
    (7357, 7359); (7424, 7615); (7680, 7957); (7960, 7965); (7968, 8005); (8008, 8013);
    (8016, 8023); (8025, 8025); (8027, 8027); (8029, 8029); (8031, 8061); (8064, 8116);
    (8118, 8124); (8126, 8126); (8130, 8132); (8134, 8140); (8144, 8147); (8150, 8155);
    (8160, 8172); (8178, 8180); (8182, 8188); (8305, 8305); (8319, 8319); (8336, 8348);
    (8450, 8450); (8455, 8455); (8458, 8467); (8469, 8469); (8473, 8477); (8484, 8484);
    (8486, 8486); (8488, 8488); (8490, 8493); (8495, 8500); (8505, 8505); (8508, 8511);
    (8517, 8521); (8526, 8526); (8544, 8575); (8579, 8580); (9398, 9449); (11264, 11492);
    (11499, 11502); (11506, 11507); (11520, 11557); (11559, 11559); (11565, 11565); (42560, 42605);
    (42624, 42653); (42786, 42887); (42891, 42894); (42896, 42954); (42960, 42961); (42963, 42963);
    (42965, 42969); (42997, 42998); (43000, 43002); (43824, 43866); (43868, 43880); (43888, 43967);
    (64256, 64262); (64275, 64279); (65313, 65338); (65345, 65370); (66560, 66639); (66736, 66771);
    (66776, 66811); (66928, 66938); (66940, 66954); (66956, 66962); (66964, 66965); (66967, 66977);
    (66979, 66993); (66995, 67001); (67003, 67004); (67456, 67456); (67459, 67461); (67463, 67504);
    (67506, 67514); (68736, 68786); (68800, 68850); (71840, 71903); (93760, 93823); (119808, 119892);
    (119894, 119964); (119966, 119967); (119970, 119970); (119973, 119974); (119977, 119980); (119982, 119993);
    (119995, 119995); (119997, 120003); (120005, 120069); (120071, 120074); (120077, 120084); (120086, 120092);
    (120094, 120121); (120123, 120126); (120128, 120132); (120134, 120134); (120138, 120144); (120146, 120485);
    (120488, 120512); (120514, 120538); (120540, 120570); (120572, 120596); (120598, 120628); (120630, 120654);
    (120656, 120686); (120688, 120712); (120714, 120744); (120746, 120770); (120772, 120779); (122624, 122633);
    (122635, 122654); (125184, 125251); (127280, 127305); (127312, 127337); (127344, 127369) ].

(** The case-ignorable code points, as inclusive ranges. *)
Definition case_ignorable : list (Z * Z) :=
  [ (39, 39); (46, 46); (58, 58); (94, 94); (96, 96); (168, 168);
    (173, 173); (175, 175); (180, 180); (183, 184); (688, 879); (884, 885);
    (890, 890); (900, 901); (903, 903); (1155, 1161); (1369, 1369); (1375, 1375);
    (1425, 1469); (1471, 1471); (1473, 1474); (1476, 1477); (1479, 1479); (1524, 1524);
    (1536, 1541); (1552, 1562); (1564, 1564); (1600, 1600); (1611, 1631); (1648, 1648);
    (1750, 1757); (1759, 1768); (1770, 1773); (1807, 1807); (1809, 1809); (1840, 1866);
    (1958, 1968); (2027, 2037); (2042, 2042); (2045, 2045); (2070, 2093); (2137, 2139);
    (2184, 2184); (2192, 2193); (2200, 2207); (2249, 2306); (2362, 2362); (2364, 2364);
    (2369, 2376); (2381, 2381); (2385, 2391); (2402, 2403); (2417, 2417); (2433, 2433);
    (2492, 2492); (2497, 2500); (2509, 2509); (2530, 2531); (2558, 2558); (2561, 2562);
    (2620, 2620); (2625, 2626); (2631, 2632); (2635, 2637); (2641, 2641); (2672, 2673);
    (2677, 2677); (2689, 2690); (2748, 2748); (2753, 2757); (2759, 2760); (2765, 2765);
    (2786, 2787); (2810, 2815); (2817, 2817); (2876, 2876); (2879, 2879); (2881, 2884);
    (2893, 2893); (2901, 2902); (2914, 2915); (2946, 2946); (3008, 3008); (3021, 3021);
    (3072, 3072); (3076, 3076); (3132, 3132); (3134, 3136); (3142, 3144); (3146, 3149);
    (3157, 3158); (3170, 3171); (3201, 3201); (3260, 3260); (3263, 3263); (3270, 3270);
    (3276, 3277); (3298, 3299); (3328, 3329); (3387, 3388); (3393, 3396); (3405, 3405);
    (3426, 3427); (3457, 3457); (3530, 3530); (3538, 3540); (3542, 3542); (3633, 3633);
    (3636, 3642); (3654, 3662); (3761, 3761); (3764, 3772); (3782, 3782); (3784, 3789);
    (3864, 3865); (3893, 3893); (3895, 3895); (3897, 3897); (3953, 3966); (3968, 3972);
    (3974, 3975); (3981, 3991); (3993, 4028); (4038, 4038); (4141, 4144); (4146, 4151);
    (4153, 4154); (4157, 4158); (4184, 4185); (4190, 4192); (4209, 4212); (4226, 4226);
    (4229, 4230); (4237, 4237); (4253, 4253); (4348, 4348); (4957, 4959); (5906, 5908);
    (5938, 5939); (5970, 5971); (6002, 6003); (6068, 6069); (6071, 6077); (6086, 6086);
    (6089, 6099); (6103, 6103); (6109, 6109); (6155, 6159); (6211, 6211); (6277, 6278);
    (6313, 6313); (6432, 6434); (6439, 6440); (6450, 6450); (6457, 6459); (6679, 6680);
    (6683, 6683); (6742, 6742); (6744, 6750); (6752, 6752); (6754, 6754); (6757, 6764);
    (6771, 6780); (6783, 6783); (6823, 6823); (6832, 6862); (6912, 6915); (6964, 6964);
    (6966, 6970); (6972, 6972); (6978, 6978); (7019, 7027); (7040, 7041); (7074, 7077);
    (7080, 7081); (7083, 7085); (7142, 7142); (7144, 7145); (7149, 7149); (7151, 7153);
    (7212, 7219); (7222, 7223); (7288, 7293); (7376, 7378); (7380, 7392); (7394, 7400);
    (7405, 7405); (7412, 7412); (7416, 7417); (7468, 7530); (7544, 7544); (7579, 7679);
    (8125, 8125); (8127, 8129); (8141, 8143); (8157, 8159); (8173, 8175); (8189, 8190);
    (8203, 8207); (8216, 8217); (8228, 8228); (8231, 8231); (8234, 8238); (8288, 8292);
    (8294, 8303); (8305, 8305); (8319, 8319); (8336, 8348); (8400, 8432); (11388, 11389);
    (11503, 11505); (11631, 11631); (11647, 11647); (11744, 11775); (11823, 11823); (12293, 12293);
    (12330, 12333); (12337, 12341); (12347, 12347); (12441, 12446); (12540, 12542); (40981, 40981);
    (42232, 42237); (42508, 42508); (42607, 42610); (42612, 42621); (42623, 42623); (42652, 42655);
    (42736, 42737); (42752, 42785); (42864, 42864); (42888, 42890); (42994, 42996); (43000, 43001);
    (43010, 43010); (43014, 43014); (43019, 43019); (43045, 43046); (43052, 43052); (43204, 43205);
    (43232, 43249); (43263, 43263); (43302, 43309); (43335, 43345); (43392, 43394); (43443, 43443);
    (43446, 43449); (43452, 43453); (43471, 43471); (43493, 43494); (43561, 43566); (43569, 43570);
    (43573, 43574); (43587, 43587); (43596, 43596); (43632, 43632); (43644, 43644); (43696, 43696);
    (43698, 43700); (43703, 43704); (43710, 43711); (43713, 43713); (43741, 43741); (43756, 43757);
    (43763, 43764); (43766, 43766); (43867, 43871); (43881, 43883); (44005, 44005); (44008, 44008);
    (44013, 44013); (64286, 64286); (64434, 64450); (65024, 65039); (65043, 65043); (65056, 65071);
    (65106, 65106); (65109, 65109); (65279, 65279); (65287, 65287); (65294, 65294); (65306, 65306);
    (65342, 65342); (65344, 65344); (65392, 65392); (65438, 65439); (65507, 65507); (65529, 65531);
    (66045, 66045); (66272, 66272); (66422, 66426); (67456, 67461); (67463, 67504); (67506, 67514);
    (68097, 68099); (68101, 68102); (68108, 68111); (68152, 68154); (68159, 68159); (68325, 68326);
    (68900, 68903); (69291, 69292); (69446, 69456); (69506, 69509); (69633, 69633); (69688, 69702);
    (69744, 69744); (69747, 69748); (69759, 69761); (69811, 69814); (69817, 69818); (69821, 69821);
    (69826, 69826); (69837, 69837); (69888, 69890); (69927, 69931); (69933, 69940); (70003, 70003);
    (70016, 70017); (70070, 70078); (70089, 70092); (70095, 70095); (70191, 70193); (70196, 70196);
    (70198, 70199); (70206, 70206); (70367, 70367); (70371, 70378); (70400, 70401); (70459, 70460);
    (70464, 70464); (70502, 70508); (70512, 70516); (70712, 70719); (70722, 70724); (70726, 70726);
    (70750, 70750); (70835, 70840); (70842, 70842); (70847, 70848); (70850, 70851); (71090, 71093);
    (71100, 71101); (71103, 71104); (71132, 71133); (71219, 71226); (71229, 71229); (71231, 71232);
    (71339, 71339); (71341, 71341); (71344, 71349); (71351, 71351); (71453, 71455); (71458, 71461);
    (71463, 71467); (71727, 71735); (71737, 71738); (71995, 71996); (71998, 71998); (72003, 72003);
    (72148, 72151); (72154, 72155); (72160, 72160); (72193, 72202); (72243, 72248); (72251, 72254);
    (72263, 72263); (72273, 72278); (72281, 72283); (72330, 72342); (72344, 72345); (72752, 72758);
    (72760, 72765); (72767, 72767); (72850, 72871); (72874, 72880); (72882, 72883); (72885, 72886);
    (73009, 73014); (73018, 73018); (73020, 73021); (73023, 73029); (73031, 73031); (73104, 73105);
    (73109, 73109); (73111, 73111); (73459, 73460); (78896, 78904); (92912, 92916); (92976, 92982);
    (92992, 92995); (94031, 94031); (94095, 94111); (94176, 94177); (94179, 94180); (110576, 110579);
    (110581, 110587); (110589, 110590); (113821, 113822); (113824, 113827); (118528, 118573); (118576, 118598);
    (119143, 119145); (119155, 119170); (119173, 119179); (119210, 119213); (119362, 119364); (121344, 121398);
    (121403, 121452); (121461, 121461); (121476, 121476); (121499, 121503); (121505, 121519); (122880, 122886);
    (122888, 122904); (122907, 122913); (122915, 122916); (122918, 122922); (123184, 123197); (123566, 123566);
    (123628, 123631); (125136, 125142); (125252, 125259); (127995, 127999); (917505, 917505); (917536, 917631);
    (917760, 917999) ].

(** The code points [str.strip] removes, as inclusive ranges. *)
Definition whitespace : list (Z * Z) :=
  [ (9, 13); (28, 32); (133, 133); (160, 160); (5760, 5760); (8192, 8202);
    (8232, 8233); (8239, 8239); (8287, 8287); (12288, 12288) ].

(** The displacement a sorted list of runs gives a code point. *)
Fixpoint find_run (cp : Z) (runs : list run) : option Z :=
  match runs with
  | [] => None
  | (first, last, stride, delta) :: rest =>
      if cp <? first then None
      else if (cp <=? last) && ((cp - first) mod stride =? 0) then Some delta
      else find_run cp rest
  end.

Fixpoint find_full (cp : Z) (table : list (Z * list Z)) : option (list Z) :=
  match table with
  | [] => None
  | (key, mapped) :: rest => if cp =? key then Some mapped else find_full cp rest
  end.

Fixpoint in_ranges (cp : Z) (ranges : list (Z * Z)) : bool :=
  match ranges with
  | [] => false
  | (first, last) :: rest =>
      if cp <? first then false
      else if cp <=? last then true
      else in_ranges cp rest
  end.

(** The full mapping of a code point under a pair of tables. *)
Definition mapped (runs : list run) (full : list (Z * list Z)) (cp : Z) : list Z :=
  match find_full cp full with
  | Some several => several
  | None =>
      match find_run cp runs with
      | Some delta => [cp + delta]
      | None => [cp]
      end
  end.

(** [_PyUnicode_ToLowerFull], [_PyUnicode_ToTitleFull], [_PyUnicode_IsCased],
    [_PyUnicode_IsCaseIgnorable] and [Py_UNICODE_ISSPACE]. *)
Definition to_lower_full (cp : Z) : list Z := mapped lower_runs lower_full cp.
Definition to_title_full (cp : Z) : list Z := mapped title_runs title_full cp.
Definition is_cased (cp : Z) : bool := in_ranges cp cased.
Definition is_case_ignorable (cp : Z) : bool := in_ranges cp case_ignorable.
Definition is_space (cp : Z) : bool := in_ranges cp whitespace.

(** The first code point of a list that is not case-ignorable. *)
Fixpoint first_significant (l : list Z) : option Z :=
  match l with
  | [] => None
  | cp :: rest => if is_case_ignorable cp then first_significant rest else Some cp
  end.

(** [handle_capital_sigma]: a capital sigma is final when a cased code
    point precedes it and none follows it, case-ignorable code points
    skipped on both sides.  [before] is the text before it, nearest code
    point first. *)
Definition final_sigma (before after : list Z) : bool :=
  match first_significant before with
  | Some cp =>
      is_cased cp
      && match first_significant after with
         | Some next => negb (is_cased next)
         | None => true
         end
  | None => false
  end.

(** [lower_ucs4]: the lowercase of a code point inside a text. *)
Definition lower_at (before : list Z) (cp : Z) (after : list Z) : list Z :=
  if cp =? 931 then [if final_sigma before after then 962 else 963]
  else to_lower_full cp.

(** [do_lower] *)
Fixpoint lower (before l : list Z) : list Z :=
  match l with
  | [] => []
  | cp :: after => lower_at before cp after ++ lower (cp :: before) after
  end.

(** [do_title]; [previous_is_cased] as in CPython. *)
Fixpoint title (previous_is_cased : bool) (before l : list Z) : list Z :=
  match l with
  | [] => []
  | cp :: after =>
      (if previous_is_cased then lower_at before cp after else to_title_full cp)
        ++ title (is_cased cp) (cp :: before) after
  end.

(** [str.strip()] *)
Fixpoint lstrip (l : list Z) : list Z :=
  match l with
  | cp :: rest => if is_space cp then lstrip rest else l
  | [] => []
  end.

Definition strip (l : list Z) : list Z := rev (lstrip (rev (lstrip l))).

End Unicode.

(** ** Python strings *)

Module PyStr.

Definition nl : string := String "010" EmptyString.
Definition dq : string := String "034" EmptyString.

(** [needle in hay] on two strings: substring containment. *)
Fixpoint contains (needle hay : string) : bool :=
  String.prefix needle hay ||
  match hay with
  | EmptyString => false
  | String _ hay' => contains needle hay'
  end.

(** [s.count(needle)] for a one-character needle. *)
Fixpoint count_char (c : ascii) (s : string) : nat :=
  match s with
  | EmptyString => 0%nat
  | String d s' => ((if Ascii.eqb c d then 1 else 0) + count_char c s')%nat
  end.

(** [sep.join(parts)] *)
Fixpoint join (sep : string) (parts : list string) : string :=
  match parts with
  | [] => EmptyString
  | [p] => p
  | p :: rest => p +:+ sep +:+ join sep rest
  end.

Definition concat (parts : list string) : string := join EmptyString parts.

(** A UTF-8 continuation byte, [10xxxxxx]. *)
Definition is_continuation (c : ascii) : bool :=
  let n := nat_of_ascii c in (128 <=? n)%nat && (n <=? 191)%nat.

Definition starts_inside (s : string) : bool :=
  match s with
  | String d _ => is_continuation d
  | EmptyString => false
  end.

(** The characters of a [str], each as a one-character [str]: what
    [for ch in s] yields. *)
Fixpoint chars (s : string) : list string :=
  match s with
  | EmptyString => []
  | String c s' =>
      match chars s' with
      | h :: t =>
          if starts_inside s' then String c h :: t
          else String c EmptyString :: h :: t
      | [] => [String c EmptyString]
      end
  end.

(** [len(s)] *)
Definition len (s : string) : nat := length (chars s).

(** [s[:n]] *)
Definition slice_to (n : nat) (s : string) : string := concat (take n (chars s)).

Definition byte (c : ascii) : Z := Z.of_nat (nat_of_ascii c).

Definition of_byte (n : Z) : ascii := ascii_of_nat (Z.to_nat n).

(** [ord(ch)] for one character in UTF-8, [None] for bytes that encode no
    character. *)
Definition decode (ch : string) : option Z :=
  match ch with
  | String a EmptyString => if byte a <? 128 then Some (byte a) else None
  | String a (String b EmptyString) =>
      if (194 <=? byte a) && (byte a <=? 223) && is_continuation b
      then Some ((byte a - 192) * 64 + (byte b - 128))
      else None
  | String a (String b (String c EmptyString)) =>
      let cp := (byte a - 224) * 4096 + (byte b - 128) * 64 + (byte c - 128) in
      if (224 <=? byte a) && (byte a <=? 239) && is_continuation b && is_continuation c
         && (2048 <=? cp) && negb ((55296 <=? cp) && (cp <=? 57343))
      then Some cp
      else None
  | String a (String b (String c (String d EmptyString))) =>
      let cp := (byte a - 240) * 262144 + (byte b - 128) * 4096
                + (byte c - 128) * 64 + (byte d - 128) in
      if (240 <=? byte a) && (byte a <=? 244) && is_continuation b && is_continuation c
         && is_continuation d && (65536 <=? cp) && (cp <=? 1114111)
      then Some cp
      else None
  | _ => None
  end.

(** A byte that belongs to no character is carried as the number
    [1114112 + byte], above every code point, and written back as that
    byte: the case mappings leave it alone. *)
Fixpoint stray (s : string) : list Z :=
  match s with
  | EmptyString => []
  | String c s' => (1114112 + byte c) :: stray s'
  end.

(** The code points of a [str]. *)
Definition code_points (s : string) : list Z :=
  flat_map (fun ch => match decode ch with
                      | Some cp => [cp]
                      | None => stray ch
                      end) (chars s).

(** [chr(cp)] in UTF-8. *)
Definition encode (cp : Z) : string :=
  if cp <? 128 then String (of_byte cp) EmptyString
  else if cp <? 2048 then
    String (of_byte (192 + cp / 64)) (String (of_byte (128 + cp mod 64)) EmptyString)
  else if cp <? 65536 then
    String (of_byte (224 + cp / 4096))
      (String (of_byte (128 + (cp / 64) mod 64))
         (String (of_byte (128 + cp mod 64)) EmptyString))
  else if cp <? 1114112 then
    String (of_byte (240 + cp / 262144))
      (String (of_byte (128 + (cp / 4096) mod 64))
         (String (of_byte (128 + (cp / 64) mod 64))
            (String (of_byte (128 + cp mod 64)) EmptyString)))
  else String (of_byte (cp - 1114112)) EmptyString.

Definition of_code_points (l : list Z) : string := concat (map encode l).

(** [s.lower()] *)
Definition lower (s : string) : string :=
  of_code_points (Unicode.lower [] (code_points s)).

(** [s.title()] *)
Definition title (s : string) : string :=
  of_code_points (Unicode.title false [] (code_points s)).

(** [s.strip()] *)
Definition strip (s : string) : string :=
  of_code_points (Unicode.strip (code_points s)).

(** [s.split(c)] for a one-character separator. *)
Fixpoint split_char (c : ascii) (s : string) : list string :=
  match s with
  | EmptyString => [EmptyString]
  | String d s' =>
      if Ascii.eqb c d then EmptyString :: split_char c s'
      else match split_char c s' with
           | h :: t => String d h :: t
           | [] => [String d EmptyString]
           end
  end.

(** [s.split(sep)[0]]: the text before the first occurrence of [sep], the
    whole of [s] when there is none. *)
Fixpoint before_first (sep s : string) : string :=
  if String.prefix sep s then EmptyString
  else match s with
       | EmptyString => EmptyString
       | String c s' => String c (before_first sep s')
       end.

(** [str(n)] and [f"{n}"] for an [int]. *)
Definition of_int (n : Z) : string := NilZero.string_of_int (Z.to_int n).

(** Truthiness of a [str]. *)
Definition truthy (s : string) : bool :=
  match s with EmptyString => false | _ => true end.

(** [a or b] on two strings. *)
Definition or_else (a b : string) : string := if truthy a then a else b.

End PyStr.

(** ** Python floats and the numbers handed to [to_money] *)

Module PyNum.

Definition float : Type := spec_float.

Definition prec : Z := 53.
Definition emax : Z := 1024.

Definition is_finite (x : float) : bool :=
  match x with
  | S754_zero _ | S754_finite _ _ _ => true
  | _ => false
  end.

(** [float(n)]: nearest binary64, [OverflowError] beyond the range. *)
Definition of_int (n : Z) : option float :=
  let x := binary_normalize prec emax n 0 false in
  if is_finite x then Some x else None.

(** A float literal written as the ratio of two integers that are exact
    in binary64: division rounds correctly, so the result is the double
    nearest to the decimal literal. *)
Definition literal (num den : Z) : float :=
  SFdiv prec emax (binary_normalize prec emax num 0 false)
                  (binary_normalize prec emax den 0 false).

(** An [int] or a [float] argument. *)
Inductive number :=
| Int (n : Z)
| Float (x : float).

Definition to_float (a : number) : option float :=
  match a with
  | Int n => of_int n
  | Float x => Some x
  end.

(** [a * x] with [x] a float: the result is a float. *)
Definition mul (a : number) (x : float) : option float :=
  fa ← to_float a; Some (SFmul prec emax fa x).

(** [x / n] with [x] a float and [n] an int. *)
Definition truediv (x : float) (n : Z) : option float :=
  fn ← of_int n;
  match fn with
  | S754_zero _ => None
  | _ => Some (SFdiv prec emax x fn)
  end.

(** [round(x)] with one argument: the nearest integer, ties to even;
    raises on an infinity or a NaN. *)
Definition round (x : float) : option Z :=
  match x with
  | S754_zero _ => Some 0
  | S754_finite s m e =>
      let mag :=
        if 0 <=? e then Zpos m * 2 ^ e
        else
          let d := 2 ^ (- e) in
          let q := Zpos m / d in
          let r := Zpos m mod d in
          match 2 * r ?= d with
          | Lt => q
          | Gt => q + 1
          | Eq => if Z.even q then q else q + 1
          end in
      Some (if s then - mag else mag)
  | _ => None
  end.

End PyNum.

(** ** [json.dumps(value, ensure_ascii=False)] *)

Module Json.

Inductive value :=
| JBool (b : bool)
| JInt (n : Z)
| JStr (s : string)
| JList (items : list value)
| JDict (fields : list (string * value)).

Definition hex_digit (n : nat) : ascii :=
  if (n <? 10)%nat then ascii_of_nat (48 + n) else ascii_of_nat (87 + n).

(** The replacement of one byte inside a JSON string. *)
Definition escape_char (c : ascii) : string :=
  let n := nat_of_ascii c in
  if (n =? 92)%nat then "\\"
  else if (n =? 34)%nat then "\" +:+ PyStr.dq
  else if (n =? 8)%nat then "\b"
  else if (n =? 12)%nat then "\f"
  else if (n =? 10)%nat then "\n"
  else if (n =? 13)%nat then "\r"
  else if (n =? 9)%nat then "\t"
  else if (n <? 32)%nat then
    "\u00" +:+ String (hex_digit (n / 16)) (String (hex_digit (n mod 16)) EmptyString)
  else String c EmptyString.

Fixpoint escape (s : string) : string :=
  match s with
  | EmptyString => EmptyString
  | String c s' => escape_char c +:+ escape s'
  end.

Definition quote (s : string) : string := PyStr.dq +:+ escape s +:+ PyStr.dq.

Fixpoint dumps (v : value) : string :=
  match v with
  | JBool true => "true"
  | JBool false => "false"
  | JInt n => PyStr.of_int n
  | JStr s => quote s
  | JList items =>
      "[" +:+ PyStr.join ", " (map dumps items) +:+ "]"
  | JDict fields =>
      "{" +:+ PyStr.join ", "
                (map (fun kv => quote (fst kv) +:+ ": " +:+ dumps (snd kv)) fields)
          +:+ "}"
  end.

End Json.

(** ** Ordered dictionaries *)

(** [d.get(key)] on a dictionary kept as the list of its items. *)
Fixpoint assoc_lookup {V : Type} (key : string) (d : list (string * V)) : option V :=
  match d with
  | [] => None
  | (k, v) :: rest => if String.eqb key k then Some v else assoc_lookup key rest
  end.

(** ** Checklist payload builder *)

Record ChecklistItem := {
  label : string;
  checked : bool;
}.

Record ChecklistSection := {
  section_title : string;
  items : list ChecklistItem;
}.

Record ChecklistPayload := {
  checklist_type : string;
  checklist_version : Z;
  checklist_title : string;
  checklist_destination : string;
  checklist_context : string;
  sections : list ChecklistSection;
}.

Record ChecklistResult := {
  markdown : string;
  checklist_json_tag : string;
  checklist_data : ChecklistPayload;
}.

Definition item_json (it : ChecklistItem) : Json.value :=
  Json.JDict [("label", Json.JStr (label it)); ("checked", Json.JBool (checked it))].

Definition section_json (s : ChecklistSection) : Json.value :=
  Json.JDict [("title", Json.JStr (section_title s));
              ("items", Json.JList (map item_json (items s)))].

Definition checklist_json (p : ChecklistPayload) : Json.value :=
  Json.JDict [("type", Json.JStr (checklist_type p));
              ("version", Json.JInt (checklist_version p));
              ("title", Json.JStr (checklist_title p));
              ("destination", Json.JStr (checklist_destination p));
              ("context", Json.JStr (checklist_context p));
              ("sections", Json.JList (map section_json (sections p)))].

Definition unchecked (l : string) : ChecklistItem :=
  {| label := l; checked := false |}.

Definition checklist_sections : list ChecklistSection :=
  [ {| section_title := "Before You Go";
       items := [ unchecked "Book flights";
                  unchecked "Reserve accommodation";
                  unchecked "Check passport validity (>6 months)";
                  unchecked "Apply for visa if needed";
                  unchecked "Get travel insurance";
                  unchecked "Notify bank of travel plans";
                  unchecked "Check vaccination requirements" ] |};
    {| section_title := "Pack & Prepare";
       items := [ unchecked "Pack according to weather";
                  unchecked "Bring necessary adapters";
                  unchecked "Download offline maps";
                  unchecked "Learn basic local phrases";
                  unchecked "Research local customs";
                  unchecked "Exchange currency or get travel card" ] |};
    {| section_title := "During Trip";
       items := [ unchecked "Check in for flights";
                  unchecked "Confirm accommodations";
                  unchecked "Keep important documents safe";
                  unchecked "Stay hydrated and healthy" ] |} ].

(** The markdown fallback: one heading per section, one unticked box per
    item, appended to [md_lines] in order. *)
Definition section_lines (s : ChecklistSection) : list string :=
  (PyStr.nl +:+ "### " +:+ section_title s)
    :: map (fun it => "- [ ] " +:+ label it) (items s).

Definition _generate_checklist (destination context : string) : ChecklistResult :=
  let title :=
    if negb (PyStr.truthy destination) then PyStr.title context +:+ " Checklist"
    else PyStr.title destination +:+ " " +:+ PyStr.title context +:+ " Checklist" in
  let sections := checklist_sections in
  let payload :=
    {| checklist_type := "checklist";
       checklist_version := 1;
       checklist_title := title;
       checklist_destination := destination;
       checklist_context := context;
       sections := sections |} in
  let json_tag :=
    "```json checklist" +:+ PyStr.nl +:+ Json.dumps (checklist_json payload) +:+ PyStr.nl +:+ "```" in
  let md_lines :=
    ("## ✅ " +:+ title) :: concat (map section_lines sections) in
  {| markdown := PyStr.join PyStr.nl md_lines;
     checklist_json_tag := json_tag;
     checklist_data := payload |}.

(** ** Activity source adapter *)

Record Activity := {
  name : string;
  description : string;
  category : string;
}.

(** One entry of the radius search, reduced to the three properties the
    adapter reads.  A property that is absent is the empty string, which the
    adapter treats like an absent one. *)
Record Feature := {
  feature_name : string;
  feature_kinds : string;
  feature_xid : string;
}.

(** What the adapter observes of the outside: the process environment and
    the points-of-interest service.  [search_places destination kinds limit
    api_key] is the feature list of the radius search around the geocoded
    destination, [None] when a request or its decoding raises or the
    geocoder gives no coordinates.  [place_extract xid api_key] is the
    Wikipedia extract of the detail endpoint ([text], the empty string when
    absent), [None] when the request raises. *)
Record World := {
  getenv : string → option string;
  search_places : string → string → Z → string → option (list Feature);
  place_extract : string → string → option string;
}.

Definition style_to_kinds : gmap string string :=
  <["adventure" := "hiking,active,beaches,water,parks"]>
  (<["relaxed" := "gardens,parks,spa,tea,cafes"]>
  (<["cultural" := "museums,historic,monuments,theatres,galleries,architecture"]>
  (<["food" := "restaurants,foods,cafes,marketplaces"]>
  (<["balanced" := "sights,interesting_places,architecture,restaurants,parks"]> ∅)))).

(** [bool(a & b)] on two sets. *)
Definition meets (a b : gset string) : bool := negb (bool_decide (a ∩ b = ∅)).

Definition map_kinds_to_category (kinds_str : string) : string :=
  let ks := PyStr.split_char "," kinds_str in
  let s : gset string := list_to_set ks in
  if meets {["museums"; "museum"]} s then "Museum"
  else if meets {["theatres"; "theatre"]} s then "Arts"
  else if meets {["historic"; "monuments"]} s then "History"
  else if meets {["restaurants"; "foods"; "marketplaces"]} s then "Food"
  else if meets {["hiking"; "active"; "trails"]} s then "Hiking"
  else if meets {["water"]} s then "Water Sports"
  else if meets {["parks"; "gardens"; "beaches"]} s then "Parks"
  else "Sightseeing".

(** The body of [for f in features]: one record per feature, the first six
    with an identifier enriched by the first sentence of their extract, and
    the loop left as soon as [limit] records are collected. *)
Fixpoint collect_results (w : World) (destination api_key : string) (limit : Z)
    (features : list Feature) (results : list Activity) : list Activity :=
  match features with
  | [] => results
  | f :: rest =>
      let name := PyStr.or_else (feature_name f) "Point of Interest" in
      let kinds_str := feature_kinds f in
      let xid := feature_xid f in
      let category := map_kinds_to_category kinds_str in
      let description := "A " +:+ PyStr.lower category +:+ " in " +:+ destination +:+ "." in
      let description :=
        if PyStr.truthy xid && (length results <? 6)%nat then
          match place_extract w xid api_key with
          | Some text =>
              let snippet := PyStr.strip text in
              if PyStr.truthy snippet
              then PyStr.strip (PyStr.before_first ". " snippet)
              else description
          | None => description
          end
        else description in
      let results :=
        results ++ [ {| name := name; description := description; category := category |} ] in
      if limit <=? Z.of_nat (length results) then results
      else collect_results w destination api_key limit rest results
  end.

Definition _fetch_activities_from_api (w : World)
    (destination travel_style : string) (limit : Z) : list Activity :=
  match getenv w "OPENTRIPMAP_API_KEY" with
  | None => []
  | Some api_key =>
      if negb (PyStr.truthy api_key) then []
      else
        let kinds :=
          match style_to_kinds !! travel_style with
          | Some k => k
          | None => style_to_kinds !!! "balanced"
          end in
        match search_places w destination kinds (Z.max 3 (Z.min limit 30)) api_key with
        | None => []
        | Some features => collect_results w destination api_key limit features []
        end
  end.

(** ** Itinerary payload builder *)

Record Currency := {
  code : string;
  symbol : string;
}.

Record Money := {
  estimate : Z;
  currency : string;
}.

Record PartActivity := {
  activity_name : string;
  activity_description : string;
  activity_category : string;
  location : string;
}.

Record Part := {
  timeOfDay : string;
  activity : PartActivity;
  cost : Money;
}.

Record DayPlan := {
  day : Z;
  parts : list Part;
  notes : list string;
}.

Record Breakdown := {
  flights : Money;
  accommodationPerNight : Money;
  activities_cost : Money;
  localTransportPerDay : Money;
  foodPerDay : Money;
}.

Record Summary := {
  estimatedTotalCost : Money;
  breakdown : Breakdown;
}.

Record ItineraryPayload := {
  itinerary_type : string;
  itinerary_version : Z;
  destination : string;
  durationDays : Z;
  travelStyle : string;
  itinerary_currency : Currency;
  days : list DayPlan;
  summary : Summary;
  checklist : ChecklistPayload;
}.

Record ItineraryResult := {
  data : ItineraryPayload;
  json_tag : string;
}.

Definition money_json (m : Money) : Json.value :=
  Json.JDict [("estimate", Json.JInt (estimate m)); ("currency", Json.JStr (currency m))].

Definition part_json (p : Part) : Json.value :=
  Json.JDict
    [("timeOfDay", Json.JStr (timeOfDay p));
     ("activity",
      Json.JDict [("name", Json.JStr (activity_name (activity p)));
                  ("description", Json.JStr (activity_description (activity p)));
                  ("category", Json.JStr (activity_category (activity p)));
                  ("location", Json.JStr (location (activity p)))]);
     ("cost", money_json (cost p))].

Definition day_json (d : DayPlan) : Json.value :=
  Json.JDict [("day", Json.JInt (day d));
              ("parts", Json.JList (map part_json (parts d)));
              ("notes", Json.JList (map Json.JStr (notes d)))].

Definition breakdown_json (b : Breakdown) : Json.value :=
  Json.JDict [("flights", money_json (flights b));
              ("accommodationPerNight", money_json (accommodationPerNight b));
              ("activities", money_json (activities_cost b));
              ("localTransportPerDay", money_json (localTransportPerDay b));
              ("foodPerDay", money_json (foodPerDay b))].

Definition itinerary_json (p : ItineraryPayload) : Json.value :=
  Json.JDict
    [("type", Json.JStr (itinerary_type p));
     ("version", Json.JInt (itinerary_version p));
     ("destination", Json.JStr (destination p));
     ("durationDays", Json.JInt (durationDays p));
     ("travelStyle", Json.JStr (travelStyle p));
     ("currency", Json.JDict [("code", Json.JStr (code (itinerary_currency p)));
                              ("symbol", Json.JStr (symbol (itinerary_currency p)))]);
     ("days", Json.JList (map day_json (days p)));
     ("summary",
      Json.JDict [("estimatedTotalCost", money_json (estimatedTotalCost (summary p)));
                  ("breakdown", breakdown_json (breakdown (summary p)))]);
     ("checklist", checklist_json (checklist p))].

Definition currency_map : gmap string Currency :=
  <["tokyo" := {| code := "JPY"; symbol := "¥" |}]>
  (<["paris" := {| code := "EUR"; symbol := "€" |}]>
  (<["bali" := {| code := "IDR"; symbol := "Rp" |}]> ∅)).

Definition usd : Currency := {| code := "USD"; symbol := "$" |}.

Definition scale_map : gmap string PyNum.float :=
  <["USD" := PyNum.literal 1 1]>
  (<["EUR" := PyNum.literal 95 100]>
  (<["JPY" := PyNum.literal 150 1]>
  (<["IDR" := PyNum.literal 16000 1]> ∅))).

Definition rounding_unit : gmap string Z :=
  <["USD" := 1]> (<["EUR" := 1]> (<["JPY" := 50]> (<["IDR" := 1000]> ∅))).

(** The three values lines 214-220 derive from the destination. *)
Definition resolve_currency (destination : string) : Currency :=
  let dest_key := PyStr.lower destination in
  default usd (currency_map !! dest_key).

Definition resolve_scale (currency : Currency) : PyNum.float :=
  default (PyNum.literal 1 1) (scale_map !! code currency).

Definition resolve_unit (currency : Currency) : Z :=
  default 1 (rounding_unit !! code currency).

(** [to_money], with the three variables it closes over as arguments. *)
Definition to_money (currency : Currency) (scale : PyNum.float) (unit : Z)
    (amount_usd : PyNum.number) : option Money :=
  raw ← PyNum.mul amount_usd scale;
  quotient ← PyNum.truediv raw unit;
  nearest ← PyNum.round quotient;
  let rounded := Z.max 0 (nearest * unit) in
  Some {| estimate := rounded; currency := code currency |}.

Definition mk_activity (n d c : string) : Activity :=
  {| name := n; description := d; category := c |}.

Definition catalog : gmap string (list Activity) :=
  <["adventure" :=
     [ mk_activity "Scenic Hiking Trail" "Half-day hike with panoramic views." "Hiking";
       mk_activity "Kayaking Experience" "Guided paddle through calm waters." "Water Sports";
       mk_activity "Sunset Viewpoint" "Short climb to catch golden hour." "Outdoors" ]]>
  (<["relaxed" :=
     [ mk_activity "Spa & Wellness Session" "45–60 min massage or spa treatment." "Wellness";
       mk_activity "Cafe Hopping" "Leisurely cafes with pastries and coffee." "Leisure";
       mk_activity "Park Stroll" "Light walk under trees and gardens." "Parks" ]]>
  (<["cultural" :=
     [ mk_activity "Heritage Museum Visit" "Explore key exhibits and galleries." "Museum";
       mk_activity "Historic District Walk" "Streets with architecture and landmarks." "History";
       mk_activity "Theater or Live Show" "Local performance for an evening." "Arts" ]]>
  (<["food" :=
     [ mk_activity "Market Food Tour" "Taste local bites and specialties." "Food";
       mk_activity "Cooking Class" "Hands-on class making regional dishes." "Class";
       mk_activity "Street Eats Crawl" "Popular snacks across a few blocks." "Food" ]]>
  (<["balanced" :=
     [ mk_activity "City Highlights Walk" "Iconic spots in a compact route." "Sightseeing";
       mk_activity "Local Lunch Spot" "Casual eatery with regional flavors." "Food";
       mk_activity "Riverside Evening" "Sunset views and light snacks." "Leisure" ]]> ∅)))).

(** Line 259: [fetched if fetched else catalog.get(travel_style,
    catalog["balanced"])]. *)
Definition select_activities (fetched : list Activity) (travel_style : string)
    : list Activity :=
  match fetched with
  | _ :: _ => fetched
  | [] =>
      match catalog !! travel_style with
      | Some entry => entry
      | None => catalog !!! "balanced"
      end
  end.

Definition baseline_costs : gmap string Z :=
  <["Hiking" := 0]> (<["Water Sports" := 40]> (<["Outdoors" := 0]>
  (<["Wellness" := 50]> (<["Leisure" := 12]> (<["Parks" := 0]>
  (<["Museum" := 18]> (<["History" := 0]> (<["Arts" := 45]>
  (<["Food" := 22]> (<["Class" := 55]> (<["Sightseeing" := 0]> ∅))))))))))).

Definition activity_cost (currency : Currency) (scale : PyNum.float) (unit : Z)
    (category : string) : option Money :=
  let amount := default 0 (baseline_costs !! category) in
  to_money currency scale unit (PyNum.Int amount).

Definition labels : list string := ["Morning"; "Afternoon"; "Evening"].

Definition day_notes : list string :=
  [ "Pre-book one key activity";
    "Group nearby sights to minimize transit";
    "Consider a day transit pass" ].

(** [a % n] on naturals; a zero modulus raises. *)
Definition py_mod (a n : nat) : option nat :=
  match n with
  | O => None
  | _ => Some (a mod n)%nat
  end.

(** The inner [while] loop.  [budget] is [len(activities) - spins], the
    number of further turns the condition [spins < len(activities)]
    allows; the result is the index [k] the loop ends on. *)
Fixpoint skip_used (activities : list Activity) (used_names : gset string)
    (k budget : nat) {struct budget} : option nat :=
  act ← activities !! k;
  if bool_decide (name act ∈ used_names) then
    match budget with
    | O => Some k
    | S budget' =>
        k' ← py_mod (k + 1) (length activities);
        skip_used activities used_names k' budget'
    end
  else Some k.

(** One turn of [for j, label in enumerate(labels)], on the pair of the
    [parts] list and the [used_names] set. *)
Definition add_part (currency : Currency) (scale : PyNum.float) (unit : Z)
    (destination : string) (activities : list Activity) (start : nat)
    (st : list Part * gset string) (j : nat) (label : string)
    : option (list Part * gset string) :=
  let '(parts, used_names) := st in
  k ← py_mod (start + j) (length activities);
  k ← skip_used activities used_names k (length activities);
  act ← activities !! k;
  money ← activity_cost currency scale unit (category act);
  Some (parts ++ [ {| timeOfDay := label;
                      activity := {| activity_name := name act;
                                     activity_description := description act;
                                     activity_category := category act;
                                     location := destination |};
                      cost := money |} ],
        used_names ∪ {[ name act ]}).

(** A [for] loop over [enumerate(l)] whose body may raise. *)
Fixpoint for_enumerate {S A : Type} (body : S → nat → A → option S)
    (j : nat) (l : list A) (st : S) : option S :=
  match l with
  | [] => Some st
  | x :: rest => st' ← body st j x; for_enumerate body (j + 1) rest st'
  end.

(** The body of [for i in range(duration_days)]: the day appended to
    [days]. *)
Definition build_day (currency : Currency) (scale : PyNum.float) (unit : Z)
    (destination : string) (activities : list Activity) (i : nat) : option DayPlan :=
  start ← py_mod (i * length labels) (length activities);
  st ← for_enumerate (add_part currency scale unit destination activities start)
                     0 labels ([], ∅);
  Some {| day := Z.of_nat i + 1; parts := st.1; notes := day_notes |}.

(** [activities_total] after the two nested loops of lines 326-329. *)
Definition sum_activity_costs (days : list DayPlan) : Z :=
  foldl (fun total d => foldl (fun total p => total + estimate (cost p)) total (parts d))
        0 days.

Definition _generate_itinerary_data (w : World)
    (destination : string) (duration_days : Z) (travel_style : string)
    : option ItineraryResult :=
  let currency := resolve_currency destination in
  let scale := resolve_scale currency in
  let unit := resolve_unit currency in
  let to_money := to_money currency scale unit in
  let fetched :=
    _fetch_activities_from_api w destination travel_style (Z.max 6 (duration_days * 3)) in
  let activities := select_activities fetched travel_style in
  days ← mapM (build_day currency scale unit destination activities)
              (seq 0 (Z.to_nat duration_days));
  let activities_total := sum_activity_costs days in
  flights_money ← to_money (PyNum.Int 600);
  acc_per_night_money ← to_money (PyNum.Int 120);
  local_transport_per_day_money ← to_money (PyNum.Int 12);
  food_per_day_money ← to_money (PyNum.Int 35);
  let breakdown :=
    {| flights := flights_money;
       accommodationPerNight := acc_per_night_money;
       activities_cost := {| estimate := activities_total; currency := code currency |};
       localTransportPerDay := local_transport_per_day_money;
       foodPerDay := food_per_day_money |} in
  let total_estimate :=
    estimate flights_money
    + estimate acc_per_night_money * duration_days
    + activities_total
    + estimate local_transport_per_day_money * duration_days
    + estimate food_per_day_money * duration_days in
  let checklist_data := checklist_data (_generate_checklist destination "Trip") in
  let payload :=
    {| itinerary_type := "itinerary";
       itinerary_version := 1;
       destination := destination;
       durationDays := duration_days;
       travelStyle := travel_style;
       itinerary_currency := currency;
       days := days;
       summary :=
         {| estimatedTotalCost := {| estimate := total_estimate; currency := code currency |};
            breakdown := breakdown |};
       checklist := checklist_data |} in
  let json_tag :=
    "```json itinerary" +:+ PyStr.nl +:+ Json.dumps (itinerary_json payload)
      +:+ PyStr.nl +:+ "```" in
  Some {| data := payload; json_tag := json_tag |}.

(** ** The four backend tools *)

(** A value of the report table that the report iterates: a list of
    strings in the three table entries, a single string in the fallback
    entry, whose iteration yields its characters. *)
Inductive Field :=
| Items (l : list string)
| Text (s : string).

Definition iterate (f : Field) : list string :=
  match f with
  | Items l => l
  | Text s => PyStr.chars s
  end.

Record Info := {
  best_time : string;
  highlights : Field;
  food : Field;
  culture : Field;
  budget : string;
  transport : string;
}.

(** [destinations_db], in insertion order, which is the order the lookup
    loop visits its keys in. *)
Definition destinations_db : list (string * Info) :=
  [ ("tokyo",
     {| best_time := "Spring (March-May) or Fall (September-November)";
       highlights := Items ["Senso-ji Temple"; "Shibuya Crossing"; "Tsukiji Fish Market"; "Mount Fuji day trips"];
       food := Items ["Sushi"; "Ramen"; "Tempura"; "Wagyu beef"; "Street food in Harajuku"];
       culture := Items ["Traditional tea ceremonies"; "Kabuki theater"; "Modern art museums"; "Anime culture"];
       budget := "$$$ - Expensive but manageable with planning";
       transport := "Excellent public transportation with JR Pass for tourists" |});
    ("paris",
     {| best_time := "Late spring (May-June) or early fall (September-October)";
       highlights := Items ["Eiffel Tower"; "Louvre Museum"; "Notre-Dame"; "Champs-Élysées"];
       food := Items ["Croissants"; "French wine"; "Cheese"; "Fine dining"; "Café culture"];
       culture := Items ["Art museums"; "Historic architecture"; "Fashion"; "Literary history"];
       budget := "$$$ - Expensive, especially dining and accommodation";
       transport := "Metro system covers the city well" |});
    ("bali",
     {| best_time := "Dry season (April-October)";
       highlights := Items ["Uluwatu Temple"; "Rice terraces"; "Beach clubs"; "Volcano hikes"];
       food := Items ["Nasi Goreng"; "Satay"; "Fresh tropical fruits"; "Balinese cuisine"];
       culture := Items ["Hindu temples"; "Traditional dance"; "Art villages"; "Spiritual retreats"];
       budget := "$$ - Very affordable for accommodation and food";
       transport := "Scooter rental popular, private drivers available" |}) ].

Definition fallback_info (destination : string) : Info :=
  {| best_time := "Research local climate and peak seasons";
     highlights := Text ("Popular attractions and landmarks in " +:+ destination);
     food := Text ("Local cuisine and specialties of " +:+ destination);
     culture := Text ("Cultural experiences and traditions in " +:+ destination);
     budget := "Research local cost of living and tourist prices";
     transport := "Local transportation options and tourist passes" |}.

(** [chr(10).join([f"- {item}" for item in field])] *)
Definition bullets (f : Field) : string :=
  PyStr.join PyStr.nl (map (fun item => "- " +:+ item) (iterate f)).

(** The report, lines 426-442. *)
Definition research_report (destination : string) (info : Info) : string :=
  PyStr.join PyStr.nl
    [ "## 📍 " +:+ PyStr.title destination +:+ " Research";
      EmptyString;
      "**🌟 Best Time to Visit:** " +:+ best_time info;
      EmptyString;
      "**🏛️ Must-See Highlights:**";
      bullets (highlights info);
      EmptyString;
      "**🍽️ Food & Dining:**";
      bullets (food info);
      EmptyString;
      "**🎭 Culture & Experiences:**";
      bullets (culture info);
      EmptyString;
      "**💰 Budget:** " +:+ budget info;
      EmptyString;
      "**🚌 Transportation:** " +:+ transport info;
      EmptyString ].

(** The lookup loop of lines 410-414: the first key, in table order, that
    is contained in the lowered destination or contains it. *)
Definition find_destination (dest_key : string) : option (string * Info) :=
  find (fun entry => PyStr.contains (fst entry) dest_key || PyStr.contains dest_key (fst entry))
       destinations_db.

Definition research_destination (destination interests : string) : string :=
  let dest_key := PyStr.lower destination in
  let info :=
    match find_destination dest_key with
    | Some (_, info) => info
    | None => fallback_info destination
    end in
  research_report destination info.

(** The block appended for one day, lines 512-517. *)
Definition day_block (day : Z) : string :=
  PyStr.join PyStr.nl
    [ "### Day " +:+ PyStr.of_int day;
      "Summary: See structured itinerary above.";
      EmptyString;
      "---";
      EmptyString;
      EmptyString ].

(** [create_itinerary_template].  The two style tables of lines 460-498 are
    read into locals that nothing uses afterwards; they are left out. *)
Definition create_itinerary_template (w : World)
    (destination : string) (duration_days : Z) (travel_style : string) : option string :=
  let duration_days := if 14 <? duration_days then 14 else duration_days in
  itinerary ← _generate_itinerary_data w destination duration_days travel_style;
  let template :=
    PyStr.join PyStr.nl
    [ "## 🗓️ " +:+ PyStr.title destination +:+ " Itinerary (" +:+ PyStr.of_int duration_days +:+ " Days)";
      EmptyString;
      "*Travel Style: " +:+ PyStr.title travel_style +:+ "*";
      EmptyString;
      json_tag itinerary;
      EmptyString;
      EmptyString ] in
  let template :=
    foldl (fun template i => template +:+ day_block (Z.of_nat i))
          template (seq 1 (Z.to_nat duration_days)) in
  let checklist := _generate_checklist destination "Trip" in
  Some (template +:+
    PyStr.join PyStr.nl
    [ checklist_json_tag checklist;
      EmptyString;
      "## 💡 Tips & Notes";
      "*Add your own insights and discoveries here...*";
      EmptyString ]).

(** [suggestions.append(text)] when [cond] holds. *)
Definition append_if (cond : bool) (text : string) (suggestions : list string)
    : list string :=
  if cond then suggestions ++ [text] else suggestions.

Definition suggest_improvements (current_content focus_area : string) : string :=
  let lowered := PyStr.lower current_content in
  let suggestions := [] in
  let suggestions :=
    append_if (PyStr.len current_content <? 500)%nat
      "📝 **Add more detail** - Your document could benefit from more specific information and planning details." suggestions in
  let suggestions :=
    append_if (negb (PyStr.contains "itinerary" lowered) && negb (PyStr.contains "day" lowered))
      "🗓️ **Add an itinerary** - Consider creating a day-by-day schedule for your trip." suggestions in
  let suggestions :=
    append_if (negb (PyStr.contains "budget" lowered) && negb (PyStr.contains "cost" lowered))
      "💰 **Include budget planning** - Add estimated costs and budget considerations." suggestions in
  let suggestions :=
    append_if (negb (PyStr.contains "accommodation" lowered) && negb (PyStr.contains "hotel" lowered))
      "🏨 **Add accommodation details** - Include where you plan to stay." suggestions in
  let suggestions :=
    append_if (negb (PyStr.contains "transport" lowered) && negb (PyStr.contains "flight" lowered))
      "✈️ **Add transportation info** - Include flight details and local transport options." suggestions in
  let suggestions :=
    append_if (PyStr.count_char "#" current_content <? 3)%nat
      "🏗️ **Improve structure** - Use more headings to organize your content better." suggestions in
  let suggestions :=
    if String.eqb focus_area "details" then
      suggestions ++
        [ "🔍 **Add specific details** - Include addresses, opening hours, and contact information.";
          "📱 **Add useful apps/websites** - List helpful resources for your destination." ]
    else if String.eqb focus_area "practicality" then
      suggestions ++
        [ "✅ **Create action items** - Add checkboxes for tasks that need to be completed.";
          "📞 **Emergency contacts** - Include important phone numbers and embassy info." ]
    else suggestions in
  let suggestions :=
    match suggestions with
    | [] =>
        [ "✨ **Great work!** Your document is well-structured.";
          "💡 **Consider adding personal notes** - Space for thoughts and experiences during the trip.";
          "🤝 **Collaboration notes** - Areas where team members can add their input." ]
    | _ => suggestions
    end in
  let result := "## 💡 Suggested Improvements" +:+ PyStr.nl +:+ PyStr.nl
                  +:+ PyStr.join PyStr.nl suggestions in
  result +:+ PyStr.nl +:+ PyStr.nl +:+ "*What would you like me to help you add or improve?*".

Definition planning_sections (topic : string) : gmap string string :=
  <["checklist" :=
      let payload := _generate_checklist (PyStr.or_else topic EmptyString) "Trip" in
      PyStr.join PyStr.nl
      [ markdown payload;
        EmptyString;
        checklist_json_tag payload ]]>
  (<["budget" :=
      PyStr.join PyStr.nl
      [ "## 💰 " +:+ PyStr.or_else topic "Trip" +:+ " Budget";
        EmptyString;
        "### Estimated Costs";
        "| Category | Estimated Cost | Actual Cost | Notes |";
        "|----------|---------------|-------------|-------|";
        "| Flights | $XXX | | |";
        "| Accommodation | $XXX | | |";
        "| Food & Dining | $XXX | | |";
        "| Transportation | $XXX | | |";
        "| Activities | $XXX | | |";
        "| Shopping | $XXX | | |";
        "| Emergency Fund | $XXX | | |";
        "| **Total** | **$XXX** | | |";
        EmptyString;
        "### Money-Saving Tips";
        "- ";
        "- ";
        "- ";
        EmptyString ]]>
  (<["packing" :=
      PyStr.join PyStr.nl
      [ "## 🎒 " +:+ PyStr.or_else topic "Trip" +:+ " Packing List";
        EmptyString;
        "### Essentials";
        "- [ ] Passport/ID";
        "- [ ] Travel insurance documents";
        "- [ ] Flight confirmations";
        "- [ ] Accommodation confirmations";
        "- [ ] Phone & charger";
        "- [ ] Medications";
        EmptyString;
        "### Clothing";
        "- [ ] Weather-appropriate clothes";
        "- [ ] Comfortable walking shoes";
        "- [ ] Light jacket/sweater";
        "- [ ] Sleepwear";
        "- [ ] Undergarments";
        EmptyString;
        "### Personal Items";
        "- [ ] Toiletries";
        "- [ ] Sunscreen";
        "- [ ] Sunglasses";
        "- [ ] Camera";
        "- [ ] Travel adapter";
        "- [ ] First aid kit";
        EmptyString;
        "### Optional";
        "- [ ] Books/entertainment";
        "- [ ] Snacks";
        "- [ ] Gifts for locals";
        "- [ ] Extra memory cards";
        EmptyString ]]>
  (<["research" :=
      PyStr.join PyStr.nl
      [ "## 📚 " +:+ PyStr.or_else topic "Destination" +:+ " Research Notes";
        EmptyString;
        "### Key Information";
        "**Language:** ";
        "**Currency:** ";
        "**Time Zone:** ";
        "**Climate:** ";
        "**Local Customs:** ";
        EmptyString;
        "### Must-Know Phrases";
        "- Hello: ";
        "- Thank you: ";
        "- Excuse me: ";
        "- Where is...?: ";
        "- How much?: ";
        EmptyString;
        "### Important Apps/Websites";
        "- ";
        "- ";
        "- ";
        EmptyString;
        "### Local Tips";
        "- ";
        "- ";
        "- ";
        EmptyString ]]>
  (<["contacts" :=
      PyStr.join PyStr.nl
      [ "## 📞 " +:+ PyStr.or_else topic "Emergency" +:+ " Contacts";
        EmptyString;
        "### Emergency Services";
        "**Local Emergency Number:** ";
        "**Police:** ";
        "**Medical:** ";
        "**Fire:** ";
        EmptyString;
        "### Embassy/Consulate";
        "**Address:** ";
        "**Phone:** ";
        "**Email:** ";
        EmptyString;
        "### Personal Contacts";
        "**Travel Companions:** ";
        "**Emergency Contact at Home:** ";
        "**Accommodation:** ";
        "**Local Guide/Contact:** ";
        EmptyString;
        "### Important Numbers";
        "**Bank/Credit Card:** ";
        "**Travel Insurance:** ";
        "**Airline:** ";
        EmptyString ]]> ∅)))).

Definition add_planning_section (section_type topic : string) : string :=
  default ("# " +:+ PyStr.or_else topic (PyStr.title section_type) +:+ PyStr.nl +:+ PyStr.nl
             +:+ "*Add your content here...*")
          (planning_sections topic !! section_type).

(** ** The dispatch graph *)

(** One requested tool call: the name, the arguments as decoded JSON, the
    identifier the answer refers to. *)
Record ToolCall := {
  call_name : string;
  call_args : list (string * Json.value);
  call_id : string;
}.

(** The response of the language model.  [tool_calls] is what
    [getattr(response, "tool_calls", None)] reads; [response_id] is the
    identifier of the message, if it has one. *)
Record Response := {
  response_id : option string;
  response_content : string;
  tool_calls : option (list ToolCall);
}.

(** What the prebuilt tool node does with one call of the last message.
    It is built over [backend_tools] alone: a call that names one of them
    is executed and answered with the result of the tool; a tool that
    raises, or a call that names no tool of the node, is answered with an
    error message the library composes, and in the second case no tool
    runs. *)
Inductive Outcome :=
| executed (result : string)
| failed
| not_a_tool.

Record ToolMessage := {
  tool_message_id : option string;
  tool_name : string;
  tool_call_id : string;
  outcome : Outcome;
}.

(** A message of the history.  Every message may carry an identifier; a
    message without one is given a fresh identifier by the history, which
    no other message carries. *)
Inductive Message :=
| SystemMessage (id : option string) (text : string)
| HumanMessage (id : option string) (text : string)
| AIMessage (response : Response)
| ToolResult (answer : ToolMessage).

Definition message_id (m : Message) : option string :=
  match m with
  | SystemMessage id _ | HumanMessage id _ => id
  | AIMessage response => response_id response
  | ToolResult answer => tool_message_id answer
  end.

(** [AgentState].  An absent key is the empty string, resp. the empty
    list: the node reads every key through [get] and [or]. *)
Record AgentState := {
  messages : list Message;
  content : string;
  group_id : string;
  groupId : string;
  tools : list string;
}.

(** The hosted model bound to a list of tool names: from the messages sent
    to the response received. *)
Record Model := {
  ainvoke : list string → list Message → Response;
}.

(** The validation of the arguments of a call against the signature of a
    tool, which the tool decorator derives from the annotations: how a
    JSON value is read as a [str] and as an [int].  A JSON string is read
    as itself and a JSON integer as itself; what else is accepted, and as
    what, is the validation library's and is left open. *)
Record Schema := {
  as_str : Json.value → option string;
  as_int : Json.value → option Z;
  as_str_string : ∀ s, as_str (Json.JStr s) = Some s;
  as_int_integer : ∀ n, as_int (Json.JInt n) = Some n;
}.

(** A required argument. *)
Definition required {A : Type} (read : Json.value → option A)
    (args : list (string * Json.value)) (key : string) : option A :=
  match assoc_lookup key args with
  | Some v => read v
  | None => None
  end.

(** An argument with a default. *)
Definition optional {A : Type} (read : Json.value → option A)
    (args : list (string * Json.value)) (key : string) (fallback : A) : option A :=
  match assoc_lookup key args with
  | Some v => read v
  | None => Some fallback
  end.

(** [backend_tools]: each tool under its name, applied to the arguments of
    a call after the validation of its signature; [None] when the
    validation fails or the tool raises. *)
Definition backend_tools
    : list (string * (Schema → World → list (string * Json.value) → option string)) :=
  [ ("research_destination",
     fun schema w args =>
       destination ← required (as_str schema) args "destination";
       interests ← optional (as_str schema) args "interests" "general";
       Some (research_destination destination interests));
    ("create_itinerary_template",
     fun schema w args =>
       destination ← required (as_str schema) args "destination";
       duration_days ← required (as_int schema) args "duration_days";
       travel_style ← optional (as_str schema) args "travel_style" "balanced";
       create_itinerary_template w destination duration_days travel_style);
    ("suggest_improvements",
     fun schema w args =>
       current_content ← required (as_str schema) args "current_content";
       focus_area ← optional (as_str schema) args "focus_area" "general";
       Some (suggest_improvements current_content focus_area));
    ("add_planning_section",
     fun schema w args =>
       section_type ← required (as_str schema) args "section_type";
       topic ← optional (as_str schema) args "topic" EmptyString;
       Some (add_planning_section section_type topic)) ].

Definition backend_tool_names : list string := map fst backend_tools.

Definition route_to_tool_node (response : Response) : bool :=
  match tool_calls response with
  | None | Some [] => false
  | Some tool_calls =>
      existsb (fun tool_call => bool_decide (call_name tool_call ∈ backend_tool_names))
              tool_calls
  end.

Inductive Node := chat_node_ | tool_node_ | END.

(** [Command(goto=..., update={"messages": [...]})] *)
Record Command := {
  goto : Node;
  update_messages : list Message;
}.

Definition system_message (group_id doc_snapshot : string) : Message :=
  SystemMessage None (
  PyStr.join PyStr.nl
    [ "You are Frizzle, an expert AI travel planning and brainstorming assistant. Your specialty is helping individuals and groups create amazing collaborative documents for travel plans, research projects, startup ideas, and more.";
      EmptyString;
      "CORE CAPABILITIES:";
      "🌍 Travel Planning: Research destinations, create itineraries, suggest activities";
      "📝 Document Building: Structure content, add sections, improve organization  ";
      "🤝 Collaboration: Support group planning and decision-making";
      "💡 Creative Brainstorming: Help develop ideas for any project or plan";
      EmptyString;
      "PERSONALITY & TONE:";
      "- Enthusiastic and helpful, but not overly casual";
      "- Detail-oriented and practical";
      "- Encouraging of collaboration and input from all group members";
      "- Clear and organized in your responses";
      EmptyString;
      "CURRENT CONTEXT:";
      "- Group ID: " +:+ group_id;
      "- Current document (markdown snapshot):";
      EmptyString;
      "```markdown";
      doc_snapshot;
      "```";
      EmptyString;
      "AVAILABLE TOOLS:";
      "- research_destination: Get detailed info about travel destinations";
      "- create_itinerary_template: Build structured day-by-day plans";
      "- suggest_improvements: Analyze content and recommend enhancements";
      "- add_planning_section: Add specialized sections (checklists, budgets, etc.)";
      "- updateDocument: Update the main document content (via frontend action)";
      "- addSection: Add new sections to the document (via frontend action)";
      EmptyString;
      "GUIDELINES:";
      "1. Always ask clarifying questions when requests are vague";
      "2. Suggest specific, actionable improvements to documents";
      "3. Use your tools proactively to provide detailed, helpful information";
      "4. Encourage group members to contribute their own ideas and preferences";
      "5. Keep content well-structured with clear headings and organization";
      "6. Be mindful that multiple people may be contributing to the same document";
      EmptyString;
      "SOURCE OF TRUTH POLICY:";
      "- The shared document snapshot above is the canonical state for the plan. If prior chat messages conflict with the document, prefer the document.";
      "- Do NOT change the trip duration unless explicitly asked to do so. When a user asks to modify a single day (e.g., " +:+ PyStr.dq +:+ "visit X on Day 2" +:+ PyStr.dq +:+ "), update only that day's content and preserve the current total duration from the document.";
      "- When the duration is explicitly changed, update the itinerary header (e.g., " +:+ PyStr.dq +:+ "Itinerary (N Days)" +:+ PyStr.dq +:+ ") and day sections accordingly, then call 'updateDocument' with the fully updated markdown.";
      EmptyString;
      "CRITICAL TOOL USAGE:";
      "7. Whenever you generate content meant for the shared document, you MUST call the 'updateDocument' action with the FULL updated markdown (merge your changes into the existing content). Do not only reply in chat.";
      "8. If the user asks to add a specific section, prefer calling 'addSection' (frontend action) and then 'updateDocument' with the resulting content if needed.";
      "9. After using backend tools (e.g., research_destination, create_itinerary_template), integrate their results into the document by calling 'updateDocument' so collaborators see changes in the editor.";
      "10. JSON RENDERING REQUIREMENT: For itineraries or checklists, always use the tools that emit fenced JSON tags (create_itinerary_template and add_planning_section with " +:+ PyStr.dq +:+ "checklist" +:+ PyStr.dq +:+ "). Do not write free-form markdown versions without these JSON fences, or the frontend cannot render the rich components.";
      EmptyString;
      "SPECIAL HANDLING FOR EDIT REQUESTS:";
      "- If a user requests adjustments (e.g., " +:+ PyStr.dq +:+ "make the trip 5 days instead of 4" +:+ PyStr.dq +:+ "), infer missing details like destination or current duration from the existing document snapshot above. Do not re-ask for data that is already present in the document unless it is ambiguous.";
      "- When changing durations, update all day headers and related content accordingly, then call 'updateDocument' with the full updated markdown.";
      EmptyString;
      "Remember: Your goal is to help create comprehensive, useful documents that serve as excellent planning resources for individuals or groups!" ]).

(** [l[-n:]] when [len(l) > n], [l] otherwise. *)
Definition last_n {A : Type} (n : nat) (l : list A) : list A :=
  if (n <? length l)%nat then drop (length l - n) l else l.

(** The request [chat_node] sends: the tools bound and the messages. *)
Definition bound_tools (state : AgentState) : list string :=
  tools state ++ backend_tool_names.

Definition prompt (state : AgentState) : list Message :=
  let group_id :=
    PyStr.or_else (group_id state) (PyStr.or_else (groupId state) "Solo planning session") in
  let content_str := PyStr.or_else (content state) EmptyString in
  let max_chars := 8000 in
  let doc_snapshot := PyStr.slice_to (Z.to_nat max_chars) content_str in
  let prior_messages := last_n 6 (messages state) in
  system_message group_id doc_snapshot :: prior_messages.

Definition chat_node (model : Model) (state : AgentState) : Command :=
  let response := ainvoke model (bound_tools state) (prompt state) in
  if route_to_tool_node response then
    {| goto := tool_node_; update_messages := [AIMessage response] |}
  else
    {| goto := END; update_messages := [AIMessage response] |}.

Definition run_tool_call (schema : Schema) (w : World) (tool_call : ToolCall) : Outcome :=
  match assoc_lookup (call_name tool_call) backend_tools with
  | Some tool =>
      match tool schema w (call_args tool_call) with
      | Some result => executed result
      | None => failed
      end
  | None => not_a_tool
  end.

(** The message the tool node answers a call with; it has no identifier
    yet. *)
Definition answer (schema : Schema) (w : World) (tool_call : ToolCall) : ToolMessage :=
  {| tool_message_id := None;
     tool_name := call_name tool_call;
     tool_call_id := call_id tool_call;
     outcome := run_tool_call schema w tool_call |}.

(** The tool node, [ToolNode(tools=backend_tools)], answers every call of
    the response that ends the history, in order.  The history ends with a
    response whenever the chat node has just appended one; on a history
    that ends otherwise the library raises or, in later versions, looks
    further back: that case is [None] here, and nothing below depends on
    it. *)
Definition tool_node (schema : Schema) (w : World) (state : AgentState)
    : option (list Message) :=
  match last (messages state) with
  | Some (AIMessage response) =>
      Some (map (fun tool_call => ToolResult (answer schema w tool_call))
                (default [] (tool_calls response)))
  | _ => None
  end.

(** The position the history finds for an identifier: that of the last
    message carrying it. *)
Fixpoint position_of (id : string) (history : list Message) : option nat :=
  match history with
  | [] => None
  | m :: rest =>
      match position_of id rest with
      | Some i => Some (S i)
      | None => if bool_decide (message_id m = Some id) then Some O else None
      end
  end.

(** One step of the merge: a message whose identifier is in the history
    takes the place of the message that carries it, any other message is
    appended. *)
Definition merge (history : list Message) (m : Message) : list Message :=
  match message_id m with
  | Some id =>
      match position_of id history with
      | Some i => <[i := m]> history
      | None => history ++ [m]
      end
  | None => history ++ [m]
  end.

(** [add_messages], the reducer of the [messages] channel of
    [CopilotKitState]: the messages of an update are merged one after the
    other.  The graph only ever hands it one response of the model, or the
    answers of the tool node, which have no identifier yet. *)
Definition add_messages (left right : list Message) : list Message :=
  foldl merge left right.

(** A state after an update of its [messages] channel. *)
Definition updated (state : AgentState) (new : list Message) : AgentState :=
  {| messages := add_messages (messages state) new;
     content := content state;
     group_id := group_id state;
     groupId := groupId state;
     tools := tools state |}.

(** One transition of the compiled graph: [chat_node] is the entry point
    and follows its own [Command]; the edge out of [tool_node] leads back
    to [chat_node]. *)
Definition graph_step (model : Model) (schema : Schema) (w : World)
    (node : Node) (state : AgentState) : option (Node * AgentState) :=
  match node with
  | chat_node_ =>
      let command := chat_node model state in
      Some (goto command, updated state (update_messages command))
  | tool_node_ =>
      answers ← tool_node schema w state;
      Some (chat_node_, updated state answers)
  | END => Some (END, state)
  end.

(** The graph run for at most [fuel] transitions from a node. *)
Fixpoint run (model : Model) (schema : Schema) (w : World) (fuel : nat)
    (node : Node) (state : AgentState) : option (Node * AgentState) :=
  match fuel, node with
  | _, END => Some (END, state)
  | O, _ => Some (node, state)
  | S fuel', _ =>
      '(node', state') ← graph_step model schema w node state;
      run model schema w fuel' node' state'
  end.

(** ** Notions used to state the properties *)

(** The titles of the sections of a checklist, in order. *)
Definition section_titles (p : ChecklistPayload) : list string :=
  map section_title (sections p).

(** The number of items of each section, in order. *)
Definition section_sizes (p : ChecklistPayload) : list nat :=
  map (fun s => length (items s)) (sections p).

(** Every item of every section is unticked. *)
Definition all_unchecked (p : ChecklistPayload) : Prop :=
  ∀ s it, s ∈ sections p → it ∈ items s → checked it = false.

(** The table entry of a key of [destinations_db]. *)
Definition db_entry (key : string) : option Info := assoc_lookup key destinations_db.

(** The currencies the resolution can yield: the default and the values of
    [currency_map]. *)
Definition known_currencies : list Currency :=
  usd :: (map_to_list currency_map).*2.

(** The USD baselines the generator converts: the four summary components,
    the default activity cost and the values of [baseline_costs]. *)
Definition usd_baselines : list Z :=
  [600; 120; 12; 35; 0] ++ (map_to_list baseline_costs).*2.

(** [to_money] under the scale and the unit of a currency. *)
Definition convert (cur : Currency) (amount_usd : PyNum.number) : option Money :=
  to_money cur (resolve_scale cur) (resolve_unit cur) amount_usd.

Definition converts (cur : Currency) (a : Z) : bool :=
  match convert cur (PyNum.Int a) with
  | Some _ => true
  | None => false
  end.

(** The activity pool the generator works on (lines 229 and 259). *)
Definition activity_pool (w : World) (destination : string) (duration_days : Z)
    (travel_style : string) : list Activity :=
  select_activities
    (_fetch_activities_from_api w destination travel_style (Z.max 6 (duration_days * 3)))
    travel_style.

(** The distinct activity names of a pool. *)
Definition pool_names (acts : list Activity) : gset string :=
  list_to_set (name <$> acts).

(** The part a pool entry becomes. *)
Definition part_of (destination label : string) (act : Activity) (money : Money) : Part :=
  {| timeOfDay := label;
     activity := {| activity_name := name act;
                    activity_description := description act;
                    activity_category := category act;
                    location := destination |};
     cost := money |}.

(** The activity names of the parts of a day, in order. *)
Definition part_names (d : DayPlan) : list string :=
  map (fun p => activity_name (activity p)) (parts d).

(** The times of day of the parts of a day, in order. *)
Definition part_times (d : DayPlan) : list string :=
  map timeOfDay (parts d).

(** The sum of the cost estimates of all parts of all days. *)
Definition part_costs_total (days : list DayPlan) : Z :=
  foldr Z.add 0 (map (fun p => estimate (cost p)) (flat_map parts days)).

(** A world in which the credential is unset. *)
Definition offline : World :=
  {| getenv := fun _ => None;
     search_places := fun _ _ _ _ => None;
     place_extract := fun _ _ => None |}.

(** The five travel styles the catalog knows. *)
Definition known_styles : list string :=
  ["adventure"; "relaxed"; "cultural"; "food"; "balanced"].

(** The part of a payload a pool entry stands behind, whatever its label
    and its cost. *)
Definition drawn_from (destination : string) (pool : list Activity) (p : Part) : Prop :=
  ∃ act, act ∈ pool
    ∧ activity p = {| activity_name := name act;
                      activity_description := description act;
                      activity_category := category act;
                      location := destination |}.

(** The tool calls of a response, none when the attribute is absent. *)
Definition requested (response : Response) : list ToolCall :=
  default [] (tool_calls response).

Definition names_backend_tool (tool_call : ToolCall) : Prop :=
  call_name tool_call ∈ backend_tool_names.

(** The identifier of a response is new to a history: the response has
    none yet, or no message of the history carries it. *)
Definition new_to (history : list Message) (response : Response) : Prop :=
  match response_id response with
  | Some id => ∀ m, m ∈ history → message_id m ≠ Some id
  | None => True
  end.

(** The answer of the tool node to a call, with a given outcome. *)
Definition answered (tool_call : ToolCall) (o : Outcome) : Message :=
  ToolResult {| tool_message_id := None;
                tool_name := call_name tool_call;
                tool_call_id := call_id tool_call;
                outcome := o |}.

(** The tool the tool node holds under a name. *)
Definition tool_named (name : string)
    : option (Schema → World → list (string * Json.value) → option string) :=
  assoc_lookup name backend_tools.

(** The outcome of a tool on the arguments of a call. *)
Definition outcome_of
    (tool : Schema → World → list (string * Json.value) → option string)
    (schema : Schema) (w : World) (tool_call : ToolCall) : Outcome :=
  match tool schema w (call_args tool_call) with
  | Some result => executed result
  | None => failed
  end.

(** A validation that accepts a JSON string as a [str], a JSON integer as
    an [int], and nothing else. *)
Definition strict : Schema :=
  {| as_str := fun v => match v with Json.JStr s => Some s | _ => None end;
     as_int := fun v => match v with Json.JInt n => Some n | _ => None end;
     as_str_string := fun s => eq_refl;
     as_int_integer := fun n => eq_refl |}.

(** A model that answers every request with the same response. *)
Definition constant_model (response : Response) : Model :=
  {| ainvoke := fun _ _ => response |}.

Definition fresh_state (text : string) : AgentState :=
  {| messages := [HumanMessage (Some "msg-1") text];
     content := EmptyString;
     group_id := EmptyString;
     groupId := EmptyString;
     tools := ["updateDocument"; "addSection"] |}.

Definition research_call : ToolCall :=
  {| call_name := "research_destination";
     call_args := [("destination", Json.JStr "Paris")];
     call_id := "call-1" |}.

Definition update_call : ToolCall :=
  {| call_name := "updateDocument";
     call_args := [("content", Json.JStr "# Plan")];
     call_id := "call-2" |}.

Definition plain_reply : Response :=
  {| response_id := Some "run-1";
     response_content := "Where would you like to go?";
     tool_calls := Some [] |}.

Definition mixed_reply : Response :=
  {| response_id := Some "run-2";
     response_content := EmptyString;
     tool_calls := Some [research_call; update_call] |}.

(** ** Further notions used to state properties *)


(** The description the adapter gives a record before any enrichment
    (line 180). *)
Definition generic_description (destination category : string) : string :=
  "A " +:+ PyStr.lower category +:+ " in " +:+ destination +:+ ".".

(** An infinity or a NaN. *)
Definition not_finite (x : PyNum.float) : Prop := PyNum.is_finite x = false.

(** The name of the pool entry at an index. *)
Definition name_at (pool : list Activity) (k : nat) : option string :=
  name <$> pool !! k.

(** The report entry of Tokyo, the first of [destinations_db]. *)
Definition tokyo_info : option Info := snd <$> head destinations_db.

(** The text [suggest_improvements] returns when it has nothing to
    suggest (lines 573-581). *)
Definition encouragement : string :=
  "## 💡 Suggested Improvements" +:+ PyStr.nl +:+ PyStr.nl
  +:+ PyStr.join PyStr.nl
        [ "✨ **Great work!** Your document is well-structured.";
          "💡 **Consider adding personal notes** - Space for thoughts and experiences during the trip.";
          "🤝 **Collaboration notes** - Areas where team members can add their input." ]
  +:+ PyStr.nl +:+ PyStr.nl +:+ "*What would you like me to help you add or improve?*".

(** A document [suggest_improvements] finds nothing to say about: long
    enough, with the four topics mentioned and three heading marks. *)
Definition complete_document (current_content : string) : bool :=
  let lowered := PyStr.lower current_content in
  negb (PyStr.len current_content <? 500)%nat
  && (PyStr.contains "itinerary" lowered || PyStr.contains "day" lowered)
  && (PyStr.contains "budget" lowered || PyStr.contains "cost" lowered)
  && (PyStr.contains "accommodation" lowered || PyStr.contains "hotel" lowered)
  && (PyStr.contains "transport" lowered || PyStr.contains "flight" lowered)
  && negb (PyStr.count_char "#" current_content <? 3)%nat.

(** The five section types [add_planning_section] has a template for. *)
Definition section_types : list string :=
  ["checklist"; "budget"; "packing"; "research"; "contacts"].

(** The messages of a prompt after the system message. *)
Definition prior_messages (state : AgentState) : list Message := tail (prompt state).

(** The document snapshot a prompt embeds (lines 768-771). *)
Definition doc_snapshot (state : AgentState) : string :=
  PyStr.slice_to (Z.to_nat 8000) (PyStr.or_else (content state) EmptyString).

(** A world with a credential, a service that knows seven places and an
    extract for each of them. *)
Definition seven_places : list Feature :=
  map (fun n => {| feature_name := "Place " +:+ n;
                   feature_kinds := "museums,historic";
                   feature_xid := "Q" +:+ n |})
      ["1"; "2"; "3"; "4"; "5"; "6"; "7"].

Definition online : World :=
  {| getenv := fun _ => Some "secret";
     search_places := fun _ _ _ _ => Some seven_places;
     place_extract := fun _ _ => Some "A famous place. Built long ago." |}.

(** The money a payload holds: the cost of every part, the five components
    of the breakdown and the total. *)
Definition payload_money (p : ItineraryPayload) : list Money :=
  map cost (flat_map parts (days p))
  ++ [ flights (breakdown (summary p));
       accommodationPerNight (breakdown (summary p));
       activities_cost (breakdown (summary p));
       localTransportPerDay (breakdown (summary p));
       foodPerDay (breakdown (summary p));
       estimatedTotalCost (summary p) ].

(** A world whose service knows a single place. *)
Definition one_place : World :=
  {| getenv := fun _ => Some "secret";
     search_places := fun _ _ _ _ =>
       Some [ {| feature_name := "Old Lighthouse";
                 feature_kinds := "historic";
                 feature_xid := EmptyString |} ];
     place_extract := fun _ _ => None |}.

(** The duration [create_itinerary_template] works with (lines 457-458). *)
Definition clamped (duration_days : Z) : Z := Z.min duration_days 14.

(** The opening of the reply of [suggest_improvements] to a short
    document. *)
Definition short_document_opening : string :=
  "## 💡 Suggested Improvements" +:+ PyStr.nl +:+ PyStr.nl
  +:+ "📝 **Add more detail** - Your document could benefit from more specific information and planning details.".

(** A document long enough and complete for [suggest_improvements]. *)
Definition long_plan : string :=
  PyStr.concat (repeat "# Day plan: itinerary, budget, hotel and flight. " 12).

(** A byte sequence cut as [PyStr.chars] cuts: one byte followed by
    continuation bytes only. *)
Fixpoint continuation_only (s : string) : bool :=
  match s with
  | EmptyString => true
  | String c s' => PyStr.is_continuation c && continuation_only s'
  end.

Definition one_character (chunk : string) : bool :=
  match chunk with
  | EmptyString => false
  | String _ rest => continuation_only rest
  end.

(** The conversion of an amount gives a positive estimate. *)
Definition converts_positive (cur : Currency) (a : Z) : bool :=
  match convert cur (PyNum.Int a) with
  | Some m => bool_decide (0 < estimate m)
  | None => false
  end.

(** The USD baselines of the three daily components of the summary:
    accommodation, local transport and food (lines 327-329). *)
Definition daily_baselines : list Z := [120; 12; 35].

(** * Properties *)

(** ** Checklist *)

(** C3.  For every destination and context the checklist payload has
    version 1 and exactly the three sections Before You Go, Pack & Prepare,
    During Trip, in that order, with 7, 6 and 4 items, every one of them
    unticked. *)
Theorem checklist_fixed_shape (destination context : string) :
  let p := checklist_data (_generate_checklist destination context) in
  checklist_version p = 1
  ∧ section_titles p = ["Before You Go"; "Pack & Prepare"; "During Trip"]
  ∧ section_sizes p = [7; 6; 4]%nat
  ∧ all_unchecked p.
Proof.
  cbn zeta. repeat split.
  intros s it Hs Hit.
  change (sections _) with checklist_sections in Hs.
  unfold checklist_sections in Hs.
  repeat (apply elem_of_cons in Hs as [-> | Hs]);
    [ .. | by apply elem_of_nil in Hs ];
    cbn [items] in Hit;
    repeat (apply elem_of_cons in Hit as [-> | Hit]);
    try reflexivity; by apply elem_of_nil in Hit.
Qed.

(** ** Destination research *)

Lemma contains_empty (s : string) : PyStr.contains EmptyString s = true.
Proof. by destruct s. Qed.

(** C6.  [research_destination("Tokyo, Japan")] finds the entry of key
    tokyo, because that key is a substring of the lowered input, and its
    report contains Senso-ji Temple; [research_destination("Atlantis")]
    finds no entry and returns the fallback report, which contains
    Atlantis. *)
Theorem research_tokyo_and_atlantis (interests : string) :
  PyStr.contains "tokyo" (PyStr.lower "Tokyo, Japan") = true
  ∧ find_destination (PyStr.lower "Tokyo, Japan") = pair "tokyo" <$> db_entry "tokyo"
  ∧ is_Some (db_entry "tokyo")
  ∧ PyStr.contains "Senso-ji Temple" (research_destination "Tokyo, Japan" interests) = true
  ∧ find_destination (PyStr.lower "Atlantis") = None
  ∧ research_destination "Atlantis" interests
    = research_report "Atlantis" (fallback_info "Atlantis")
  ∧ PyStr.contains "Atlantis" (research_destination "Atlantis" interests) = true.
Proof.
  repeat split; try (vm_compute; reflexivity).
  vm_compute; eauto.
Qed.

(** C9.  With the empty string as destination the lookup does not fall
    through to the fallback report: the empty string is a substring of
    every key, so the first key of the table, tokyo, matches and the
    report is the one of Tokyo. *)
Theorem research_empty_destination_is_tokyo (interests : string) :
  (∀ key, PyStr.contains (PyStr.lower EmptyString) key = true)
  ∧ (fst <$> head destinations_db) = Some "tokyo"
  ∧ find_destination (PyStr.lower EmptyString) = head destinations_db
  ∧ (∃ info, db_entry "tokyo" = Some info
             ∧ research_destination EmptyString interests
               = research_report EmptyString info)
  ∧ research_destination EmptyString interests
    ≠ research_report EmptyString (fallback_info EmptyString)
  ∧ PyStr.contains "Senso-ji Temple" (research_destination EmptyString interests) = true.
Proof.
  split; [ intros key; apply contains_empty | ].
  repeat split; try (vm_compute; reflexivity).
  - eexists; split; vm_compute; reflexivity.
  - vm_compute. discriminate.
Qed.

(** ** Currency resolution and money conversion *)

Lemma resolve_currency_known (destination : string) :
  resolve_currency destination ∈ known_currencies.
Proof.
  unfold resolve_currency, known_currencies.
  destruct (currency_map !! PyStr.lower destination) as [c|] eqn:E; simpl.
  - apply elem_of_cons; right.
    apply list_elem_of_fmap. exists (PyStr.lower destination, c).
    split; [ done | by apply elem_of_map_to_list ].
  - apply elem_of_cons; by left.
Qed.

Lemma baseline_known (category : string) :
  default 0 (baseline_costs !! category) ∈ usd_baselines.
Proof.
  unfold usd_baselines.
  destruct (baseline_costs !! category) as [a|] eqn:E; simpl.
  - do 5 (apply elem_of_cons; right).
    apply list_elem_of_fmap. exists (category, a).
    split; [ done | by apply elem_of_map_to_list ].
  - do 4 (apply elem_of_cons; right). apply elem_of_cons; by left.
Qed.

Lemma converts_all :
  forallb (fun cur => forallb (converts cur) (37 :: usd_baselines)) known_currencies = true.
Proof. vm_compute. reflexivity. Qed.

Lemma convert_total (cur : Currency) (a : Z) :
  cur ∈ known_currencies → a ∈ 37 :: usd_baselines → is_Some (convert cur (PyNum.Int a)).
Proof.
  intros Hc Ha.
  pose proof converts_all as H.
  rewrite forallb_forall in H. apply list_elem_of_In in Hc. specialize (H _ Hc).
  rewrite forallb_forall in H. apply list_elem_of_In in Ha. specialize (H _ Ha).
  unfold converts in H. destruct (convert cur (PyNum.Int a)); [ eauto | discriminate ].
Qed.

Lemma summary_baselines_known (a : Z) :
  a ∈ [600; 120; 12; 35] → a ∈ 37 :: usd_baselines.
Proof.
  intros Ha. apply elem_of_cons; right. unfold usd_baselines.
  apply elem_of_app; left. set_solver.
Qed.

Lemma activity_cost_total (destination category : string) :
  let cur := resolve_currency destination in
  is_Some (activity_cost cur (resolve_scale cur) (resolve_unit cur) category).
Proof.
  intros cur. unfold activity_cost.
  apply (convert_total cur);
    [ apply resolve_currency_known | apply elem_of_cons; right; apply baseline_known ].
Qed.

(** What [to_money] returns, when it returns: the nearest integer to the
    scaled quotient, times the unit, and not below zero. *)
Lemma to_money_Some (cur : Currency) (scale : PyNum.float) (unit : Z)
    (amount_usd : PyNum.number) (m : Money) :
  to_money cur scale unit amount_usd = Some m →
  ∃ nearest, m = {| estimate := Z.max 0 (nearest * unit); currency := code cur |}.
Proof.
  unfold to_money. intros H.
  destruct (PyNum.mul amount_usd scale) as [raw|]; simpl in H; [ | discriminate ].
  destruct (PyNum.truediv raw unit) as [quotient|]; simpl in H; [ | discriminate ].
  destruct (PyNum.round quotient) as [nearest|]; simpl in H; [ | discriminate ].
  injection H as <-. by exists nearest.
Qed.

Lemma max_zero_multiple (n unit : Z) : (unit | Z.max 0 (n * unit)).
Proof.
  destruct (Z.max_spec 0 (n * unit)) as [[_ ->] | [_ ->]].
  - by exists n.
  - by exists 0.
Qed.

Lemma resolve_unit_known (cur : Currency) :
  cur ∈ known_currencies →
  (code cur, resolve_unit cur) ∈ [("USD", 1); ("JPY", 50); ("EUR", 1); ("IDR", 1000)].
Proof.
  intros H. vm_compute in H.
  repeat (apply elem_of_cons in H as [-> | H]); [ .. | by apply elem_of_nil in H ];
    vm_compute; set_solver.
Qed.

(** C4.  Whatever the destination and the USD baseline, an amount the
    conversion returns is a non-negative integer multiple of the rounding
    unit of the resolved currency, which is 50 for JPY, 1000 for IDR and 1
    for USD and EUR; the conversion returns at every baseline the generator
    converts, and at the baseline 37, where it gives 5550 for JPY. *)
Theorem to_money_multiple_of_unit (destination : string) :
  let cur := resolve_currency destination in
  let unit := resolve_unit cur in
  (code cur, unit) ∈ [("USD", 1); ("JPY", 50); ("EUR", 1); ("IDR", 1000)]
  ∧ (∀ amount_usd m,
       to_money cur (resolve_scale cur) unit amount_usd = Some m →
       0 ≤ estimate m ∧ (unit | estimate m) ∧ currency m = code cur)
  ∧ (∀ a, a ∈ 37 :: usd_baselines →
       is_Some (to_money cur (resolve_scale cur) unit (PyNum.Int a)))
  ∧ convert (resolve_currency "Tokyo") (PyNum.Int 37)
    = Some {| estimate := 5550; currency := "JPY" |}.
Proof.
  intros cur unit. split; [ | split; [ | split ] ].
  - apply resolve_unit_known, resolve_currency_known.
  - intros amount_usd m H. apply to_money_Some in H as [nearest ->]. simpl.
    split; [ lia | split; [ apply max_zero_multiple | done ] ].
  - intros a Ha. apply (convert_total cur); [ apply resolve_currency_known | done ].
  - vm_compute. reflexivity.
Qed.

(** ** The day loop *)

Lemma py_mod_Some (a n : nat) : n ≠ O → py_mod a n = Some (a mod n)%nat.
Proof. by destruct n. Qed.

Lemma py_mod_lt (a n k : nat) : py_mod a n = Some k → (k < n)%nat.
Proof.
  intros H. destruct (decide (n = O)) as [-> | Hn]; [ discriminate | ].
  rewrite py_mod_Some in H by done.
  assert (k = a mod n)%nat as -> by congruence. by apply Nat.mod_upper_bound.
Qed.

(** The skipping loop ends on an index of the pool. *)
Lemma skip_used_in_range (acts : list Activity) (used : gset string) (budget k : nat) :
  (k < length acts)%nat →
  ∃ k', skip_used acts used k budget = Some k' ∧ (k' < length acts)%nat.
Proof.
  revert k. induction budget as [ | budget IH ]; intros k Hk;
    destruct (lookup_lt_is_Some_2 acts k Hk) as [act Hact];
    cbn [skip_used]; rewrite Hact; cbn [mbind option_bind];
    case_bool_decide; eauto.
  rewrite py_mod_Some by lia. cbn [mbind option_bind].
  apply IH, Nat.mod_upper_bound. lia.
Qed.

(** If one of the [budget + 1] entries it may visit has an unused name,
    the skipping loop ends on an entry with an unused name. *)
Lemma skip_used_fresh (acts : list Activity) (used : gset string) (budget k : nat) :
  (k < length acts)%nat →
  (∃ t a, (t ≤ budget)%nat ∧ acts !! ((k + t) mod length acts)%nat = Some a ∧ name a ∉ used) →
  ∃ k' a', skip_used acts used k budget = Some k' ∧ acts !! k' = Some a' ∧ name a' ∉ used.
Proof.
  revert k. induction budget as [ | budget IH ]; intros k Hk (t & a & Ht & Ha & Hfresh);
    destruct (lookup_lt_is_Some_2 acts k Hk) as [act Hact];
    cbn [skip_used]; rewrite Hact; cbn [mbind option_bind];
    case_bool_decide as Hused; eauto.
  - assert (t = O) as -> by lia.
    rewrite Nat.add_0_r, Nat.mod_small in Ha by done. congruence.
  - rewrite py_mod_Some by lia. cbn [mbind option_bind].
    apply IH; [ apply Nat.mod_upper_bound; lia | ].
    destruct t as [ | t ].
    + rewrite Nat.add_0_r, Nat.mod_small in Ha by done. congruence.
    + exists t, a. split; [ lia | split; [ | done ] ].
      rewrite Nat.Div0.add_mod_idemp_l.
      by replace (k + 1 + t)%nat with (k + S t)%nat by lia.
Qed.

(** Every entry of the pool is within [length acts - 1] steps of every
    index, going round. *)
Lemma reachable_going_round (n k i : nat) :
  (k < n)%nat → (i < n)%nat →
  ∃ t, (t < n)%nat ∧ ((k + t) mod n)%nat = i.
Proof.
  intros Hk Hi. destruct (decide (k ≤ i)%nat).
  - exists (i - k)%nat. split; [ lia | ].
    replace (k + (i - k))%nat with i by lia. by apply Nat.mod_small.
  - exists (n + i - k)%nat. split; [ lia | ].
    replace (k + (n + i - k))%nat with (i + 1 * n)%nat by lia.
    rewrite Nat.Div0.mod_add. by apply Nat.mod_small.
Qed.

(** A set of names smaller than the set of names of the pool misses an
    entry of the pool. *)
Lemma unused_entry (acts : list Activity) (used : gset string) :
  (size used < size (pool_names acts))%nat → ∃ a, a ∈ acts ∧ name a ∉ used.
Proof.
  intros Hsize.
  destruct (set_choose_or_empty (pool_names acts ∖ used)) as [[x Hx] | Hempty].
  - apply elem_of_difference in Hx as [Hx Hfresh].
    apply elem_of_list_to_set, list_elem_of_fmap in Hx as (a & -> & Ha). eauto.
  - assert (pool_names acts ⊆ used) as Hsub by set_solver.
    apply subseteq_size in Hsub. lia.
Qed.

(** One turn of the loop over the three labels. *)
Lemma add_part_spec (cur : Currency) (scale : PyNum.float) (unit : Z)
    (destination : string) (acts : list Activity) (start : nat)
    (parts : list Part) (used : gset string) (j : nat) (label : string) :
  acts ≠ [] →
  (∀ category, is_Some (activity_cost cur scale unit category)) →
  ∃ act money,
    act ∈ acts
    ∧ activity_cost cur scale unit (category act) = Some money
    ∧ add_part cur scale unit destination acts start (parts, used) j label
      = Some (parts ++ [part_of destination label act money], used ∪ {[ name act ]})
    ∧ ((size used < size (pool_names acts))%nat → name act ∉ used).
Proof.
  intros Hne Hcost.
  assert (length acts ≠ O) as Hlen by (by destruct acts).
  unfold add_part. rewrite py_mod_Some by done. cbn [mbind option_bind].
  assert ((start + j) mod length acts < length acts)%nat as Hk
    by (apply Nat.mod_upper_bound; done).
  destruct (decide (size used < size (pool_names acts))%nat) as [Hsize | Hsize].
  - destruct (unused_entry acts used Hsize) as (a & Ha & Hfresh).
    apply list_elem_of_lookup in Ha as [i Hi].
    destruct (reachable_going_round (length acts) _ i Hk) as (t & Ht & Hti);
      [ by eapply lookup_lt_Some | ].
    destruct (skip_used_fresh acts used (length acts) _ Hk) as (k' & act & -> & Hact & Hnew).
    { exists t, a. rewrite Hti. split; [ lia | done ]. }
    cbn [mbind option_bind]. rewrite Hact. cbn [mbind option_bind].
    destruct (Hcost (category act)) as [money Hmoney]. rewrite Hmoney. cbn [mbind option_bind].
    exists act, money. split; [ by eapply list_elem_of_lookup_2 | done ].
  - destruct (skip_used_in_range acts used (length acts) _ Hk) as (k' & -> & Hk').
    destruct (lookup_lt_is_Some_2 acts k' Hk') as [act Hact].
    cbn [mbind option_bind]. rewrite Hact. cbn [mbind option_bind].
    destruct (Hcost (category act)) as [money Hmoney]. rewrite Hmoney. cbn [mbind option_bind].
    exists act, money. split; [ by eapply list_elem_of_lookup_2 | done ].
Qed.

(** One day: it is built, it is numbered [i + 1], its three parts carry the
    three labels in order and entries of the pool, and their names differ
    from one another when the pool has three distinct names. *)
Lemma build_day_spec (cur : Currency) (scale : PyNum.float) (unit : Z)
    (destination : string) (acts : list Activity) (i : nat) :
  acts ≠ [] →
  (∀ category, is_Some (activity_cost cur scale unit category)) →
  ∃ d,
    build_day cur scale unit destination acts i = Some d
    ∧ day d = Z.of_nat i + 1
    ∧ part_times d = labels
    ∧ Forall (fun p => ∃ label act money,
                act ∈ acts ∧ activity_cost cur scale unit (category act) = Some money
                ∧ p = part_of destination label act money) (parts d)
    ∧ ((3 ≤ size (pool_names acts))%nat → NoDup (part_names d)).
Proof.
  intros Hne Hcost.
  assert (length acts ≠ O) as Hlen by (by destruct acts).
  unfold build_day, labels. rewrite py_mod_Some by done.
  cbn [mbind option_bind for_enumerate length Nat.add].
  set (start := ((i * 3) mod length acts)%nat).
  destruct (add_part_spec cur scale unit destination acts start [] ∅ 0 "Morning" Hne Hcost)
    as (a1 & m1 & Ha1 & Hm1 & -> & _).
  cbn [mbind option_bind app].
  destruct (add_part_spec cur scale unit destination acts start
              [part_of destination "Morning" a1 m1] (∅ ∪ {[name a1]}) 1 "Afternoon" Hne Hcost)
    as (a2 & m2 & Ha2 & Hm2 & -> & Hfresh2).
  cbn [mbind option_bind app].
  destruct (add_part_spec cur scale unit destination acts start
              [part_of destination "Morning" a1 m1; part_of destination "Afternoon" a2 m2]
              (∅ ∪ {[name a1]} ∪ {[name a2]}) 2 "Evening" Hne Hcost)
    as (a3 & m3 & Ha3 & Hm3 & -> & Hfresh3).
  cbn [mbind option_bind app]. eexists. split; [ reflexivity | ]. simpl.
  split; [ done | ]. split; [ done | ]. split.
  - repeat constructor; eauto 10.
  - intros Hthree. unfold part_names. simpl.
    assert (size (∅ ∪ {[name a1]} : gset string) ≤ 1)%nat as Hs1.
    { rewrite (left_id_L ∅ (∪)), size_singleton. lia. }
    assert (size (∅ ∪ {[name a1]} ∪ {[name a2]} : gset string) ≤ 2)%nat as Hs2.
    { rewrite (left_id_L ∅ (∪)), size_union_alt, size_singleton.
      pose proof (subseteq_size ({[name a2]} ∖ {[name a1]}) ({[name a2]} : gset string)) as Hle.
      rewrite size_singleton in Hle. specialize (Hle ltac:(set_solver)). lia. }
    specialize (Hfresh2 ltac:(lia)). specialize (Hfresh3 ltac:(lia)).
    repeat constructor; set_solver.
Qed.

(** ** The itinerary generator *)

Lemma catalog_entries_nonempty :
  forallb (fun entry => negb (Nat.eqb (length entry) 0)) (map_to_list catalog).*2 = true.
Proof. vm_compute. reflexivity. Qed.

Lemma pool_nonempty (fetched : list Activity) (travel_style : string) :
  select_activities fetched travel_style ≠ [].
Proof.
  unfold select_activities.
  destruct fetched as [ | a fetched ]; [ | discriminate ].
  destruct (catalog !! travel_style) as [entry|] eqn:E.
  - intros ->.
    assert ([] ∈ (map_to_list catalog).*2) as Hin.
    { apply list_elem_of_fmap. exists (travel_style, []).
      split; [ reflexivity | by apply elem_of_map_to_list ]. }
    apply list_elem_of_In in Hin.
    pose proof catalog_entries_nonempty as H. rewrite forallb_forall in H.
    specialize (H _ Hin). discriminate H.
  - vm_compute. discriminate.
Qed.

(** The loop over the days builds one day per index. *)
Lemma days_built (cur : Currency) (scale : PyNum.float) (unit : Z)
    (destination : string) (acts : list Activity) (n : nat) :
  acts ≠ [] →
  (∀ category, is_Some (activity_cost cur scale unit category)) →
  ∃ days,
    mapM (build_day cur scale unit destination acts) (seq 0 n) = Some days
    ∧ length days = n
    ∧ Forall (fun d =>
        part_times d = labels
        ∧ Forall (fun p => ∃ label act money,
                    act ∈ acts ∧ activity_cost cur scale unit (category act) = Some money
                    ∧ p = part_of destination label act money) (parts d)
        ∧ ((3 ≤ size (pool_names acts))%nat → NoDup (part_names d))) days.
Proof.
  intros Hne Hcost.
  destruct (mapM_is_Some_2 (build_day cur scale unit destination acts) (seq 0 n))
    as [days Hdays].
  { apply Forall_forall. intros i _.
    change (is_Some (build_day cur scale unit destination acts i)).
    destruct (build_day_spec cur scale unit destination acts i Hne Hcost) as (d & -> & _).
    by eexists. }
  exists days. split; [ done | ].
  split; [ apply length_mapM in Hdays; by rewrite length_seq in Hdays | ].
  apply mapM_Some_1 in Hdays.
  apply Forall_forall. intros d Hd.
  apply list_elem_of_lookup in Hd as [j Hj].
  destruct (Forall2_lookup_r _ _ _ _ _ Hdays Hj) as (i & _ & Hi).
  destruct (build_day_spec cur scale unit destination acts i Hne Hcost)
    as (d' & Hd' & _ & Htimes & Hparts & Hnames).
  assert (d = d') as -> by congruence. done.
Qed.

Lemma foldl_add_costs (l : list Part) (total : Z) :
  foldl (fun total p => total + estimate (cost p)) total l
  = total + foldr Z.add 0 (map (fun p => estimate (cost p)) l).
Proof.
  revert total. induction l as [ | p l IH ]; intros total; simpl; [ lia | ].
  rewrite IH. lia.
Qed.

(** The two nested loops of lines 326-329 add up the cost estimates of all
    parts. *)
Lemma sum_activity_costs_total (days : list DayPlan) :
  sum_activity_costs days = part_costs_total days.
Proof.
  unfold sum_activity_costs, part_costs_total.
  enough (∀ total,
    foldl (fun total d => foldl (fun total p => total + estimate (cost p)) total (parts d))
          total days
    = total + foldr Z.add 0 (map (fun p => estimate (cost p)) (flat_map parts days)))
    as H by (rewrite H; lia).
  induction days as [ | d days IH ]; intros total; simpl; [ lia | ].
  rewrite IH, foldl_add_costs, map_app, foldr_app.
  generalize (map (fun p => estimate (cost p)) (flat_map parts days)).
  generalize (map (fun p => estimate (cost p)) (parts d)).
  intros l1 l2. induction l1 as [ | x l1 IH1 ]; simpl; lia.
Qed.

(** The generator returns, and its payload is assembled from the days of
    the day loop and the four converted summary components. *)
Lemma generate_spec (w : World) (destination : string) (duration_days : Z)
    (travel_style : string) :
  let cur := resolve_currency destination in
  let acts := activity_pool w destination duration_days travel_style in
  ∃ r built flights_money acc_money transport_money food_money,
    _generate_itinerary_data w destination duration_days travel_style = Some r
    ∧ mapM (build_day cur (resolve_scale cur) (resolve_unit cur) destination acts)
           (seq 0 (Z.to_nat duration_days)) = Some built
    ∧ convert cur (PyNum.Int 600) = Some flights_money
    ∧ convert cur (PyNum.Int 120) = Some acc_money
    ∧ convert cur (PyNum.Int 12) = Some transport_money
    ∧ convert cur (PyNum.Int 35) = Some food_money
    ∧ data r =
        {| itinerary_type := "itinerary";
           itinerary_version := 1;
           destination := destination;
           durationDays := duration_days;
           travelStyle := travel_style;
           itinerary_currency := cur;
           days := built;
           summary :=
             {| estimatedTotalCost :=
                  {| estimate :=
                       estimate flights_money
                       + estimate acc_money * duration_days
                       + sum_activity_costs built
                       + estimate transport_money * duration_days
                       + estimate food_money * duration_days;
                     currency := code cur |};
                breakdown :=
                  {| flights := flights_money;
                     accommodationPerNight := acc_money;
                     activities_cost :=
                       {| estimate := sum_activity_costs built; currency := code cur |};
                     localTransportPerDay := transport_money;
                     foodPerDay := food_money |} |};
           checklist := checklist_data (_generate_checklist destination "Trip") |}.
Proof.
  intros cur acts.
  pose proof (resolve_currency_known destination) as Hcur.
  pose proof (activity_cost_total destination) as Hcost.
  assert (acts ≠ []) as Hpool by apply pool_nonempty.
  unfold _generate_itinerary_data.
  change (select_activities _ travel_style) with acts.
  cbv zeta in Hcost. change (resolve_currency destination) with cur in Hcur, Hcost |- *.
  change (to_money cur (resolve_scale cur) (resolve_unit cur)) with (convert cur).
  clearbody cur acts.
  destruct (days_built cur (resolve_scale cur) (resolve_unit cur) destination acts
              (Z.to_nat duration_days) Hpool Hcost) as (built & Hbuilt & _).
  destruct (convert_total cur 600 Hcur) as [flights_money Hf];
    [ apply summary_baselines_known; repeat constructor | ].
  destruct (convert_total cur 120 Hcur) as [acc_money Ha];
    [ apply summary_baselines_known; repeat constructor | ].
  destruct (convert_total cur 12 Hcur) as [transport_money Ht];
    [ apply summary_baselines_known; repeat constructor | ].
  destruct (convert_total cur 35 Hcur) as [food_money Hfd];
    [ apply summary_baselines_known; repeat constructor | ].
  eexists _, built, flights_money, acc_money, transport_money, food_money.
  rewrite Hbuilt. cbn [mbind option_bind].
  rewrite Hf, Ha, Ht, Hfd. cbn [mbind option_bind].
  repeat split; done.
Qed.

(** C1.  For a duration between 1 and 14 and any travel style the generator
    returns a payload with exactly [duration_days] days; every day has
    exactly the three parts Morning, Afternoon, Evening; and when the pool
    in use has at least three distinct activity names, the three parts of a
    day carry three different activity names. *)
Theorem itinerary_days_shape (w : World) (destination : string) (duration_days : Z)
    (travel_style : string) :
  1 ≤ duration_days ≤ 14 →
  ∃ r,
    _generate_itinerary_data w destination duration_days travel_style = Some r
    ∧ Z.of_nat (length (days (data r))) = duration_days
    ∧ Forall (fun d =>
        length (parts d) = 3%nat
        ∧ part_times d = ["Morning"; "Afternoon"; "Evening"]
        ∧ ((3 ≤ size (pool_names
                        (activity_pool w destination duration_days travel_style)))%nat →
           NoDup (part_names d))) (days (data r)).
Proof.
  intros Hrange.
  destruct (generate_spec w destination duration_days travel_style)
    as (r & built & fm & am & tm & fdm & Hr & Hbuilt & _ & _ & _ & _ & Hdata).
  set (cur := resolve_currency destination) in *.
  destruct (days_built cur (resolve_scale cur) (resolve_unit cur) destination
              (activity_pool w destination duration_days travel_style)
              (Z.to_nat duration_days)) as (built' & Hbuilt' & Hlen & Hall).
  { apply pool_nonempty. }
  { apply activity_cost_total. }
  assert (built' = built) as -> by congruence.
  exists r. rewrite Hdata. cbn [days].
  split; [ done | ]. split; [ lia | ].
  eapply Forall_impl; [ exact Hall | ].
  intros d (Htimes & _ & Hnames). split; [ | done ].
  unfold part_times in Htimes.
  apply (f_equal length) in Htimes. by rewrite length_map in Htimes.
Qed.

Lemma itinerary_days_shape_witness :
  ∃ r,
    _generate_itinerary_data offline "Paris" 3 "food" = Some r
    ∧ Z.of_nat (length (days (data r))) = 3
    ∧ Forall (fun d =>
        length (parts d) = 3%nat
        ∧ part_times d = ["Morning"; "Afternoon"; "Evening"]
        ∧ ((3 ≤ size (pool_names (activity_pool offline "Paris" 3 "food")))%nat →
           NoDup (part_names d))) (days (data r)).
Proof. apply (itinerary_days_shape offline "Paris" 3 "food"). lia. Defined.

(** ** Fallback to the static catalog *)

Lemma parts_drawn_from_pool (w : World) (destination : string) (duration_days : Z)
    (travel_style : string) (r : ItineraryResult) :
  _generate_itinerary_data w destination duration_days travel_style = Some r →
  Forall (fun d => Forall (drawn_from destination
                             (activity_pool w destination duration_days travel_style))
                          (parts d)) (days (data r)).
Proof.
  intros Hr.
  destruct (generate_spec w destination duration_days travel_style)
    as (r' & built & fm & am & tm & fdm & Hr' & Hbuilt & _ & _ & _ & _ & Hdata).
  assert (r' = r) as -> by congruence.
  set (cur := resolve_currency destination) in *.
  destruct (days_built cur (resolve_scale cur) (resolve_unit cur) destination
              (activity_pool w destination duration_days travel_style)
              (Z.to_nat duration_days)) as (built' & Hbuilt' & _ & Hall).
  { apply pool_nonempty. }
  { apply activity_cost_total. }
  assert (built' = built) as -> by congruence.
  rewrite Hdata. cbn [days].
  eapply Forall_impl; [ exact Hall | ].
  intros d (_ & Hparts & _).
  eapply Forall_impl; [ exact Hparts | ].
  intros p (label & act & money & Hact & _ & ->). by exists act.
Qed.

(** C5.  The adapter returns the empty list whenever OPENTRIPMAP_API_KEY
    is unset.  Whenever the adapter returns the empty list, the pool of the
    generator is the catalog entry of the travel style if the style is one
    of the five known ones, the balanced entry otherwise, and every part of
    the payload is drawn from that entry. *)
Theorem fallback_to_static_catalog (w : World) (destination : string) (duration_days : Z)
    (travel_style : string) :
  (getenv w "OPENTRIPMAP_API_KEY" = None →
   ∀ limit, _fetch_activities_from_api w destination travel_style limit = [])
  ∧ (_fetch_activities_from_api w destination travel_style (Z.max 6 (duration_days * 3)) = [] →
     ∃ entry r,
       (if bool_decide (travel_style ∈ known_styles)
        then catalog !! travel_style = Some entry
        else catalog !! travel_style = None ∧ catalog !! "balanced" = Some entry)
       ∧ activity_pool w destination duration_days travel_style = entry
       ∧ _generate_itinerary_data w destination duration_days travel_style = Some r
       ∧ Forall (fun d => Forall (drawn_from destination entry) (parts d)) (days (data r))).
Proof.
  split.
  - intros Hkey limit. unfold _fetch_activities_from_api. by rewrite Hkey.
  - intros Hempty.
    destruct (generate_spec w destination duration_days travel_style)
      as (r & built & fm & am & tm & fdm & Hr & _).
    pose proof (parts_drawn_from_pool _ _ _ _ _ Hr) as Hdrawn.
    unfold activity_pool in *. rewrite Hempty in *. cbn [select_activities] in *.
    exists (match catalog !! travel_style with
            | Some entry => entry
            | None => catalog !!! "balanced"
            end), r.
    split; [ | done ].
    case_bool_decide as Hstyle.
    + unfold known_styles in Hstyle.
      repeat (apply elem_of_cons in Hstyle as [-> | Hstyle]);
        [ .. | by apply elem_of_nil in Hstyle ]; vm_compute; reflexivity.
    + destruct (catalog !! travel_style) as [entry|] eqn:E.
      * exfalso. apply Hstyle.
        assert (travel_style ∈ (map_to_list catalog).*1) as Hdom.
        { apply list_elem_of_fmap. exists (travel_style, entry).
          split; [ done | by apply elem_of_map_to_list ]. }
        vm_compute in Hdom. unfold known_styles.
        repeat (apply elem_of_cons in Hdom as [-> | Hdom]);
          [ .. | by apply elem_of_nil in Hdom ]; set_solver.
      * split; [ done | ]. vm_compute. reflexivity.
Qed.

Lemma fallback_to_static_catalog_witness :
  _fetch_activities_from_api offline "Lisbon" "surfing" (Z.max 6 (4 * 3)) = []
  ∧ ∃ entry r,
      (catalog !! "surfing" = None ∧ catalog !! "balanced" = Some entry)
      ∧ activity_pool offline "Lisbon" 4 "surfing" = entry
      ∧ _generate_itinerary_data offline "Lisbon" 4 "surfing" = Some r
      ∧ Forall (fun d => Forall (drawn_from "Lisbon" entry) (parts d)) (days (data r)).
Proof.
  destruct (fallback_to_static_catalog offline "Lisbon" 4 "surfing") as [Hkey Hfall].
  split; [ apply Hkey; reflexivity | ].
  apply Hfall, Hkey. reflexivity.
Defined.

(** ** Summary totals *)

(** C7.  The generator returns, and in its payload the estimate of
    [estimatedTotalCost] is the flights estimate, plus the
    accommodation-per-night estimate times [durationDays] (the number of
    nights the generator charges), plus the sum of the cost estimates of
    all parts of all days, plus the local-transport-per-day and the
    food-per-day estimates times [durationDays] each; the four components
    are the conversions of 600, 120, 12 and 35 into the resolved currency,
    and the [activities] component is that sum. *)
Theorem total_is_sum_of_components (w : World) (destination : string) (duration_days : Z)
    (travel_style : string) :
  ∃ r,
    _generate_itinerary_data w destination duration_days travel_style = Some r
    ∧ let p := data r in
      let b := breakdown (summary p) in
      let cur := resolve_currency destination in
      durationDays p = duration_days
      ∧ estimate (estimatedTotalCost (summary p))
        = estimate (flights b)
          + estimate (accommodationPerNight b) * durationDays p
          + part_costs_total (days p)
          + estimate (localTransportPerDay b) * durationDays p
          + estimate (foodPerDay b) * durationDays p
      ∧ estimate (activities_cost b) = part_costs_total (days p)
      ∧ convert cur (PyNum.Int 600) = Some (flights b)
      ∧ convert cur (PyNum.Int 120) = Some (accommodationPerNight b)
      ∧ convert cur (PyNum.Int 12) = Some (localTransportPerDay b)
      ∧ convert cur (PyNum.Int 35) = Some (foodPerDay b)
      ∧ currency (estimatedTotalCost (summary p)) = code cur.
Proof.
  destruct (generate_spec w destination duration_days travel_style)
    as (r & built & fm & am & tm & fdm & Hr & _ & Hf & Ha & Ht & Hfd & Hdata).
  exists r. split; [ done | ]. rewrite Hdata. cbn.
  rewrite sum_activity_costs_total. repeat split; done.
Qed.

(** ** Currency resolution *)

(** C10.  The currency is looked up under the lowered destination itself:
    when that is none of tokyo, paris, bali, the currency is USD, the scale
    is the float 1 and the rounding unit is 1, and the payload the
    generator returns carries USD. *)
Theorem currency_lookup_is_exact (w : World) (destination : string) (duration_days : Z)
    (travel_style : string) :
  PyStr.lower destination ≠ "tokyo" →
  PyStr.lower destination ≠ "paris" →
  PyStr.lower destination ≠ "bali" →
  resolve_currency destination = usd
  ∧ code (resolve_currency destination) = "USD"
  ∧ resolve_scale (resolve_currency destination) = S754_finite false (2 ^ 52) (- 52)
  ∧ resolve_unit (resolve_currency destination) = 1
  ∧ ∃ r,
      _generate_itinerary_data w destination duration_days travel_style = Some r
      ∧ itinerary_currency (data r) = usd
      ∧ currency (estimatedTotalCost (summary (data r))) = "USD".
Proof.
  intros Htokyo Hparis Hbali.
  assert (resolve_currency destination = usd) as Husd.
  { unfold resolve_currency, currency_map.
    rewrite !lookup_insert_ne, lookup_empty by done. done. }
  destruct (generate_spec w destination duration_days travel_style)
    as (r & built & fm & am & tm & fdm & Hr & _ & _ & _ & _ & _ & Hdata).
  rewrite Husd in *.
  split; [ done | ]. split; [ done | ].
  split; [ vm_compute; reflexivity | ]. split; [ vm_compute; reflexivity | ].
  exists r. rewrite Hdata. by cbn.
Qed.

Lemma currency_lookup_is_exact_witness :
  PyStr.contains "tokyo" (PyStr.lower "Tokyo, Japan") = true
  ∧ resolve_currency "Tokyo, Japan" = usd
  ∧ resolve_scale (resolve_currency "Tokyo, Japan") = S754_finite false (2 ^ 52) (- 52)
  ∧ resolve_unit (resolve_currency "Tokyo, Japan") = 1.
Proof.
  split; [ reflexivity | ].
  destruct (currency_lookup_is_exact offline "Tokyo, Japan" 3 "balanced")
    as (H1 & _ & H2 & H3 & _);
    [ vm_compute; discriminate | vm_compute; discriminate | vm_compute; discriminate | ].
  split; [ exact H1 | split; [ exact H2 | exact H3 ] ].
Defined.

(** ** Itinerary template *)

(** C8.  Above 14 the duration is taken as 14: for every destination and
    style, the template for 20 days, and for any duration above 14, is
    returned and is the template for 14 days. *)
Theorem template_clamped_at_14 (w : World) (destination travel_style : string)
    (duration_days : Z) :
  14 < duration_days →
  ∃ template,
    create_itinerary_template w destination 14 travel_style = Some template
    ∧ create_itinerary_template w destination duration_days travel_style = Some template
    ∧ create_itinerary_template w destination 20 travel_style = Some template.
Proof.
  intros Hlong. unfold create_itinerary_template.
  replace (14 <? duration_days) with true by (symmetry; apply Z.ltb_lt; lia).
  change (14 <? 14) with false. change (14 <? 20) with true. cbv iota.
  destruct (generate_spec w destination 14 travel_style)
    as (r & built & fm & am & tm & fdm & -> & _).
  cbn [mbind option_bind]. by eexists.
Qed.

Lemma template_clamped_at_14_witness :
  ∃ template,
    create_itinerary_template offline "Bali" 14 "relaxed" = Some template
    ∧ create_itinerary_template offline "Bali" 20 "relaxed" = Some template
    ∧ create_itinerary_template offline "Bali" 20 "relaxed" = Some template.
Proof. apply (template_clamped_at_14 offline "Bali" "relaxed" 20). lia. Defined.

(** ** The dispatch graph *)

Lemma route_to_tool_node_true (response : Response) :
  route_to_tool_node response = true
  ↔ ∃ tool_call, tool_call ∈ requested response ∧ names_backend_tool tool_call.
Proof.
  unfold route_to_tool_node, requested, names_backend_tool.
  destruct (tool_calls response) as [[ | c calls ] | ]; simpl.
  - split; [ discriminate | intros (c & Hc & _); by apply elem_of_nil in Hc ].
  - change (bool_decide (call_name c ∈ backend_tool_names)
            || existsb (fun tool_call => bool_decide (call_name tool_call ∈ backend_tool_names))
                       calls)
      with (existsb (fun tool_call => bool_decide (call_name tool_call ∈ backend_tool_names))
                    (c :: calls)).
    rewrite existsb_exists. split.
    + intros (x & Hx & Hb). exists x. split; [ by apply list_elem_of_In | ].
      by apply bool_decide_eq_true in Hb.
    + intros (x & Hx & Hb). exists x. split; [ by apply list_elem_of_In | ].
      by apply bool_decide_eq_true.
  - split; [ discriminate | intros (c & Hc & _); by apply elem_of_nil in Hc ].
Qed.

Lemma route_to_tool_node_false (response : Response) :
  route_to_tool_node response = false
  ↔ ∀ tool_call, tool_call ∈ requested response → ¬ names_backend_tool tool_call.
Proof.
  split.
  - intros Hroute c Hc Hb.
    assert (route_to_tool_node response = true) as Htrue
      by (apply route_to_tool_node_true; eauto).
    congruence.
  - intros Hnone. destruct (route_to_tool_node response) eqn:E; [ | done ].
    apply route_to_tool_node_true in E as (c & Hc & Hb). by destruct (Hnone c Hc).
Qed.

Lemma assoc_lookup_Some {V : Type} (key : string) (d : list (string * V)) :
  key ∈ map fst d → ∃ v, assoc_lookup key d = Some v ∧ (key, v) ∈ d.
Proof.
  induction d as [ | [k v] d IH ]; cbn [map fst assoc_lookup]; intros Hkey.
  - by apply elem_of_nil in Hkey.
  - destruct (String.eqb_spec key k) as [-> | Hne].
    + exists v. split; [ done | left ].
    + apply elem_of_cons in Hkey as [Heq | Hkey]; [ done | ].
      destruct (IH Hkey) as (v' & Hv' & Hin). exists v'. split; [ done | by right ].
Qed.

Lemma assoc_lookup_None {V : Type} (key : string) (d : list (string * V)) :
  key ∉ map fst d → assoc_lookup key d = None.
Proof.
  induction d as [ | [k v] d IH ]; cbn [map fst assoc_lookup]; intros Hkey; [ done | ].
  destruct (String.eqb_spec key k) as [-> | Hne].
  - destruct Hkey. left.
  - apply IH. intros Hin. apply Hkey. by right.
Qed.

Lemma backend_call_runs_its_tool (schema : Schema) (w : World) (tool_call : ToolCall) :
  names_backend_tool tool_call →
  ∃ tool,
    tool_named (call_name tool_call) = Some tool
    ∧ run_tool_call schema w tool_call = outcome_of tool schema w tool_call.
Proof.
  unfold names_backend_tool, backend_tool_names, run_tool_call, tool_named, outcome_of.
  intros Hname.
  destruct (assoc_lookup_Some _ _ Hname) as (tool & -> & Hin). by exists tool.
Qed.

Lemma other_call_runs_nothing (schema : Schema) (w : World) (tool_call : ToolCall) :
  ¬ names_backend_tool tool_call → run_tool_call schema w tool_call = not_a_tool.
Proof.
  unfold names_backend_tool, backend_tool_names, run_tool_call. intros Hname.
  by rewrite assoc_lookup_None.
Qed.

(** *** The history *)

Lemma position_of_lt (id : string) (history : list Message) (i : nat) :
  position_of id history = Some i → (i < length history)%nat.
Proof.
  revert i. induction history as [ | m history IH ]; intros i; cbn [position_of length].
  - discriminate.
  - destruct (position_of id history) as [ j | ].
    + intros [= <-]. specialize (IH j eq_refl). lia.
    + case_bool_decide; [ intros [= <-]; lia | discriminate ].
Qed.

Lemma position_of_None (id : string) (history : list Message) :
  (∀ m, m ∈ history → message_id m ≠ Some id) → position_of id history = None.
Proof.
  induction history as [ | m history IH ]; intros Hnew; cbn [position_of]; [ done | ].
  rewrite IH by (intros m' Hm'; apply Hnew; by right).
  case_bool_decide as Hid; [ | done ]. destruct (Hnew m); [ left | done ].
Qed.

(** A merged message is in the history afterwards. *)
Lemma merge_elem (history : list Message) (m : Message) : m ∈ merge history m.
Proof.
  unfold merge. destruct (message_id m) as [ id | ].
  - destruct (position_of id history) as [ i | ] eqn:Hi.
    + apply position_of_lt in Hi. apply list_elem_of_lookup. exists i.
      by apply list_lookup_insert_eq.
    + apply elem_of_app. right. left.
  - apply elem_of_app. right. left.
Qed.

(** A response whose identifier is new to the history is appended. *)
Lemma merge_new (history : list Message) (response : Response) :
  new_to history response →
  merge history (AIMessage response) = history ++ [AIMessage response].
Proof.
  unfold new_to, merge. cbn [message_id].
  destruct (response_id response) as [ id | ]; [ | done ].
  intros Hnew. by rewrite position_of_None.
Qed.

(** Messages without identifier are appended in their order. *)
Lemma add_messages_unidentified (history new : list Message) :
  Forall (fun m => message_id m = None) new → add_messages history new = history ++ new.
Proof.
  unfold add_messages. intros Hnew. revert history.
  induction Hnew as [ | m new Hm _ IH ]; intros history; cbn [foldl].
  - by rewrite app_nil_r.
  - rewrite IH. unfold merge. rewrite Hm. by rewrite <- app_assoc.
Qed.

(** The tool node on a history that ends with a response. *)
Lemma tool_node_after_response (model : Model) (schema : Schema) (w : World)
    (state : AgentState) (history : list Message) (response : Response) :
  messages state = history ++ [AIMessage response] →
  graph_step model schema w tool_node_ state
  = Some (chat_node_,
          updated state (map (fun c => answered c (run_tool_call schema w c))
                             (requested response)))
  ∧ messages (updated state (map (fun c => answered c (run_tool_call schema w c))
                                 (requested response)))
    = history ++ AIMessage response
              :: map (fun c => answered c (run_tool_call schema w c)) (requested response).
Proof.
  intros Hlast. split.
  - cbn [graph_step]. unfold tool_node. rewrite Hlast, last_snoc. reflexivity.
  - unfold updated. cbn [messages]. rewrite add_messages_unidentified.
    + rewrite Hlast. by rewrite <- app_assoc.
    + apply Forall_forall. intros m Hm. apply list_elem_of_fmap in Hm as (c & -> & _).
      reflexivity.
Qed.

(** C2.  With [response] the answer of the model to the request of the
    chat node, and [state'] the state once the history has taken it in
    (appended, when its identifier is new to the history): if no requested
    call names one of the four backend tools (in particular if there is no
    call at all), the graph goes from the chat node straight to END with
    the response in the history; if some requested call names a backend
    tool, the graph goes to the tool node, which answers every requested
    call and hands over to the chat node again; and if the response
    requests one backend call and one other call, in either order, the
    answers added to the history before the chat node is entered again
    are the outcome of the backend tool on the arguments of the first, be
    it a result or a failure, and the notice that no tool was run for the
    second. *)
Theorem dispatch_routing (model : Model) (schema : Schema) (w : World)
    (state : AgentState) :
  let response := ainvoke model (bound_tools state) (prompt state) in
  let state' := updated state [AIMessage response] in
  backend_tool_names
  = ["research_destination"; "create_itinerary_template";
     "suggest_improvements"; "add_planning_section"]
  ∧ AIMessage response ∈ messages state'
  ∧ (new_to (messages state) response →
     messages state' = messages state ++ [AIMessage response])
  ∧ ((∀ tool_call, tool_call ∈ requested response → ¬ names_backend_tool tool_call) →
     graph_step model schema w chat_node_ state = Some (END, state')
     ∧ (∀ fuel, run model schema w (S fuel) chat_node_ state = Some (END, state')))
  ∧ ((∃ tool_call, tool_call ∈ requested response ∧ names_backend_tool tool_call) →
     graph_step model schema w chat_node_ state = Some (tool_node_, state')
     ∧ (new_to (messages state) response →
        ∃ state'',
          graph_step model schema w tool_node_ state' = Some (chat_node_, state'')
          ∧ messages state''
            = messages state
              ++ AIMessage response
                 :: map (fun c => answered c (run_tool_call schema w c))
                        (requested response)))
  ∧ (∀ backend other,
       names_backend_tool backend → ¬ names_backend_tool other →
       new_to (messages state) response →
       ∃ tool,
         tool_named (call_name backend) = Some tool
         ∧ (requested response = [backend; other] →
            ∃ state'',
              graph_step model schema w chat_node_ state = Some (tool_node_, state')
              ∧ graph_step model schema w tool_node_ state' = Some (chat_node_, state'')
              ∧ messages state''
                = messages state
                  ++ [ AIMessage response;
                       answered backend (outcome_of tool schema w backend);
                       answered other not_a_tool ])
         ∧ (requested response = [other; backend] →
            ∃ state'',
              graph_step model schema w chat_node_ state = Some (tool_node_, state')
              ∧ graph_step model schema w tool_node_ state' = Some (chat_node_, state'')
              ∧ messages state''
                = messages state
                  ++ [ AIMessage response;
                       answered other not_a_tool;
                       answered backend (outcome_of tool schema w backend) ])).
Proof.
  intros response state'.
  assert (∀ tool_call, tool_call ∈ requested response → names_backend_tool tool_call →
          graph_step model schema w chat_node_ state = Some (tool_node_, state'))
    as Hto_tools.
  { intros c Hc Hb. cbn [graph_step]. unfold chat_node. fold response.
    replace (route_to_tool_node response) with true
      by (symmetry; apply route_to_tool_node_true; eauto).
    reflexivity. }
  assert (new_to (messages state) response →
          messages state' = messages state ++ [AIMessage response]) as Happended.
  { intros Hnew. unfold state', updated, add_messages. cbn [messages foldl].
    by apply merge_new. }
  split; [ reflexivity | ].
  split; [ unfold state', updated, add_messages; cbn [messages foldl]; apply merge_elem | ].
  split; [ exact Happended | ].
  split; [ | split ].
  - intros Hnone.
    assert (graph_step model schema w chat_node_ state = Some (END, state')) as Hstep.
    { cbn [graph_step]. unfold chat_node. fold response.
      replace (route_to_tool_node response) with false
        by (symmetry; by apply route_to_tool_node_false).
      reflexivity. }
    split; [ done | ].
    intros fuel. cbn [run]. rewrite Hstep. cbn [mbind option_bind]. by destruct fuel.
  - intros (c & Hc & Hb). split; [ by eapply Hto_tools | ].
    intros Hnew.
    destruct (tool_node_after_response model schema w state' _ _ (Happended Hnew))
      as (Hstep & Hmessages).
    eexists. split; [ exact Hstep | exact Hmessages ].
  - intros backend other Hb Ho Hnew.
    destruct (backend_call_runs_its_tool schema w backend Hb) as (tool & Htool & Hrun).
    pose proof (other_call_runs_nothing schema w other Ho) as Hother.
    destruct (tool_node_after_response model schema w state' _ _ (Happended Hnew))
      as (Hstep & Hmessages).
    exists tool. split; [ exact Htool | ].
    split; intros Hcalls; rewrite Hcalls in Hstep, Hmessages;
      cbn [map] in Hstep, Hmessages; rewrite Hrun, Hother in Hstep, Hmessages;
      eexists; (split; [ | split; [ exact Hstep | exact Hmessages ] ]);
      apply (Hto_tools backend); [ | done | | done ]; rewrite Hcalls; set_solver.
Qed.

Lemma dispatch_routing_witness :
  graph_step (constant_model plain_reply) strict offline chat_node_ (fresh_state "Hello")
  = Some (END, updated (fresh_state "Hello") [AIMessage plain_reply])
  ∧ messages (updated (fresh_state "Hello") [AIMessage plain_reply])
    = [HumanMessage (Some "msg-1") "Hello"; AIMessage plain_reply]
  ∧ ∃ state'',
      graph_step (constant_model mixed_reply) strict offline chat_node_
                 (fresh_state "Plan Paris")
      = Some (tool_node_, updated (fresh_state "Plan Paris") [AIMessage mixed_reply])
      ∧ graph_step (constant_model mixed_reply) strict offline tool_node_
                   (updated (fresh_state "Plan Paris") [AIMessage mixed_reply])
        = Some (chat_node_, state'')
      ∧ messages state''
        = [ HumanMessage (Some "msg-1") "Plan Paris";
            AIMessage mixed_reply;
            answered research_call (executed (research_destination "Paris" "general"));
            answered update_call not_a_tool ].
Proof.
  destruct (dispatch_routing (constant_model plain_reply) strict offline (fresh_state "Hello"))
    as (_ & _ & Hplain & Hend & _).
  destruct (dispatch_routing (constant_model mixed_reply) strict offline
                             (fresh_state "Plan Paris"))
    as (_ & _ & _ & _ & _ & Hmixed).
  destruct Hend as (Hstep & _).
  { intros c Hc. by apply elem_of_nil in Hc. }
  split; [ exact Hstep | ].
  split.
  { apply Hplain. intros m Hm. apply list_elem_of_singleton in Hm as ->. discriminate. }
  destruct (Hmixed research_call update_call) as (tool & Htool & Hfirst & _).
  { unfold names_backend_tool. cbn. repeat constructor. }
  { apply (bool_decide_unpack _). vm_compute. exact I. }
  { intros m Hm. apply list_elem_of_singleton in Hm as ->. discriminate. }
  injection Htool as <-.
  destruct (Hfirst eq_refl) as (state'' & Hroute & Htools & Hmessages).
  exists state''. split; [ exact Hroute | ]. split; [ exact Htools | exact Hmessages ].
Defined.

(** * Further properties *)

(** ** The adapter *)

Lemma collect_results_length (w : World) (destination api_key : string) (limit : Z)
    (features : list Feature) (results : list Activity) :
  let out := collect_results w destination api_key limit features results in
  (length out ≤ length results + length features)%nat
  ∧ (features = [] ∨ Z.of_nat (length out) ≤ Z.max limit (Z.of_nat (length results) + 1)).
Proof.
  revert results. induction features as [ | f rest IH ]; intros results; cbn zeta.
  - cbn [collect_results length]. split; [ lia | by left ].
  - cbn [collect_results]. cbv zeta.
    match goal with |- context [results ++ [?rec]] => set (results' := results ++ [rec]) end.
    assert (length results' = S (length results)) as Hlen
      by (unfold results'; rewrite length_app; cbn [length]; lia).
    destruct (limit <=? Z.of_nat (length results')) eqn:Hstop.
    + split; [ cbn [length]; lia | right; lia ].
    + apply Z.leb_gt in Hstop.
      destruct (IH results') as [Hle Hmax]. cbv zeta in Hle, Hmax.
      split; [ cbn [length]; lia | right ].
      destruct Hmax as [-> | Hmax]; [ cbn [collect_results]; lia | lia ].
Qed.

Lemma fetch_length (w : World) (destination travel_style : string) (limit : Z) :
  Z.of_nat (length (_fetch_activities_from_api w destination travel_style limit))
  ≤ Z.max 1 limit.
Proof.
  unfold _fetch_activities_from_api.
  destruct (getenv w "OPENTRIPMAP_API_KEY") as [api_key|]; [ | cbn [length]; lia ].
  destruct (negb (PyStr.truthy api_key)); [ cbn [length]; lia | ].
  destruct (search_places w destination _ _ api_key) as [features|]; [ | cbn [length]; lia ].
  destruct (collect_results_length w destination api_key limit features []) as [Hle Hmax].
  cbn [length] in Hle, Hmax.
  destruct Hmax as [-> | Hmax]; [ cbn [collect_results length]; lia | lia ].
Qed.

(** X1.  The adapter returns at most [limit] records, and at most one when
    [limit] is below one (the loop appends before it compares); without a
    credential it returns none. *)
Theorem fetch_at_most_limit (w : World) (destination travel_style : string) (limit : Z) :
  Z.of_nat (length (_fetch_activities_from_api w destination travel_style limit))
  ≤ Z.max 1 limit
  ∧ (getenv w "OPENTRIPMAP_API_KEY" = Some EmptyString →
     _fetch_activities_from_api w destination travel_style limit = []).
Proof.
  split; [ apply fetch_length | ].
  intros Hkey. unfold _fetch_activities_from_api. by rewrite Hkey.
Qed.






Lemma collect_results_generic (w : World) (destination api_key : string) (limit : Z)
    (features : list Feature) (results : list Activity) (i : nat) (a : Activity) :
  (6 ≤ i)%nat →
  collect_results w destination api_key limit features results !! i = Some a →
  results !! i = Some a ∨ description a = generic_description destination (category a).
Proof.
  intros Hi. revert results.
  induction features as [ | f rest IH ]; intros results; cbn [collect_results]; [ by left | ].
  cbv zeta.
  match goal with |- context [results ++ [?rec]] => set (new := rec) end.
  assert ((results ++ [new]) !! i = Some a →
          results !! i = Some a ∨ description a = generic_description destination (category a))
    as Hstep.
  { intros Ha. destruct (decide (i < length results)%nat) as [Hlt | Hge].
    - left. by rewrite lookup_app_l in Ha.
    - right. rewrite lookup_app_r in Ha by lia.
      destruct (i - length results)%nat as [ | n ] eqn:Hn; [ | by destruct n ].
      cbn in Ha. assert (a = new) as -> by congruence.
      unfold new. cbn [description category].
      replace (length results <? 6)%nat with false
        by (symmetry; apply Nat.ltb_ge; lia).
      by rewrite Bool.andb_false_r. }
  destruct (limit <=? _); [ done | ].
  intros Ha. destruct (IH _ Ha) as [Hin | Hgen]; [ by apply Hstep | by right ].
Qed.

(** X3.  Only the first six records are enriched: from the seventh on, a
    record carries the generic description of its category and of the
    destination. *)
Theorem only_first_six_enriched (w : World) (destination travel_style : string)
    (limit : Z) (i : nat) (a : Activity) :
  (6 ≤ i)%nat →
  _fetch_activities_from_api w destination travel_style limit !! i = Some a →
  description a = generic_description destination (category a).
Proof.
  intros Hi. unfold _fetch_activities_from_api.
  destruct (getenv w "OPENTRIPMAP_API_KEY") as [api_key|]; [ | by rewrite lookup_nil ].
  destruct (negb (PyStr.truthy api_key)); [ by rewrite lookup_nil | ].
  destruct (search_places w destination _ _ api_key) as [features|];
    [ | by rewrite lookup_nil ].
  intros Ha. destruct (collect_results_generic _ _ _ _ _ _ _ _ Hi Ha) as [Hnil | Hgen];
    [ by rewrite lookup_nil in Hnil | done ].
Qed.

(** ** The day loop, continued *)

Lemma skip_used_here (acts : list Activity) (used : gset string) (k budget : nat)
    (act : Activity) :
  acts !! k = Some act → name act ∉ used → skip_used acts used k budget = Some k.
Proof.
  intros Hact Hfresh.
  destruct budget; cbn [skip_used]; rewrite Hact; cbn [mbind option_bind];
    by rewrite bool_decide_eq_false_2.
Qed.

Lemma add_part_here (cur : Currency) (scale : PyNum.float) (unit : Z)
    (destination : string) (acts : list Activity) (start : nat)
    (parts : list Part) (used : gset string) (j : nat) (label : string)
    (act : Activity) (money : Money) :
  acts !! ((start + j) mod length acts)%nat = Some act →
  name act ∉ used →
  activity_cost cur scale unit (category act) = Some money →
  add_part cur scale unit destination acts start (parts, used) j label
  = Some (parts ++ [part_of destination label act money], used ∪ {[ name act ]}).
Proof.
  intros Hact Hfresh Hmoney.
  assert (length acts ≠ O) as Hlen.
  { apply lookup_lt_Some in Hact. lia. }
  unfold add_part. rewrite py_mod_Some by done. cbn [mbind option_bind].
  rewrite (skip_used_here _ _ _ _ act) by done. cbn [mbind option_bind].
  rewrite Hact. cbn [mbind option_bind]. rewrite Hmoney. done.
Qed.

(** The day the payload holds at an index is the one the day loop builds
    for that index. *)
Lemma day_of_payload (w : World) (destination : string) (duration_days : Z)
    (travel_style : string) (r : ItineraryResult) (i : nat) (d : DayPlan) :
  _generate_itinerary_data w destination duration_days travel_style = Some r →
  days (data r) !! i = Some d →
  let cur := resolve_currency destination in
  build_day cur (resolve_scale cur) (resolve_unit cur) destination
            (activity_pool w destination duration_days travel_style) i = Some d.
Proof.
  intros Hr Hd cur.
  destruct (generate_spec w destination duration_days travel_style)
    as (r' & built & fm & am & tm & fdm & Hr' & Hbuilt & _ & _ & _ & _ & Hdata).
  assert (r' = r) as -> by congruence.
  rewrite Hdata in Hd. cbn [days] in Hd.
  apply mapM_Some_1 in Hbuilt.
  destruct (Forall2_lookup_r _ _ _ _ _ Hbuilt Hd) as (i' & Hi' & Hday).
  apply lookup_seq in Hi' as [-> _]. done.
Qed.

(** X4.  Day [i + 1] starts at the pool entry of index [3 i] modulo the
    size of the pool, whatever the pool: the first part of the day is the
    morning part made of that very entry, with its name, its description
    and its category, at the converted cost of its category. *)
Theorem day_starts_at_rotating_offset (w : World) (destination : string)
    (duration_days : Z) (travel_style : string) (r : ItineraryResult)
    (i : nat) (d : DayPlan) :
  _generate_itinerary_data w destination duration_days travel_style = Some r →
  days (data r) !! i = Some d →
  let pool := activity_pool w destination duration_days travel_style in
  let cur := resolve_currency destination in
  ∃ entry money,
    pool !! ((3 * i) mod length pool)%nat = Some entry
    ∧ activity_cost cur (resolve_scale cur) (resolve_unit cur) (category entry) = Some money
    ∧ head (parts d) = Some (part_of destination "Morning" entry money).
Proof.
  intros Hr Hd pool cur. subst cur.
  pose proof (day_of_payload _ _ _ _ _ _ _ Hr Hd) as Hday. cbv zeta in Hday.
  fold pool in Hday.
  assert (pool ≠ []) as Hpool by apply pool_nonempty.
  assert (length pool ≠ O) as Hlen by (by destruct pool).
  set (cur := resolve_currency destination) in *.
  pose proof (activity_cost_total destination) as Hcost. cbv zeta in Hcost. fold cur in Hcost.
  clearbody cur pool.
  replace (3 * i)%nat with (i * 3)%nat by lia.
  unfold build_day, labels in Hday. rewrite py_mod_Some in Hday by done.
  cbn [mbind option_bind for_enumerate length Nat.add] in Hday.
  set (start := ((i * 3) mod length pool)%nat) in *.
  assert (start < length pool)%nat as Hstart by (by apply Nat.mod_upper_bound).
  destruct (lookup_lt_is_Some_2 pool start Hstart) as [a0 Ha0].
  destruct (Hcost (category a0)) as [m0 Hm0].
  rewrite (add_part_here _ _ _ _ _ _ _ _ _ _ a0 m0) in Hday;
    [ | by rewrite Nat.add_0_r, Nat.mod_small | apply not_elem_of_empty | done ].
  cbn [mbind option_bind app] in Hday.
  destruct (add_part_spec cur (resolve_scale cur) (resolve_unit cur) destination pool start
              [part_of destination "Morning" a0 m0] (∅ ∪ {[name a0]}) 1 "Afternoon"
              Hpool Hcost) as (a1 & m1 & _ & _ & H1 & _).
  rewrite H1 in Hday. cbn [mbind option_bind app] in Hday.
  destruct (add_part_spec cur (resolve_scale cur) (resolve_unit cur) destination pool start
              [part_of destination "Morning" a0 m0; part_of destination "Afternoon" a1 m1]
              (∅ ∪ {[name a0]} ∪ {[name a1]}) 2 "Evening"
              Hpool Hcost) as (a2 & m2 & _ & _ & H2 & _).
  rewrite H2 in Hday. cbn [mbind option_bind app fst] in Hday.
  assert (d = {| day := Z.of_nat i + 1;
                 parts := [part_of destination "Morning" a0 m0;
                           part_of destination "Afternoon" a1 m1;
                           part_of destination "Evening" a2 m2];
                 notes := day_notes |}) as -> by congruence.
  exists a0, m0. split; [ exact Ha0 | ]. split; [ exact Hm0 | reflexivity ].
Qed.

Lemma offsets_differ (n start j j' : nat) :
  (j < j')%nat → (j' < n)%nat → ((start + j) mod n ≠ (start + j') mod n)%nat.
Proof.
  intros Hjj' Hn Heq.
  pose proof (Nat.div_mod_eq (start + j) n) as H1.
  pose proof (Nat.div_mod_eq (start + j') n) as H2.
  rewrite Heq in H1.
  assert ((start + j) / n ≤ (start + j') / n)%nat as Hle
    by (apply Nat.Div0.div_le_mono; lia).
  assert (j' - j = n * ((start + j') / n - (start + j) / n))%nat as Hmult by nia.
  destruct ((start + j') / n - (start + j) / n)%nat; nia.
Qed.

Lemma distinct_names_differ (pool : list Activity) (k k' : nat) (a a' : Activity) :
  NoDup (name <$> pool) → pool !! k = Some a → pool !! k' = Some a' → k ≠ k' →
  name a ≠ name a'.
Proof.
  intros Hnodup Ha Ha' Hne Heq. apply Hne.
  apply (NoDup_lookup _ _ _ (name a) Hnodup); rewrite list_lookup_fmap.
  - by rewrite Ha.
  - by rewrite Ha', Heq.
Qed.

(** With pairwise distinct names and three entries or more, the day of
    index [i] takes the three pool entries that follow its offset, going
    round, and nothing is skipped. *)
Lemma build_day_distinct (cur : Currency) (scale : PyNum.float) (unit : Z)
    (destination : string) (pool : list Activity) (i : nat) (d : DayPlan) :
  (∀ category, is_Some (activity_cost cur scale unit category)) →
  NoDup (name <$> pool) → (3 ≤ length pool)%nat →
  build_day cur scale unit destination pool i = Some d →
  Some <$> part_names d
  = (fun j => name_at pool ((3 * i + j) mod length pool)%nat) <$> [0; 1; 2]%nat.
Proof.
  intros Hcost Hnodup Hlen Hday.
  unfold build_day, labels in Hday. rewrite py_mod_Some in Hday by lia.
  cbn [mbind option_bind for_enumerate length Nat.add] in Hday.
  set (start := ((i * 3) mod length pool)%nat) in Hday.
  assert (∀ j, (start + j) mod length pool = (3 * i + j) mod length pool)%nat as Hoff.
  { intros j. unfold start. rewrite Nat.Div0.add_mod_idemp_l. f_equal. lia. }
  assert (∀ j, (start + j) mod length pool < length pool)%nat as Hlt
    by (intros j; apply Nat.mod_upper_bound; lia).
  destruct (lookup_lt_is_Some_2 pool _ (Hlt 0%nat)) as [a0 Ha0].
  destruct (lookup_lt_is_Some_2 pool _ (Hlt 1%nat)) as [a1 Ha1].
  destruct (lookup_lt_is_Some_2 pool _ (Hlt 2%nat)) as [a2 Ha2].
  destruct (Hcost (category a0)) as [m0 Hm0].
  destruct (Hcost (category a1)) as [m1 Hm1].
  destruct (Hcost (category a2)) as [m2 Hm2].
  assert (name a0 ≠ name a1) as H01.
  { eapply distinct_names_differ; [ done | exact Ha0 | exact Ha1 | ].
    apply offsets_differ; lia. }
  assert (name a0 ≠ name a2) as H02.
  { eapply distinct_names_differ; [ done | exact Ha0 | exact Ha2 | ].
    apply offsets_differ; lia. }
  assert (name a1 ≠ name a2) as H12.
  { eapply distinct_names_differ; [ done | exact Ha1 | exact Ha2 | ].
    apply offsets_differ; lia. }
  clear Hcost Hnodup.
  rewrite (add_part_here _ _ _ _ _ _ _ _ _ _ a0 m0) in Hday;
    [ | done | apply not_elem_of_empty | done ].
  cbn [mbind option_bind app] in Hday.
  rewrite (add_part_here _ _ _ _ _ _ _ _ _ _ a1 m1) in Hday;
    [ | done | | done ].
  2: { rewrite elem_of_union, elem_of_singleton, elem_of_empty. intros [[] | Heq]. by apply H01. }
  cbn [mbind option_bind app] in Hday.
  rewrite (add_part_here _ _ _ _ _ _ _ _ _ _ a2 m2) in Hday;
    [ | done | | done ].
  2: { rewrite !elem_of_union, !elem_of_singleton, elem_of_empty.
       intros [[[] | Heq] | Heq]; [ by apply H02 | by apply H12 ]. }
  cbn [mbind option_bind app fst] in Hday.
  assert (d = {| day := Z.of_nat i + 1;
                 parts := [part_of destination "Morning" a0 m0;
                           part_of destination "Afternoon" a1 m1;
                           part_of destination "Evening" a2 m2];
                 notes := day_notes |}) as -> by congruence.
  unfold part_names, name_at. cbn [parts map fmap list_fmap part_of activity activity_name].
  rewrite <- !Hoff, Ha0, Ha1, Ha2. reflexivity.
Qed.

(** X5.  When the names of the pool are pairwise distinct and the pool has
    at least three entries, the parts of day [i + 1] are the pool entries
    of index [3 i], [3 i + 1] and [3 i + 2] modulo the size of the pool, in
    that order. *)
Theorem distinct_pool_taken_in_order (w : World) (destination : string)
    (duration_days : Z) (travel_style : string) (r : ItineraryResult)
    (i : nat) (d : DayPlan) :
  _generate_itinerary_data w destination duration_days travel_style = Some r →
  days (data r) !! i = Some d →
  let pool := activity_pool w destination duration_days travel_style in
  NoDup (name <$> pool) → (3 ≤ length pool)%nat →
  Some <$> part_names d
  = (fun j => name_at pool ((3 * i + j) mod length pool)%nat) <$> [0; 1; 2]%nat.
Proof.
  intros Hr Hd pool Hnodup Hlen.
  pose proof (day_of_payload _ _ _ _ _ _ _ Hr Hd) as Hday. cbv zeta in Hday.
  eapply build_day_distinct; [ | done | done | exact Hday ].
  apply activity_cost_total.
Qed.

Lemma catalog_entries_distinct :
  forallb (fun entry => bool_decide (NoDup (name <$> entry)) && Nat.eqb (length entry) 3)
          (map_to_list catalog).*2 = true.
Proof. vm_compute. reflexivity. Qed.

Lemma fallback_entry_in_catalog (travel_style : string) :
  select_activities [] travel_style ∈ (map_to_list catalog).*2.
Proof.
  cbn [select_activities].
  destruct (catalog !! travel_style) as [entry|] eqn:E.
  - apply list_elem_of_fmap. exists (travel_style, entry).
    split; [ reflexivity | by apply elem_of_map_to_list ].
  - apply list_elem_of_fmap. exists ("balanced", catalog !!! "balanced").
    split; [ reflexivity | ]. apply elem_of_map_to_list. vm_compute. reflexivity.
Qed.

(** X6.  Without results from the adapter every day is the same: its three
    parts are the three entries of the catalog pool, in catalog order. *)
Theorem fallback_days_all_alike (w : World) (destination : string)
    (duration_days : Z) (travel_style : string) (r : ItineraryResult) :
  _fetch_activities_from_api w destination travel_style (Z.max 6 (duration_days * 3)) = [] →
  _generate_itinerary_data w destination duration_days travel_style = Some r →
  Forall (fun d => part_names d
                   = name <$> activity_pool w destination duration_days travel_style)
         (days (data r)).
Proof.
  intros Hempty Hr. apply Forall_forall. intros d Hd.
  apply list_elem_of_lookup in Hd as [i Hd].
  pose proof (day_of_payload _ _ _ _ _ _ _ Hr Hd) as Hday. cbv zeta in Hday.
  pose proof (fun Hnodup Hlen =>
                build_day_distinct _ _ _ _ _ _ _ (activity_cost_total destination)
                                   Hnodup Hlen Hday) as Horder.
  clear Hday. unfold activity_pool in *. rewrite Hempty in *.
  pose proof (fallback_entry_in_catalog travel_style) as Hin.
  pose proof catalog_entries_distinct as Hall. rewrite forallb_forall in Hall.
  apply list_elem_of_In in Hin. specialize (Hall _ Hin).
  apply andb_prop in Hall as [Hnodup Hlen].
  apply bool_decide_eq_true in Hnodup. apply Nat.eqb_eq in Hlen.
  remember (select_activities [] travel_style) as pool eqn:Hpool. clear Hpool Hin.
  specialize (Horder Hnodup ltac:(lia)). rewrite Hlen in Horder.
  destruct pool as [ | a0 [ | a1 [ | a2 [ | ] ] ] ]; try discriminate Hlen.
  unfold name_at in Horder. cbn [fmap list_fmap] in Horder.
  replace ((3 * i + 0) mod 3)%nat with 0%nat in Horder
    by (symmetry; rewrite Nat.add_0_r, Nat.mul_comm; apply Nat.Div0.mod_mul).
  replace ((3 * i + 1) mod 3)%nat with 1%nat in Horder
    by (rewrite Nat.add_comm, Nat.mul_comm, Nat.Div0.mod_add; reflexivity).
  replace ((3 * i + 2) mod 3)%nat with 2%nat in Horder
    by (rewrite Nat.add_comm, Nat.mul_comm, Nat.Div0.mod_add; reflexivity).
  cbn in Horder. cbn.
  destruct (part_names d) as [ | n0 [ | n1 [ | n2 [ | ] ] ] ]; try discriminate Horder.
  cbn in Horder. congruence.
Qed.

(** ** The payload *)

(** The days of a payload are the days of the day loop, index by index. *)
Lemma payload_days (w : World) (destination : string) (duration_days : Z)
    (travel_style : string) (r : ItineraryResult) :
  _generate_itinerary_data w destination duration_days travel_style = Some r →
  let cur := resolve_currency destination in
  Forall2 (fun i d =>
             build_day cur (resolve_scale cur) (resolve_unit cur) destination
                       (activity_pool w destination duration_days travel_style) i = Some d)
          (seq 0 (Z.to_nat duration_days)) (days (data r)).
Proof.
  intros Hr cur.
  destruct (generate_spec w destination duration_days travel_style)
    as (r' & built & fm & am & tm & fdm & Hr' & Hbuilt & _ & _ & _ & _ & Hdata).
  assert (r' = r) as -> by congruence.
  rewrite Hdata. cbn [days]. by apply mapM_Some_1.
Qed.

(** What the day loop guarantees of every day of a payload. *)
Lemma payload_days_spec (w : World) (destination : string) (duration_days : Z)
    (travel_style : string) (r : ItineraryResult) :
  _generate_itinerary_data w destination duration_days travel_style = Some r →
  let cur := resolve_currency destination in
  let pool := activity_pool w destination duration_days travel_style in
  Forall (fun d =>
            part_times d = labels
            ∧ Forall (fun p => ∃ label act money,
                        act ∈ pool
                        ∧ activity_cost cur (resolve_scale cur) (resolve_unit cur)
                                        (category act) = Some money
                        ∧ p = part_of destination label act money) (parts d))
         (days (data r)).
Proof.
  intros Hr cur pool.
  pose proof (payload_days _ _ _ _ _ Hr) as Hdays. cbv zeta in Hdays.
  apply Forall_forall. intros d Hd.
  apply list_elem_of_lookup in Hd as [j Hj].
  destruct (Forall2_lookup_r _ _ _ _ _ Hdays Hj) as (i & _ & Hi).
  destruct (build_day_spec cur (resolve_scale cur) (resolve_unit cur) destination pool i)
    as (d' & Hd' & _ & Htimes & Hparts & _).
  { apply pool_nonempty. }
  { apply activity_cost_total. }
  assert (d = d') as -> by (unfold cur, pool in Hd'; congruence). done.
Qed.

(** X7.  The days of a payload are numbered 1, 2, ... in order, one
    number per index of [range(duration_days)]. *)
Theorem days_numbered_from_one (w : World) (destination : string) (duration_days : Z)
    (travel_style : string) :
  ∃ r,
    _generate_itinerary_data w destination duration_days travel_style = Some r
    ∧ day <$> days (data r)
      = (fun i => Z.of_nat i + 1) <$> seq 0 (Z.to_nat duration_days).
Proof.
  destruct (generate_spec w destination duration_days travel_style)
    as (r & built & fm & am & tm & fdm & Hr & _).
  exists r. split; [ done | ].
  pose proof (payload_days _ _ _ _ _ Hr) as Hdays. cbv zeta in Hdays.
  induction Hdays as [ | i d l k Hd _ IH ]; [ done | ].
  cbn [fmap list_fmap]. f_equal; [ | exact IH ].
  destruct (build_day_spec (resolve_currency destination)
              (resolve_scale (resolve_currency destination))
              (resolve_unit (resolve_currency destination)) destination
              (activity_pool w destination duration_days travel_style) i)
    as (d' & Hd' & Hnum & _).
  { apply pool_nonempty. }
  { apply activity_cost_total. }
  congruence.
Qed.

Lemma daily_baselines_positive :
  forallb (fun cur => forallb (converts_positive cur) daily_baselines) known_currencies = true.
Proof. vm_compute. reflexivity. Qed.

Lemma daily_estimate_positive (destination : string) (a : Z) (m : Money) :
  a ∈ daily_baselines →
  convert (resolve_currency destination) (PyNum.Int a) = Some m → 0 < estimate m.
Proof.
  pose proof (resolve_currency_known destination) as Hc. revert Hc.
  generalize (resolve_currency destination). intros cur Hc Ha Hm.
  pose proof daily_baselines_positive as H.
  rewrite forallb_forall in H. apply list_elem_of_In in Hc. specialize (H _ Hc).
  rewrite forallb_forall in H. apply list_elem_of_In in Ha. specialize (H _ Ha).
  unfold converts_positive in H. rewrite Hm in H. by apply bool_decide_eq_true in H.
Qed.

(** X8.  For a duration of zero or below, the payload has no day, its
    activities component is zero, and the total is the flights estimate
    plus [duration_days] times the three daily estimates; the three daily
    estimates are positive, so the total is at most the flights estimate,
    and below it when the duration is negative. *)
Theorem non_positive_duration (w : World) (destination : string) (duration_days : Z)
    (travel_style : string) :
  duration_days ≤ 0 →
  ∃ r,
    _generate_itinerary_data w destination duration_days travel_style = Some r
    ∧ let p := data r in
      let b := breakdown (summary p) in
      days p = []
      ∧ estimate (activities_cost b) = 0
      ∧ estimate (estimatedTotalCost (summary p))
        = estimate (flights b)
          + (estimate (accommodationPerNight b) + estimate (localTransportPerDay b)
             + estimate (foodPerDay b)) * duration_days
      ∧ 0 < estimate (accommodationPerNight b)
      ∧ 0 < estimate (localTransportPerDay b)
      ∧ 0 < estimate (foodPerDay b)
      ∧ estimate (estimatedTotalCost (summary p)) ≤ estimate (flights b)
      ∧ (duration_days < 0 →
         estimate (estimatedTotalCost (summary p)) < estimate (flights b)).
Proof.
  intros Hd.
  destruct (generate_spec w destination duration_days travel_style)
    as (r & built & fm & am & tm & fdm & Hr & Hbuilt & _ & Ham & Htm & Hfdm & Hdata).
  replace (Z.to_nat duration_days) with O in Hbuilt by lia.
  change (Some [] = Some built) in Hbuilt. assert (built = []) as -> by congruence.
  apply daily_estimate_positive in Ham; [ | repeat constructor ].
  apply daily_estimate_positive in Htm; [ | repeat constructor ].
  apply daily_estimate_positive in Hfdm; [ | repeat constructor ].
  exists r. split; [ done | ]. rewrite Hdata. cbn. split; [ done | ].
  split; [ done | ]. split; [ lia | ].
  split; [ done | ]. split; [ done | ]. split; [ done | ]. split; [ nia | nia ].
Qed.

Lemma non_positive_duration_witness :
  ∃ r,
    _generate_itinerary_data offline "Oslo" (-4) "relaxed" = Some r
    ∧ estimate (flights (breakdown (summary (data r)))) = 600
    ∧ estimate (estimatedTotalCost (summary (data r))) = -68
    ∧ let p := data r in
      let b := breakdown (summary p) in
      days p = []
      ∧ estimate (activities_cost b) = 0
      ∧ estimate (estimatedTotalCost (summary p))
        = estimate (flights b)
          + (estimate (accommodationPerNight b) + estimate (localTransportPerDay b)
             + estimate (foodPerDay b)) * (-4)
      ∧ 0 < estimate (accommodationPerNight b)
      ∧ 0 < estimate (localTransportPerDay b)
      ∧ 0 < estimate (foodPerDay b)
      ∧ estimate (estimatedTotalCost (summary p)) ≤ estimate (flights b)
      ∧ (-4 < 0 → estimate (estimatedTotalCost (summary p)) < estimate (flights b)).
Proof.
  destruct (non_positive_duration offline "Oslo" (-4) "relaxed") as (r & Hr & Hshape);
    [ lia | ].
  exists r. split; [ exact Hr | ].
  assert (Some r = _generate_itinerary_data offline "Oslo" (-4) "relaxed") as Hrun
    by (by rewrite Hr).
  vm_compute in Hrun. injection Hrun as ->.
  split; [ reflexivity | ]. split; [ reflexivity | exact Hshape ].
Defined.

Lemma convert_Some (cur : Currency) (amount_usd : PyNum.number) (m : Money) :
  convert cur amount_usd = Some m →
  currency m = code cur ∧ 0 ≤ estimate m ∧ (resolve_unit cur | estimate m).
Proof.
  intros H. apply to_money_Some in H as [nearest ->]. cbn [currency estimate].
  split; [ done | ]. split; [ lia | apply max_zero_multiple ].
Qed.

Lemma part_costs_total_spec (unit : Z) (days : list DayPlan) :
  Forall (fun d => Forall (fun p => 0 ≤ estimate (cost p) ∧ (unit | estimate (cost p)))
                          (parts d)) days →
  0 ≤ part_costs_total days ∧ (unit | part_costs_total days).
Proof.
  unfold part_costs_total. intros Hall.
  assert (Forall (fun p => 0 ≤ estimate (cost p) ∧ (unit | estimate (cost p)))
                 (flat_map parts days)) as Hflat.
  { induction Hall as [ | d l Hd _ IH ]; cbn [flat_map]; [ constructor | ].
    apply Forall_app. by split. }
  induction Hflat as [ | p l [Hp Hdiv] _ [IH1 IH2] ]; cbn [map foldr].
  - split; [ lia | apply Z.divide_0_r ].
  - split; [ lia | by apply Z.divide_add_r ].
Qed.

(** X9.  Every amount of money of a payload (the cost of each part, the
    five components and the total) carries the code of the currency of the
    payload and is a multiple of the rounding unit of that currency. *)
Theorem payload_money_in_one_currency (w : World) (destination : string)
    (duration_days : Z) (travel_style : string) :
  ∃ r,
    _generate_itinerary_data w destination duration_days travel_style = Some r
    ∧ Forall (fun m => currency m = code (itinerary_currency (data r))
                       ∧ (resolve_unit (itinerary_currency (data r)) | estimate m))
             (payload_money (data r)).
Proof.
  destruct (generate_spec w destination duration_days travel_style)
    as (r & built & fm & am & tm & fdm & Hr & Hbuilt & Hf & Ha & Ht & Hfd & Hdata).
  exists r. split; [ done | ].
  pose proof (payload_days_spec _ _ _ _ _ Hr) as Hdays. cbv zeta in Hdays.
  rewrite Hdata in *. cbn [days data itinerary_currency] in *.
  set (cur := resolve_currency destination) in *.
  assert (Forall (fun d => Forall (fun p => currency (cost p) = code cur
                                            ∧ 0 ≤ estimate (cost p)
                                            ∧ (resolve_unit cur | estimate (cost p)))
                                  (parts d)) built) as Hparts.
  { eapply Forall_impl; [ exact Hdays | ]. intros d [_ Hd].
    eapply Forall_impl; [ exact Hd | ].
    intros p (label & act & money & _ & Hmoney & ->). cbn [part_of cost].
    by apply (convert_Some cur (PyNum.Int (default 0 (baseline_costs !! category act)))). }
  destruct (part_costs_total_spec (resolve_unit cur) built) as [_ Hsum].
  { eapply Forall_impl; [ exact Hparts | ]. intros d Hd.
    eapply Forall_impl; [ exact Hd | ]. by intros p (_ & ? & ?). }
  rewrite <- sum_activity_costs_total in Hsum.
  apply convert_Some in Hf as (Hf1 & _ & Hf2), Ha as (Ha1 & _ & Ha2),
        Ht as (Ht1 & _ & Ht2), Hfd as (Hfd1 & _ & Hfd2).
  unfold payload_money. cbn [days summary breakdown flights accommodationPerNight
    activities_cost localTransportPerDay foodPerDay estimatedTotalCost].
  apply Forall_app. split.
  - apply Forall_forall. intros m Hm.
    apply list_elem_of_fmap in Hm as (p & -> & Hp).
    apply list_elem_of_In, in_flat_map in Hp as (d & Hd & Hp).
    apply list_elem_of_In in Hd, Hp.
    rewrite Forall_forall in Hparts. specialize (Hparts d Hd).
    rewrite Forall_forall in Hparts. by destruct (Hparts p Hp) as (? & _ & ?).
  - repeat (apply Forall_cons; split; [ by split | ]).
    apply Forall_cons. split; [ | constructor ].
    cbn [currency estimate]. split; [ done | ].
    repeat apply Z.divide_add_r; try done; by apply Z.divide_mul_l.
Qed.

(** X10.  For a duration that is not negative, no estimate of a payload is
    negative. *)
Theorem payload_money_non_negative (w : World) (destination : string)
    (duration_days : Z) (travel_style : string) :
  0 ≤ duration_days →
  ∃ r,
    _generate_itinerary_data w destination duration_days travel_style = Some r
    ∧ Forall (fun m => 0 ≤ estimate m) (payload_money (data r)).
Proof.
  intros Hd.
  destruct (generate_spec w destination duration_days travel_style)
    as (r & built & fm & am & tm & fdm & Hr & Hbuilt & Hf & Ha & Ht & Hfd & Hdata).
  exists r. split; [ done | ].
  pose proof (payload_days_spec _ _ _ _ _ Hr) as Hdays. cbv zeta in Hdays.
  rewrite Hdata in *. cbn [days data] in *.
  set (cur := resolve_currency destination) in *.
  assert (Forall (fun d => Forall (fun p => 0 ≤ estimate (cost p)
                                            ∧ (resolve_unit cur | estimate (cost p)))
                                  (parts d)) built) as Hparts.
  { eapply Forall_impl; [ exact Hdays | ]. intros d [_ Hparts].
    eapply Forall_impl; [ exact Hparts | ].
    intros p (label & act & money & _ & Hmoney & ->). cbn [part_of cost].
    by apply (convert_Some cur (PyNum.Int (default 0 (baseline_costs !! category act)))). }
  destruct (part_costs_total_spec (resolve_unit cur) built Hparts) as [Hsum _].
  rewrite <- sum_activity_costs_total in Hsum.
  apply convert_Some in Hf as (_ & Hf & _), Ha as (_ & Ha & _),
        Ht as (_ & Ht & _), Hfd as (_ & Hfd & _).
  unfold payload_money. cbn [days summary breakdown flights accommodationPerNight
    activities_cost localTransportPerDay foodPerDay estimatedTotalCost].
  apply Forall_app. split.
  - apply Forall_forall. intros m Hm.
    apply list_elem_of_fmap in Hm as (p & -> & Hp).
    apply list_elem_of_In, in_flat_map in Hp as (d & Hdin & Hp).
    apply list_elem_of_In in Hdin, Hp.
    rewrite Forall_forall in Hparts. specialize (Hparts d Hdin).
    rewrite Forall_forall in Hparts. by destruct (Hparts p Hp).
  - repeat (apply Forall_cons; split; [ done | ]).
    apply Forall_cons. split; [ | constructor ]. cbn [estimate]. nia.
Qed.

Lemma payload_money_non_negative_witness :
  ∃ r,
    _generate_itinerary_data offline "Bali" 5 "adventure" = Some r
    ∧ Forall (fun m => 0 ≤ estimate m) (payload_money (data r)).
Proof. apply (payload_money_non_negative offline "Bali" 5 "adventure"). lia. Defined.

(** X11.  The cost of a part is the conversion of the baseline of its
    category, zero for a category that [baseline_costs] does not list. *)
Theorem part_cost_from_category (w : World) (destination : string)
    (duration_days : Z) (travel_style : string) :
  ∃ r,
    _generate_itinerary_data w destination duration_days travel_style = Some r
    ∧ Forall (fun d =>
        Forall (fun p =>
                  convert (itinerary_currency (data r))
                          (PyNum.Int (default 0 (baseline_costs
                                                   !! activity_category (activity p))))
                  = Some (cost p)) (parts d)) (days (data r)).
Proof.
  destruct (generate_spec w destination duration_days travel_style)
    as (r & built & fm & am & tm & fdm & Hr & Hbuilt & _ & _ & _ & _ & Hdata).
  exists r. split; [ done | ].
  pose proof (payload_days_spec _ _ _ _ _ Hr) as Hdays. cbv zeta in Hdays.
  rewrite Hdata in *. cbn [days data itinerary_currency] in *.
  eapply Forall_impl; [ exact Hdays | ]. intros d [_ Hparts].
  eapply Forall_impl; [ exact Hparts | ].
  by intros p (label & act & money & _ & Hmoney & ->).
Qed.

(** X12.  With a pool of a single entry the generator still fills three
    parts a day: it gives up distinct names and every part is that
    entry. *)
Theorem single_entry_pool_repeats (w : World) (destination : string)
    (duration_days : Z) (travel_style : string) (r : ItineraryResult) (a : Activity) :
  activity_pool w destination duration_days travel_style = [a] →
  _generate_itinerary_data w destination duration_days travel_style = Some r →
  Forall (fun d => part_names d = [name a; name a; name a]) (days (data r)).
Proof.
  intros Hpool Hr.
  pose proof (payload_days_spec _ _ _ _ _ Hr) as Hdays. cbv zeta in Hdays.
  rewrite Hpool in Hdays.
  eapply Forall_impl; [ exact Hdays | ]. intros d [Htimes Hparts].
  unfold part_times, labels in Htimes. unfold part_names.
  destruct (parts d) as [ | p0 [ | p1 [ | p2 [ | ] ] ] ]; try discriminate Htimes.
  apply Forall_cons in Hparts as [(l0 & a0 & m0 & Ha0 & _ & ->) Hparts].
  apply Forall_cons in Hparts as [(l1 & a1 & m1 & Ha1 & _ & ->) Hparts].
  apply Forall_cons in Hparts as [(l2 & a2 & m2 & Ha2 & _ & ->) _].
  apply list_elem_of_singleton in Ha0, Ha1, Ha2.
  subst. reflexivity.
Qed.

(** X13.  The pool the generator works on has at most
    [max(6, 3 * duration_days)] entries, and never none. *)
Theorem pool_size_bounded (w : World) (destination : string) (duration_days : Z)
    (travel_style : string) :
  let pool := activity_pool w destination duration_days travel_style in
  1 ≤ Z.of_nat (length pool) ≤ Z.max 6 (duration_days * 3).
Proof.
  intros pool.
  assert (pool ≠ []) as Hne by apply pool_nonempty.
  split; [ destruct pool; [ done | cbn [length]; lia ] | ].
  unfold pool, activity_pool.
  pose proof (fetch_length w destination travel_style (Z.max 6 (duration_days * 3)))
    as Hlimit.
  destruct (_fetch_activities_from_api w destination travel_style
              (Z.max 6 (duration_days * 3))) as [ | a fetched ] eqn:Hfetched.
  - pose proof (fallback_entry_in_catalog travel_style) as Hin.
    pose proof catalog_entries_distinct as Hall. rewrite forallb_forall in Hall.
    apply list_elem_of_In in Hin. specialize (Hall _ Hin).
    apply andb_prop in Hall as [_ Hlen]. apply Nat.eqb_eq in Hlen.
    rewrite Hlen. lia.
  - cbn [select_activities]. lia.
Qed.

(** ** Money conversion, continued *)

(** X14.  [to_money] raises on an amount that is an infinity or a NaN,
    whatever the scale and the unit: [round] has no integer to return. *)
Theorem to_money_raises_on_non_finite (cur : Currency) (scale : PyNum.float) (unit : Z)
    (x : PyNum.float) :
  not_finite x → to_money cur scale unit (PyNum.Float x) = None.
Proof.
  unfold not_finite, to_money. intros Hx.
  cbn [PyNum.mul PyNum.to_float mbind option_bind].
  assert (PyNum.is_finite (SFmul PyNum.prec PyNum.emax x scale) = false) as Hraw.
  { destruct x as [ | | | ]; try discriminate Hx; by destruct scale. }
  unfold PyNum.truediv.
  destruct (PyNum.of_int unit) as [fn|] eqn:Hfn; [ | done ].
  cbn [mbind option_bind].
  assert (PyNum.is_finite fn = true) as Hfinite.
  { unfold PyNum.of_int in Hfn.
    destruct (PyNum.is_finite (binary_normalize _ _ unit 0 false)) eqn:E; [ | discriminate ].
    congruence. }
  destruct fn as [ | | | s m e ]; try discriminate Hfinite; [ done | ].
  cbn [mbind option_bind].
  destruct (SFmul PyNum.prec PyNum.emax x scale) as [ | | | ]; try discriminate Hraw; done.
Qed.

Lemma to_money_raises_on_non_finite_witness :
  to_money usd (resolve_scale usd) (resolve_unit usd) (PyNum.Float (S754_infinity false))
  = None.
Proof. apply to_money_raises_on_non_finite. reflexivity. Defined.

(** The result of a rounding carries the sign it was given. *)
Lemma binary_round_aux_sign (sx : bool) (mx ex : Z) (lx : SpecFloat.location) :
  match binary_round_aux PyNum.prec PyNum.emax sx mx ex lx with
  | S754_zero s | S754_infinity s | S754_finite s _ _ => s = sx
  | S754_nan => True
  end.
Proof.
  unfold binary_round_aux.
  destruct (shr_fexp _ _ mx ex lx) as [mrs' e'].
  destruct (shr_fexp _ _ _ e' loc_Exact) as [mrs'' e''].
  destruct (shr_m mrs''); [ done | | done ].
  by destruct (e'' <=? _).
Qed.

(** What [round] returns for a float that is negative or a negative
    zero. *)
Lemma round_negative (x : PyNum.float) (n : Z) :
  match x with
  | S754_zero s | S754_finite s _ _ => s = true
  | _ => True
  end →
  PyNum.round x = Some n → n ≤ 0.
Proof.
  destruct x as [ s | s | | s m e ]; cbn [PyNum.round]; intros Hs Hn;
    try discriminate Hn.
  - injection Hn as <-. lia.
  - subst s. injection Hn as <-.
    assert (0 < 2 ^ (- e) ∨ 0 ≤ e) as Hpow.
    { destruct (Z.leb_spec 0 e); [ right; lia | left; apply Z.pow_pos_nonneg; lia ]. }
    destruct (0 <=? e) eqn:He.
    + apply Z.leb_le in He. pose proof (Z.pow_nonneg 2 e). nia.
    + apply Z.leb_gt in He. destruct Hpow as [Hpow | ]; [ | lia ].
      pose proof (Z.div_pos (Z.pos m) (2 ^ (- e))) as Hq.
      specialize (Hq ltac:(lia) Hpow).
      destruct (2 * (Z.pos m mod 2 ^ (- e)) ?= 2 ^ (- e)); [ | lia | lia ].
      destruct (Z.even _); lia.
Qed.

(** Under a scale and a unit that are positive, whatever [to_money]
    returns for a negative integer amount has the estimate 0. *)
Lemma to_money_negative (cur : Currency) (ms : positive) (es : Z) (unit a : Z)
    (m : Money) :
  a < 0 → 0 < unit →
  to_money cur (S754_finite false ms es) unit (PyNum.Int a) = Some m →
  estimate m = 0.
Proof.
  intros Ha Hunit. unfold to_money, PyNum.mul, PyNum.to_float, PyNum.of_int.
  destruct a as [ | p | p ]; try lia.
  cbn [binary_normalize]. unfold binary_round.
  destruct (shl_align p 0 _) as [mz ez].
  pose proof (binary_round_aux_sign true (Z.pos mz) ez loc_Exact) as Hsign.
  destruct (binary_round_aux _ _ true (Z.pos mz) ez loc_Exact) as [ s | s | | s mf ef ];
    cbn [PyNum.is_finite]; cbn [mbind option_bind]; try discriminate; subst s.
  - (* the amount rounds to a negative zero *)
    cbn [SFmul xorb]. unfold PyNum.truediv, PyNum.of_int.
    destruct (PyNum.is_finite _); cbn [mbind option_bind]; [ | discriminate ].
    destruct (binary_normalize _ _ unit 0 false) as [ | | | su mu eu ];
      cbn [mbind option_bind SFdiv PyNum.round]; try discriminate;
      intros [= <-]; cbn [estimate]; lia.
  - cbn [SFmul xorb].
    pose proof (binary_round_aux_sign true (Z.pos (mf * ms)) (ef + es) loc_Exact) as Hraw.
    destruct (binary_round_aux _ _ true (Z.pos (mf * ms)) (ef + es) loc_Exact)
      as [ s | s | | s mr er ]; try subst s;
      unfold PyNum.truediv, PyNum.of_int;
      (destruct unit as [ | pu | pu ]; [ lia | | lia ]);
      cbn [binary_normalize]; unfold binary_round;
      destruct (shl_align pu 0 _) as [mzu ezu];
      pose proof (binary_round_aux_sign false (Z.pos mzu) ezu loc_Exact) as Hunit_sign;
      (destruct (binary_round_aux _ _ false (Z.pos mzu) ezu loc_Exact)
         as [ su | su | | su mu eu ]);
      cbn [PyNum.is_finite mbind option_bind SFdiv xorb]; try discriminate; try subst su.
    + cbn [PyNum.round mbind option_bind]. intros [= <-]. cbn [estimate]. lia.
    + destruct (SFdiv_core_binary _ _ (Z.pos mr) er (Z.pos mu) eu) as [[mq eq] lq].
      pose proof (binary_round_aux_sign true mq eq lq) as Hq.
      destruct (PyNum.round _) as [n|] eqn:Hn; cbn [mbind option_bind]; [ | discriminate ].
      intros [= <-]. cbn [estimate].
      apply round_negative in Hn; [ nia | ].
      by destruct (binary_round_aux _ _ true mq eq lq).
Qed.

Lemma known_scales_positive :
  forallb (fun cur => match resolve_scale cur with
                      | S754_finite false _ _ => 0 <? resolve_unit cur
                      | _ => false
                      end) known_currencies = true.
Proof. vm_compute. reflexivity. Qed.

(** X15.  A negative integer amount is converted to zero, in every
    currency a destination resolves to: whatever the conversion returns for
    it has the estimate 0. *)
Theorem to_money_clamps_negative (destination : string) (a : Z) (m : Money) :
  a < 0 →
  convert (resolve_currency destination) (PyNum.Int a) = Some m →
  estimate m = 0.
Proof.
  intros Ha Hm.
  pose proof (resolve_currency_known destination) as Hcur.
  pose proof known_scales_positive as Hall. rewrite forallb_forall in Hall.
  apply list_elem_of_In in Hcur. specialize (Hall _ Hcur).
  unfold convert in Hm.
  destruct (resolve_scale (resolve_currency destination)) as [ | | | [ | ] ms es ];
    try discriminate Hall.
  apply Z.ltb_lt in Hall.
  by eapply to_money_negative.
Qed.

Lemma to_money_clamps_negative_witness :
  convert (resolve_currency "Paris") (PyNum.Int (- 25))
  = Some {| estimate := 0; currency := "EUR" |}
  ∧ estimate {| estimate := 0; currency := "EUR" |} = 0.
Proof.
  split; [ vm_compute; reflexivity | ].
  apply (to_money_clamps_negative "Paris" (- 25)); [ lia | ].
  vm_compute. reflexivity.
Defined.

(** ** The tools *)

Lemma prefix_app (s t : string) : String.prefix s (s +:+ t) = true.
Proof.
  induction s as [ | c s IH ]; [ by destruct t | ].
  change (String c s +:+ t) with (String c (s +:+ t)). cbn [String.prefix].
  destruct (ascii_dec c c); [ exact IH | done ].
Qed.

Lemma prefix_refl (s : string) : String.prefix s s = true.
Proof.
  induction s as [ | c s IH ]; [ done | ]. cbn [String.prefix].
  destruct (ascii_dec c c); [ exact IH | done ].
Qed.

Lemma contains_prefix (needle hay : string) :
  String.prefix needle hay = true → PyStr.contains needle hay = true.
Proof. intros H. destruct hay; cbn [PyStr.contains]; by rewrite H. Qed.

Lemma contains_app_r (needle s t : string) :
  PyStr.contains needle t = true → PyStr.contains needle (s +:+ t) = true.
Proof.
  intros H. induction s as [ | c s IH ]; [ done | ].
  change (String c s +:+ t) with (String c (s +:+ t)).
  cbn [PyStr.contains]. rewrite IH. apply Bool.orb_true_r.
Qed.

Lemma prefix_app_l (needle s t : string) :
  String.prefix needle s = true → String.prefix needle (s +:+ t) = true.
Proof.
  revert s. induction needle as [ | c needle IH ]; intros s H; [ by destruct (s +:+ t) | ].
  destruct s as [ | d s ]; [ discriminate H | ].
  change (String d s +:+ t) with (String d (s +:+ t)). cbn [String.prefix] in *.
  destruct (ascii_dec c d); [ by apply IH | done ].
Qed.

Lemma contains_app_l (needle s t : string) :
  PyStr.contains needle s = true → PyStr.contains needle (s +:+ t) = true.
Proof.
  induction s as [ | c s IH ]; cbn [PyStr.contains]; intros H.
  - rewrite Bool.orb_false_r in H. apply contains_prefix.
    by apply (prefix_app_l needle EmptyString t).
  - change (String c s +:+ t) with (String c (s +:+ t)). cbn [PyStr.contains].
    apply Bool.orb_true_iff in H as [H | H].
    + pose proof (prefix_app_l needle (String c s) t H) as Hp.
      change (String c s +:+ t) with (String c (s +:+ t)) in Hp. by rewrite Hp.
    + rewrite (IH H). apply Bool.orb_true_r.
Qed.

Lemma contains_here (needle s t : string) :
  PyStr.contains needle (s +:+ needle +:+ t) = true.
Proof. apply contains_app_r, contains_prefix, prefix_app. Qed.

(** X16.  A destination that mentions tokyo in any letter case, or whose
    lowered form is a piece of the word tokyo, gets the report of Tokyo
    even when it matches another key as well: tokyo is the first key the
    lookup tries. *)
Theorem research_tokyo_first (destination interests : string) :
  PyStr.contains "tokyo" (PyStr.lower destination)
  || PyStr.contains (PyStr.lower destination) "tokyo" = true →
  ∃ info,
    tokyo_info = Some info
    ∧ research_destination destination interests = research_report destination info.
Proof.
  intros Hmatch. eexists. split; [ reflexivity | ].
  unfold research_destination, find_destination, destinations_db.
  cbn [find fst]. by rewrite Hmatch.
Qed.

Lemma research_tokyo_first_witness :
  PyStr.contains "paris" (PyStr.lower "From Paris to TOKYO") = true
  ∧ (∃ info,
       tokyo_info = Some info
       ∧ research_destination "From Paris to TOKYO" "food"
         = research_report "From Paris to TOKYO" info)
  ∧ PyStr.lower "TOKYO" = "tokyo"
  ∧ ∃ info,
      tokyo_info = Some info
      ∧ research_destination "TOKYO" "food" = research_report "TOKYO" info.
Proof.
  split; [ reflexivity | ].
  split; [ apply (research_tokyo_first "From Paris to TOKYO" "food"); reflexivity | ].
  split; [ vm_compute; reflexivity | ].
  apply (research_tokyo_first "TOKYO" "food"). vm_compute. reflexivity.
Defined.

Lemma day_blocks_contain (template : string) (needle : string) (l : list nat) :
  PyStr.contains needle template = true →
  PyStr.contains needle
    (foldl (fun template i => template +:+ day_block (Z.of_nat i)) template l) = true.
Proof.
  revert template. induction l as [ | i l IH ]; intros template H; cbn [foldl]; [ done | ].
  by apply IH, contains_app_l.
Qed.

Lemma day_blocks_contain_block (template : string) (l : list nat) (i : nat) :
  i ∈ l →
  PyStr.contains (day_block (Z.of_nat i))
    (foldl (fun template i => template +:+ day_block (Z.of_nat i)) template l) = true.
Proof.
  revert template. induction l as [ | j l IH ]; intros template Hi; cbn [foldl].
  - by apply elem_of_nil in Hi.
  - apply elem_of_cons in Hi as [-> | Hi]; [ | by apply IH ].
    apply day_blocks_contain, contains_app_r, contains_prefix.
    apply prefix_refl.
Qed.

Lemma template_spec (w : World) (destination : string)
    (duration_days : Z) (travel_style : string) :
  ∃ template r,
    create_itinerary_template w destination duration_days travel_style = Some template
    ∧ _generate_itinerary_data w destination (clamped duration_days) travel_style = Some r
    ∧ PyStr.contains (json_tag r) template = true
    ∧ PyStr.contains (checklist_json_tag (_generate_checklist destination "Trip")) template
      = true
    ∧ ∀ k, 1 ≤ k ≤ clamped duration_days →
           PyStr.contains (day_block k) template = true.
Proof.
  unfold create_itinerary_template.
  assert ((if 14 <? duration_days then 14 else duration_days) = clamped duration_days) as ->.
  { unfold clamped. destruct (Z.ltb_spec 14 duration_days); lia. }
  destruct (generate_spec w destination (clamped duration_days) travel_style)
    as (r & built & fm & am & tm & fdm & Hr & _).
  rewrite Hr. cbn [mbind option_bind].
  eexists _, r. split; [ reflexivity | ]. split; [ done | ]. split; [ | split ].
  - apply contains_app_l, day_blocks_contain. cbn [PyStr.join].
    do 8 apply contains_app_r. apply contains_prefix, prefix_app.
  - apply contains_app_r. cbn [PyStr.join]. apply contains_prefix, prefix_app.
  - intros k Hk. apply contains_app_l.
    replace k with (Z.of_nat (Z.to_nat k)) by lia.
    apply day_blocks_contain_block, elem_of_seq. lia.
Qed.

(** X17.  The template is returned for every duration, with the duration
    taken as at most 14; it holds the fenced itinerary JSON of the
    generator for that duration, the fenced checklist JSON of the
    destination, and one block for each day from 1 to that duration. *)
Theorem template_holds_both_fences (w : World) (destination : string)
    (duration_days : Z) (travel_style : string) :
  ∃ template r,
    create_itinerary_template w destination duration_days travel_style = Some template
    ∧ _generate_itinerary_data w destination (clamped duration_days) travel_style = Some r
    ∧ PyStr.contains (json_tag r) template = true
    ∧ PyStr.contains (checklist_json_tag (_generate_checklist destination "Trip")) template
      = true
    ∧ ∀ k, 1 ≤ k ≤ clamped duration_days →
           PyStr.contains (day_block k) template = true.
Proof. apply template_spec. Qed.

(** X18.  For a document of at least 500 characters that mentions an
    itinerary or a day, a budget or a cost, an accommodation or a hotel, a
    transport or a flight (in any letter case) and has three heading marks,
    and a focus other than details and practicality, the reply is the
    fixed encouragement text. *)
Theorem complete_document_is_encouraged (current_content focus_area : string) :
  complete_document current_content = true →
  focus_area ≠ "details" → focus_area ≠ "practicality" →
  suggest_improvements current_content focus_area = encouragement.
Proof.
  unfold complete_document. cbv zeta. intros Hdoc Hdetails Hpract.
  repeat (apply andb_prop in Hdoc as [Hdoc ?]).
  unfold suggest_improvements. cbv zeta.
  repeat match goal with
         | H : negb ?b = true |- _ => apply Bool.negb_true_iff in H; rewrite H
         | H : ?b || ?c = true |- _ =>
             replace (negb b && negb c) with false
               by (rewrite <- Bool.negb_orb, H; reflexivity);
             clear H
         end.
  apply String.eqb_neq in Hdetails, Hpract. rewrite Hdetails, Hpract.
  reflexivity.
Qed.

Lemma complete_document_is_encouraged_witness :
  suggest_improvements long_plan "structure" = encouragement.
Proof.
  apply complete_document_is_encouraged;
    [ vm_compute; reflexivity | discriminate | discriminate ].
Defined.

Lemma append_if_head (cond : bool) (text first : string) (rest : list string) :
  ∃ rest', append_if cond text (first :: rest) = first :: rest'.
Proof. unfold append_if. destruct cond; cbn [app]; by eexists. Qed.

Lemma prefix_join_head (sep first : string) (rest : list string) :
  String.prefix first (PyStr.join sep (first :: rest)) = true.
Proof.
  destruct rest as [ | second rest ]; cbn [PyStr.join];
    [ apply prefix_refl | apply prefix_app ].
Qed.

Lemma prefix_app_both (s needle hay : string) :
  String.prefix needle hay = true → String.prefix (s +:+ needle) (s +:+ hay) = true.
Proof.
  intros H. induction s as [ | c s IH ]; [ done | ].
  change (String c s +:+ needle) with (String c (s +:+ needle)).
  change (String c s +:+ hay) with (String c (s +:+ hay)). cbn [String.prefix].
  destruct (ascii_dec c c); [ exact IH | done ].
Qed.

(** X19.  Whatever else it says and whatever the focus, the reply to a
    document of fewer than 500 characters opens with the heading and the
    suggestion to add more detail. *)
Theorem short_document_gets_detail_first (current_content focus_area : string) :
  (PyStr.len current_content < 500)%nat →
  String.prefix short_document_opening
                (suggest_improvements current_content focus_area) = true.
Proof.
  intros Hshort. unfold suggest_improvements. cbv zeta.
  replace (PyStr.len current_content <? 500)%nat with true
    by (symmetry; by apply Nat.ltb_lt).
  cbn [append_if app].
  repeat match goal with
         | |- context [append_if ?c ?t (?first :: ?rest)] =>
             let rest' := fresh "rest" in
             let H := fresh "H" in
             destruct (append_if_head c t first rest) as [rest' H]; rewrite H; clear H
         end.
  match goal with
  | |- context [if String.eqb focus_area "details" then ?a else ?b] =>
      assert (∃ rest', (if String.eqb focus_area "details" then a else b)
                       = "📝 **Add more detail** - Your document could benefit from more specific information and planning details." :: rest') as [rest' ->]
  end.
  { destruct (String.eqb focus_area "details"); [ cbn [app]; by eexists | ].
    destruct (String.eqb focus_area "practicality"); cbn [app]; by eexists. }
  unfold short_document_opening.
  apply prefix_app_l. do 3 apply prefix_app_both. apply prefix_join_head.
Qed.

Lemma short_document_gets_detail_first_witness :
  String.prefix short_document_opening (suggest_improvements "Day 1: arrive" "details")
  = true.
Proof.
  apply short_document_gets_detail_first. vm_compute. lia.
Defined.

Lemma or_else_empty (s : string) : PyStr.or_else s EmptyString = s.
Proof. by destruct s. Qed.

(** X21.  The checklist section holds the fenced checklist JSON of the
    checklist builder for the topic as destination: the very fence
    [create_itinerary_template] appends for that destination. *)
Theorem checklist_section_holds_fence (w : World) (topic : string) (duration_days : Z)
    (travel_style : string) :
  let fence := checklist_json_tag (_generate_checklist topic "Trip") in
  PyStr.contains fence (add_planning_section "checklist" topic) = true
  ∧ ∃ template,
      create_itinerary_template w topic duration_days travel_style = Some template
      ∧ PyStr.contains fence template = true.
Proof.
  intros fence. split.
  - unfold add_planning_section, planning_sections.
    rewrite lookup_insert_eq. cbn [default]. cbv zeta. rewrite or_else_empty.
    cbn [PyStr.join]. do 4 apply contains_app_r. apply contains_prefix, prefix_refl.
  - destruct (template_spec w topic duration_days travel_style)
      as (template & r & Htemplate & _ & _ & Hfence & _).
    by exists template.
Qed.

(** ** The chat node's request *)

Lemma last_n_spec {A : Type} (n : nat) (l : list A) :
  (length (last_n n l) ≤ n)%nat
  ∧ last_n n l `suffix_of` l
  ∧ ((length l ≤ n)%nat → last_n n l = l).
Proof.
  unfold last_n. destruct (Nat.ltb_spec n (length l)) as [Hlong | Hshort].
  - split; [ rewrite length_drop; lia | ].
    split; [ | lia ].
    exists (take (length l - n) l). by rewrite take_drop.
  - split; [ done | ]. split; [ done | done ].
Qed.

(** X22.  The request of the chat node is the system message followed by
    the latest messages of the history, six at most and all of them when
    the history has no more than six. *)
Theorem prompt_keeps_last_six (state : AgentState) :
  (∃ text, head (prompt state) = Some (SystemMessage None text))
  ∧ (length (prior_messages state) ≤ 6)%nat
  ∧ prior_messages state `suffix_of` messages state
  ∧ ((length (messages state) ≤ 6)%nat → prior_messages state = messages state).
Proof.
  unfold prior_messages, prompt. cbv zeta. cbn [tail head].
  split; [ by eexists | ]. apply last_n_spec.
Qed.

Lemma concat_cons (chunk : string) (rest : list string) :
  PyStr.concat (chunk :: rest) = chunk +:+ PyStr.concat rest.
Proof.
  unfold PyStr.concat. destruct rest as [ | next rest ]; cbn [PyStr.join].
  - induction chunk as [ | c chunk IH ]; [ done | ].
    change (String c chunk +:+ EmptyString) with (String c (chunk +:+ EmptyString)).
    by rewrite <- IH.
  - reflexivity.
Qed.

Lemma concat_app (l1 l2 : list string) :
  PyStr.concat (l1 ++ l2) = PyStr.concat l1 +:+ PyStr.concat l2.
Proof.
  induction l1 as [ | chunk l1 IH ]; [ done | ].
  cbn [app]. rewrite !concat_cons, IH.
  induction chunk as [ | c chunk IHc ]; [ done | ].
  change (String c chunk +:+ ?x) with (String c (chunk +:+ x)). by rewrite IHc.
Qed.

(** Joining the characters of a string gives the string back. *)
Lemma concat_chars (s : string) : PyStr.concat (PyStr.chars s) = s.
Proof.
  induction s as [ | c s IH ]; [ done | ].
  cbn [PyStr.chars]. destruct (PyStr.chars s) as [ | h t ] eqn:E.
  - rewrite concat_cons. destruct s as [ | d s ]; [ done | ].
    cbn [PyStr.chars] in E. destruct (PyStr.chars s); [ discriminate | ].
    by destruct (PyStr.starts_inside s).
  - destruct (PyStr.starts_inside s).
    + rewrite concat_cons in *.
      change (String c h +:+ ?x) with (String c (h +:+ x)). by rewrite IH.
    + rewrite concat_cons. change (String c EmptyString +:+ ?x) with (String c x).
      by rewrite IH.
Qed.

Lemma chars_empty (s : string) : PyStr.chars s = [] → s = EmptyString.
Proof.
  destruct s as [ | c s ]; [ done | ]. cbn [PyStr.chars].
  destruct (PyStr.chars s); [ discriminate | ].
  by destruct (PyStr.starts_inside s).
Qed.

(** The characters of a string that begins with one character and goes on
    outside of a character. *)
Lemma chars_after_character (c : ascii) (rest s : string) :
  continuation_only rest = true → PyStr.starts_inside s = false →
  PyStr.chars (String c (rest +:+ s)) = String c rest :: PyStr.chars s.
Proof.
  revert c. induction rest as [ | d rest IH ]; intros c Hrest Hs.
  - change (EmptyString +:+ s) with s. cbn [PyStr.chars].
    destruct (PyStr.chars s) as [ | h t ] eqn:E; [ done | by rewrite Hs ].
  - cbn [continuation_only] in Hrest. apply andb_prop in Hrest as [Hd Hrest].
    change (String d rest +:+ s) with (String d (rest +:+ s)).
    change (PyStr.chars (String c (String d (rest +:+ s))))
      with (match PyStr.chars (String d (rest +:+ s)) with
            | h :: t =>
                if PyStr.starts_inside (String d (rest +:+ s)) then String c h :: t
                else String c EmptyString :: h :: t
            | [] => [String c EmptyString]
            end).
    rewrite IH by done. cbn [PyStr.starts_inside]. by rewrite Hd.
Qed.

(** The shape of the list [PyStr.chars] returns: every chunk is one
    character, and every chunk but the first begins outside of a
    character. *)
Lemma chars_shape (s : string) :
  Forall (fun chunk => one_character chunk = true) (PyStr.chars s)
  ∧ Forall (fun chunk => PyStr.starts_inside chunk = false) (tail (PyStr.chars s))
  ∧ (PyStr.starts_inside s = false →
     Forall (fun chunk => PyStr.starts_inside chunk = false) (PyStr.chars s)).
Proof.
  induction s as [ | c s (IH1 & IH2 & IH3) ]; [ by repeat constructor | ].
  cbn [PyStr.chars]. destruct (PyStr.chars s) as [ | h t ] eqn:E.
  - split; [ by repeat constructor | ]. split; [ constructor | ].
    intros Hc. by repeat constructor.
  - destruct (PyStr.starts_inside s) eqn:Hs.
    + apply Forall_cons in IH1 as [Hh Ht]. cbn [tail] in *.
      assert (one_character (String c h) = true) as Hch.
      { destruct h as [ | d h ]; [ discriminate Hh | ].
        cbn [one_character continuation_only] in *.
        destruct s as [ | d' s ]; [ discriminate E | ].
        cbn [PyStr.chars] in E. cbn [PyStr.starts_inside] in Hs.
        assert (d = d') as ->.
        { destruct (PyStr.chars s); [ by injection E as <- | ].
          destruct (PyStr.starts_inside s); by injection E as <-. }
        by rewrite Hs, Hh. }
      split; [ by constructor | ]. split; [ done | ].
      intros Hc. by constructor.
    + cbn [tail]. split; [ by constructor | ].
      split; [ by apply IH3 | ]. intros Hc. constructor; [ done | by apply IH3 ].
Qed.

(** Cutting the join of well-cut chunks gives the chunks back. *)
Lemma chars_concat (l : list string) :
  Forall (fun chunk => one_character chunk = true) l →
  Forall (fun chunk => PyStr.starts_inside chunk = false) (tail l) →
  PyStr.chars (PyStr.concat l) = l.
Proof.
  induction l as [ | chunk l IH ]; intros Hone Hout; [ done | ].
  apply Forall_cons in Hone as [Hchunk Hone]. cbn [tail] in Hout.
  rewrite concat_cons.
  destruct chunk as [ | c rest ]; [ discriminate Hchunk | ]. cbn [one_character] in Hchunk.
  change (String c rest +:+ ?x) with (String c (rest +:+ x)).
  rewrite chars_after_character; [ | done | ].
  - f_equal. apply IH; [ done | ]. destruct l; [ constructor | ].
    by apply Forall_cons in Hout as [_ Hout].
  - destruct l as [ | next l ]; [ done | ].
    apply Forall_cons in Hout as [Hnext _]. apply Forall_cons in Hone as [Hnext1 _].
    rewrite concat_cons. destruct next as [ | d next ]; [ discriminate Hnext1 | ].
    exact Hnext.
Qed.

Lemma slice_to_chars (n : nat) (s : string) :
  PyStr.chars (PyStr.slice_to n s) = take n (PyStr.chars s).
Proof.
  unfold PyStr.slice_to. destruct (chars_shape s) as (Hone & Hout & _).
  apply chars_concat.
  - by apply Forall_take.
  - destruct (PyStr.chars s) as [ | h t ]; [ by rewrite take_nil | ].
    destruct n; [ constructor | ]. cbn [take tail] in *. by apply Forall_take.
Qed.

Lemma slice_to_spec (n : nat) (s : string) :
  (PyStr.len (PyStr.slice_to n s) ≤ n)%nat
  ∧ String.prefix (PyStr.slice_to n s) s = true
  ∧ ((PyStr.len s ≤ n)%nat → PyStr.slice_to n s = s).
Proof.
  unfold PyStr.len. rewrite slice_to_chars. split; [ rewrite length_take; lia | ].
  unfold PyStr.slice_to. split.
  - rewrite <- (concat_chars s) at 2.
    rewrite <- (take_drop n (PyStr.chars s)) at 2.
    rewrite concat_app. apply prefix_app.
  - intros Hshort. rewrite take_ge by done. apply concat_chars.
Qed.

(** X23.  The system message of the request embeds the content cut after
    its first 8000 characters: the snapshot has at most 8000 characters,
    the content begins with it, and it is the whole content when that has
    no more than 8000 characters. *)
Theorem snapshot_is_bounded_prefix (state : AgentState) :
  (∃ group, head (prompt state) = Some (system_message group (doc_snapshot state)))
  ∧ Z.of_nat (PyStr.len (doc_snapshot state)) ≤ 8000
  ∧ String.prefix (doc_snapshot state) (content state) = true
  ∧ (Z.of_nat (PyStr.len (content state)) ≤ 8000 → doc_snapshot state = content state).
Proof.
  split; [ eexists; reflexivity | ].
  unfold doc_snapshot. rewrite or_else_empty.
  destruct (slice_to_spec (Z.to_nat 8000) (content state)) as (Hlen & Hprefix & Hwhole).
  split; [ lia | ]. split; [ done | ]. intros Hshort. apply Hwhole. lia.
Qed.

(** ** Instances *)

Lemma only_first_six_enriched_witness :
  ∃ a,
    _fetch_activities_from_api online "Rome" "cultural" 9 !! 6%nat = Some a
    ∧ description a = generic_description "Rome" (category a)
    ∧ (description <$> _fetch_activities_from_api online "Rome" "cultural" 9 !! 5%nat)
      = Some "A famous place".
Proof.
  eexists. split; [ vm_compute; reflexivity | ].
  split; [ | vm_compute; reflexivity ].
  refine (only_first_six_enriched online "Rome" "cultural" 9 6 _ _ _);
    [ lia | vm_compute; reflexivity ].
Defined.

Lemma day_starts_at_rotating_offset_witness :
  ∃ r d money,
    _generate_itinerary_data online "Rome" 3 "cultural" = Some r
    ∧ days (data r) !! 1%nat = Some d
    ∧ length (activity_pool online "Rome" 3 "cultural") = 7%nat
    ∧ head (parts d)
      = Some (part_of "Rome" "Morning"
                      {| name := "Place 4";
                         description := "A famous place";
                         category := "Museum" |} money).
Proof.
  assert (∃ r d, _generate_itinerary_data online "Rome" 3 "cultural" = Some r
                 ∧ days (data r) !! 1%nat = Some d) as (r & d & Hr & Hd).
  { eexists _, _. split; vm_compute; reflexivity. }
  destruct (day_starts_at_rotating_offset online "Rome" 3 "cultural" r 1 d Hr Hd)
    as (entry & money & Hentry & _ & Hhead).
  vm_compute in Hentry. injection Hentry as <-.
  exists r, d, money. split; [ exact Hr | ]. split; [ exact Hd | ].
  split; [ vm_compute; reflexivity | exact Hhead ].
Defined.

Lemma distinct_pool_taken_in_order_witness :
  ∃ r d,
    _generate_itinerary_data online "Rome" 3 "cultural" = Some r
    ∧ days (data r) !! 2%nat = Some d
    ∧ part_names d = ["Place 7"; "Place 1"; "Place 2"]
    ∧ Some <$> part_names d
      = (fun j => name_at (activity_pool online "Rome" 3 "cultural")
                          ((3 * 2 + j) mod length (activity_pool online "Rome" 3 "cultural"))%nat)
          <$> [0; 1; 2]%nat.
Proof.
  eexists _, _. split; [ vm_compute; reflexivity | ].
  split; [ vm_compute; reflexivity | ]. split; [ vm_compute; reflexivity | ].
  refine (distinct_pool_taken_in_order online "Rome" 3 "cultural" _ 2 _ _ _ _ _);
    [ vm_compute; reflexivity | vm_compute; reflexivity
    | apply (bool_decide_unpack _); vm_compute; exact I
    | vm_compute; lia ].
Defined.

Lemma fallback_days_all_alike_witness :
  ∃ r,
    _generate_itinerary_data offline "Kyoto" 4 "food" = Some r
    ∧ Forall (fun d => part_names d = name <$> activity_pool offline "Kyoto" 4 "food")
             (days (data r))
    ∧ name <$> activity_pool offline "Kyoto" 4 "food"
      = ["Market Food Tour"; "Cooking Class"; "Street Eats Crawl"].
Proof.
  eexists. split; [ vm_compute; reflexivity | ].
  split; [ | vm_compute; reflexivity ].
  refine (fallback_days_all_alike offline "Kyoto" 4 "food" _ _ _);
    vm_compute; reflexivity.
Defined.

Lemma single_entry_pool_repeats_witness :
  ∃ r,
    _generate_itinerary_data one_place "Brest" 2 "relaxed" = Some r
    ∧ Forall (fun d => part_names d
                       = ["Old Lighthouse"; "Old Lighthouse"; "Old Lighthouse"])
             (days (data r)).
Proof.
  eexists. split; [ vm_compute; reflexivity | ].
  refine (single_entry_pool_repeats one_place "Brest" 2 "relaxed" _
            {| name := "Old Lighthouse";
               description := "A history in Brest.";
               category := "History" |} _ _);
    vm_compute; reflexivity.
Defined.
